(** * fastface: the LFFD detection head and the padding transform

    A shallow embedding of

    - [mypackage/arch/lffd/blocks/detection.py] (class [DetectionHead]:
      [gen_rf_anchors], [apply_bbox_regression], [build_targets],
      [compute_loss]),
    - [transforms/pad.py] (class [Padding]),
    - [fastface/module.py] (class [FaceDetector]: [forward] and the
      grouping of predictions in [validation_step]) and
    - [mypackage/utils/config.py] (the discovery of architectures),

    together with the properties their specification states.

    Conventions of the embedding.

    - A dense tensor is its shape together with its elements in row-major
      order, which is how torch and numpy store a contiguous tensor; a
      trailing dimension of four (boxes, regression vectors) is a record
      [vec4].
    - Tensor elements of floating dtype are rationals [Q], and derived
      equalities are stated with [==].  The arithmetic of a function is
      that of the rationals, which describes the program up to rounding;
      for the anchor generator the rounding of the tensor dtype is
      modelled as well ([gen_rf_anchors_dtype]), and the two agree where
      no operation rounds.  Infinities and nan are not values of the
      model.
    - Python integers are [Z]; sizes and indices that the language keeps
      non-negative (shapes, lengths) are [nat].
    - A call that can raise returns a [result].
    - A string is the list of its characters. *)

From Stdlib Require Import List Bool Arith ZArith QArith Qminmax Qround Lia Lqa.
From Stdlib Require Ascii String.
Import ListNotations.

Set Implicit Arguments.

Open Scope nat_scope.

(** ** Errors *)

Inductive error : Type :=
| IndexError
| ValueError
| RuntimeError
| AssertionError.

Inductive result (A : Type) : Type :=
| Ok (a : A)
| Err (e : error).

Arguments Ok {A} a.
Arguments Err {A} e.

Definition bind {A B : Type} (m : result A) (k : A -> result B) : result B :=
  match m with
  | Ok a => k a
  | Err e => Err e
  end.

Notation "x <- m ;; k" := (bind m (fun x => k))
  (at level 61, m at next level, right associativity).
Notation "' p <- m ;; k" := (bind m (fun x => let p := x in k))
  (at level 61, p pattern, m at next level, right associativity).

Definition is_ok {A : Type} (m : result A) : bool :=
  match m with
  | Ok _ => true
  | Err _ => false
  end.

(** ** Four-vectors: boxes [(xmin, ymin, xmax, ymax)] and regression rows *)

Record vec4 : Type := V4 { c0 : Q; c1 : Q; c2 : Q; c3 : Q }.

Definition vec4_zero : vec4 := V4 0 0 0 0.

(** Component-wise equality of rationals. *)
Definition vec4_eq (a b : vec4) : Prop :=
  (c0 a == c0 b /\ c1 a == c1 b /\ c2 a == c2 b /\ c3 a == c3 b)%Q.

Definition vec4_eqb (a b : vec4) : bool :=
  Qeq_bool (c0 a) (c0 b) && Qeq_bool (c1 a) (c1 b) &&
  Qeq_bool (c2 a) (c2 b) && Qeq_bool (c3 a) (c3 b).

Definition box_width (b : vec4) : Q := (c2 b - c0 b)%Q.
Definition box_height (b : vec4) : Q := (c3 b - c1 b)%Q.

(** ** Grids: tensors of shape [(fh, fw)] or [(fh, fw, 4)] *)

Record grid (A : Type) : Type :=
  Grid { gh : nat; gw : nat; gdata : list A }.

Definition grid_wf {A : Type} (g : grid A) : Prop :=
  length (gdata g) = gh g * gw g.

(** [g[row, col]], with [d] where the index is out of range. *)
Definition cell {A : Type} (d : A) (g : grid A) (row col : nat) : A :=
  nth (row * gw g + col) (gdata g) d.

Definition grid_map {A B : Type} (f : A -> B) (g : grid A) : grid B :=
  Grid (gh g) (gw g) (map f (gdata g)).

(** ** The torch primitives the head uses *)

Definition Zq (z : Z) : Q := inject_Z z.
Definition Nq (n : nat) : Q := inject_Z (Z.of_nat n).

(** [torch.arange(end)]: the values [0, 1, ..., end-1]; a negative [end]
    is refused by torch ("upper bound and larger bound inconsistent with
    step sign"). *)
Definition arange (n : Z) : result (list Q) :=
  if (n <? 0)%Z then Err RuntimeError
  else Ok (map Nq (seq 0 (Z.to_nat n))).

(** The row-major elements of the tensor [t[i, j] = f a[i] b[j]]. *)
Definition outer {A B C : Type} (f : A -> B -> C)
    (a : list A) (b : list B) : list C :=
  flat_map (fun ai => map (f ai) b) a.

(** [torch.meshgrid(a, b)] with the default "ij" indexing: the pair of
    grids [y[i, j] = a[i]] and [x[i, j] = b[j]]. *)
Definition meshgrid (a b : list Q) : grid Q * grid Q :=
  (Grid (length a) (length b) (outer (fun ai _ => ai) a b),
   Grid (length a) (length b) (outer (fun _ bj => bj) a b)).

(** [torch.stack([x, y], dim=-1)] of two grids of one shape. *)
Definition stack2 (x y : grid Q) : grid (Q * Q) :=
  Grid (gh x) (gw x) (combine (gdata x) (gdata y)).

(** [t.repeat(1, 1, 2)] on a tensor with a trailing dimension of two. *)
Definition repeat2 (p : Q * Q) : vec4 := V4 (fst p) (snd p) (fst p) (snd p).

(** [torch.clamp(x, lo, hi)] is [min(max(x, lo), hi)]. *)
Definition clamp (x lo hi : Q) : Q := Qmin (Qmax x lo) hi.

(** [t[..., [0,2]] = clamp(t[..., [0,2]], 0, xhi)] followed by the same on
    channels 1 and 3 with [yhi]. *)
Definition clamp_box (xhi yhi : Q) (b : vec4) : vec4 :=
  V4 (clamp (c0 b) 0 xhi) (clamp (c1 b) 0 yhi)
     (clamp (c2 b) 0 xhi) (clamp (c3 b) 0 yhi).

(** ** The detection head *)

(** The geometric parameters fixed by [DetectionHead.__init__]. *)
Record DetectionHead : Type := {
  head_idx : Z;
  rf_size : Z;
  rf_start_offset : Z;
  rf_stride : Z;
  num_classes : Z
}.

(** [self.rf_size/2]: true division. *)
Definition rf_half (self : DetectionHead) : Q := (Zq (rf_size self) / 2)%Q.

(** [gen_rf_anchors] with the arithmetic of the rationals; the dtype
    argument and its rounding are the subject of [gen_rf_anchors_dtype]
    below. *)
Definition gen_rf_anchors (self : DetectionHead) (fmaph fmapw : Z)
    (clip : bool) : result (grid vec4) :=
  ys <- arange fmaph ;;
  xs <- arange fmapw ;;
  let '(y, x) := meshgrid ys xs in
  let rfs := stack2 x y in
  let rfs := grid_map (fun p => (fst p * Zq (rf_stride self),
                                 snd p * Zq (rf_stride self))%Q) rfs in
  let rfs := grid_map (fun p => (fst p + Zq (rf_start_offset self),
                                 snd p + Zq (rf_start_offset self))%Q) rfs in
  let rfs := grid_map repeat2 rfs in
  let rfs := grid_map (fun b => V4 (c0 b - rf_half self) (c1 b - rf_half self)
                                   (c2 b) (c3 b)) rfs in
  let rfs := grid_map (fun b => V4 (c0 b) (c1 b)
                                   (c2 b + rf_half self)
                                   (c3 b + rf_half self)) rfs in
  let rfs :=
    if clip then
      grid_map (clamp_box (Zq (fmapw * rf_stride self))
                          (Zq (fmaph * rf_stride self))) rfs
    else rfs in
  Ok rfs.

(** The RF centre of cell [(row, col)], as the specification writes it. *)
Definition spec_rf_cx (self : DetectionHead) (col : nat) : Q :=
  (Nq col * Zq (rf_stride self) + Zq (rf_start_offset self))%Q.
Definition spec_rf_cy (self : DetectionHead) (row : nat) : Q :=
  (Nq row * Zq (rf_stride self) + Zq (rf_start_offset self))%Q.

(** The anchor of cell [(row, col)], as the specification writes it. *)
Definition spec_rf_anchor (self : DetectionHead) (row col : nat) : vec4 :=
  V4 (spec_rf_cx self col - rf_half self) (spec_rf_cy self row - rf_half self)
     (spec_rf_cx self col + rf_half self) (spec_rf_cy self row + rf_half self).

(** The centre of a box, as [apply_bbox_regression] computes it:
    [(anchors[..., :2] + anchors[..., 2:]) / 2]. *)
Definition center_x (b : vec4) : Q := ((c0 b + c2 b) / 2)%Q.
Definition center_y (b : vec4) : Q := ((c1 b + c3 b) / 2)%Q.

(** ** Floating dtypes *)

(** The floating dtypes of a tensor: [torch.float32], the default of
    [gen_rf_anchors], and [torch.float64]. *)
Inductive dtype : Type := float32 | float64.

(** The width of the significand, and the least exponent of a normal
    number. *)
Definition precision (dt : dtype) : Z :=
  match dt with float32 => 24 | float64 => 53 end.

Definition emin (dt : dtype) : Z :=
  match dt with float32 => -126 | float64 => -1022 end.

(** [2^e] for an integer exponent. *)
Definition pow2 (e : Z) : Q :=
  if (0 <=? e)%Z then inject_Z (2 ^ e) else (1 / inject_Z (2 ^ (- e)))%Q.

(** [floor(log2 |x|)] of a rational other than zero. *)
Definition ilog2 (x : Q) : Z :=
  let a := Z.abs (Qnum x) in
  let d := Zpos (Qden x) in
  let k := (Z.log2 d + 1)%Z in
  (Z.log2 (a * 2 ^ k / d) - k)%Z.

(** The nearest integer, a tie going to the even one. *)
Definition round_half_even (y : Q) : Z :=
  let f := Qfloor y in
  match (y - inject_Z f ?= 1 # 2)%Q with
  | Lt => f
  | Gt => (f + 1)%Z
  | Eq => if Z.even f then f else (f + 1)%Z
  end.

(** The value of the dtype nearest to [x], ties to even: [x] is rounded to
    a multiple of [2^s], where [s] is the exponent of the last place of
    the significand (fixed at [emin - (p - 1)] for subnormal numbers).
    The exponent has no upper bound here: a result of magnitude [2^128]
    ([float32]) or [2^1024] ([float64]) and more stands for an overflow,
    which torch turns into an infinity. *)
Definition fround (dt : dtype) (x : Q) : Q :=
  if Qeq_bool x 0 then 0%Q
  else
    let e := ilog2 x in
    let s := Z.max (e - (precision dt - 1)) (emin dt - (precision dt - 1)) in
    (inject_Z (round_half_even (x / pow2 s)) * pow2 s)%Q.

(** [torch.arange(end, dtype=dtype)]. *)
Definition arange_dtype (dt : dtype) (n : Z) : result (list Q) :=
  if (n <? 0)%Z then Err RuntimeError
  else Ok (map (fun k => fround dt (Nq k)) (seq 0 (Z.to_nat n))).

(** [self.rf_size/2] is a Python float (a [float64]); an operation of a
    tensor with a Python number casts the number to the tensor's dtype and
    rounds the result to that dtype. *)
Definition rf_half_dtype (dt : dtype) (self : DetectionHead) : Q :=
  fround dt (fround float64 (Zq (rf_size self) / 2)).

(** [gen_rf_anchors] with the arithmetic of the tensor dtype: every
    operation rounds its result to [dtype].  ([gen_rf_anchors] above is
    the same function with the arithmetic of the rationals, that is, up to
    rounding; the two agree where no operation rounds.) *)
Definition gen_rf_anchors_dtype (dt : dtype) (self : DetectionHead)
    (fmaph fmapw : Z) (clip : bool) : result (grid vec4) :=
  let rnd := fround dt in
  ys <- arange_dtype dt fmaph ;;
  xs <- arange_dtype dt fmapw ;;
  let '(y, x) := meshgrid ys xs in
  let rfs := stack2 x y in
  let stride := rnd (Zq (rf_stride self)) in
  let rfs := grid_map (fun p => (rnd (fst p * stride),
                                 rnd (snd p * stride))%Q) rfs in
  let offset := rnd (Zq (rf_start_offset self)) in
  let rfs := grid_map (fun p => (rnd (fst p + offset),
                                 rnd (snd p + offset))%Q) rfs in
  let rfs := grid_map repeat2 rfs in
  let half := rf_half_dtype dt self in
  let rfs := grid_map (fun b => V4 (rnd (c0 b - half)%Q)
                                   (rnd (c1 b - half)%Q)
                                   (c2 b) (c3 b)) rfs in
  let rfs := grid_map (fun b => V4 (c0 b) (c1 b)
                                   (rnd (c2 b + half)%Q)
                                   (rnd (c3 b + half)%Q)) rfs in
  let rfs :=
    if clip then
      grid_map (clamp_box (rnd (Zq (fmapw * rf_stride self)))
                          (rnd (Zq (fmaph * rf_stride self)))) rfs
    else rfs in
  Ok rfs.

(** The RF centre coordinate of column (or row) [k] and the anchor of cell
    [(row, col)], as the dtype computes them. *)
Definition dtype_rf_c (dt : dtype) (self : DetectionHead) (k : nat) : Q :=
  fround dt (fround dt (fround dt (Nq k) * fround dt (Zq (rf_stride self)))
             + fround dt (Zq (rf_start_offset self)))%Q.

Definition dtype_rf_anchor (dt : dtype) (self : DetectionHead)
    (row col : nat) : vec4 :=
  V4 (fround dt (dtype_rf_c dt self col - rf_half_dtype dt self)%Q)
     (fround dt (dtype_rf_c dt self row - rf_half_dtype dt self)%Q)
     (fround dt (dtype_rf_c dt self col + rf_half_dtype dt self)%Q)
     (fround dt (dtype_rf_c dt self row + rf_half_dtype dt self)%Q).

(** The parameters are small enough for the dtype to hold every number
    that [gen_rf_anchors] computes on an [fmaph] by [fmapw] map: these are
    multiples of one half below [2^(p-1)] in magnitude. *)
Definition anchors_fit (dt : dtype) (self : DetectionHead)
    (fmaph fmapw : Z) : Prop :=
  (Z.max fmaph fmapw * (1 + Z.abs (rf_stride self))
   + Z.abs (rf_start_offset self) + Z.abs (rf_size self)
   < 2 ^ (precision dt - 1))%Z.

(** ** Batched tensors of shape [(bs, fh, fw)] or [(bs, fh, fw, 4)] *)

Record batch (A : Type) : Type :=
  Batch { tb : nat; th : nat; tw : nat; tdata : list A }.

Definition batch_wf {A : Type} (t : batch A) : Prop :=
  length (tdata t) = tb t * (th t * tw t).

(** [t[b, i, j]], with [d] where the index is out of range. *)
Definition bcell {A : Type} (d : A) (t : batch A) (b i j : nat) : A :=
  nth (b * (th t * tw t) + (i * tw t + j)) (tdata t) d.

Definition same_shape {A B : Type} (s : batch A) (t : batch B) : bool :=
  (tb s =? tb t) && (th s =? th t) && (tw s =? tw t).

(** The elements of [l] repeated [n] times: a tensor broadcast along a new
    leading dimension of size [n]. *)
Definition tile {A : Type} (n : nat) (l : list A) : list A :=
  outer (fun _ x => x) (seq 0 n) l.

Definition zip_with {A B C : Type} (f : A -> B -> C)
    (l1 : list A) (l2 : list B) : list C :=
  map (fun p => f (fst p) (snd p)) (combine l1 l2).

Definition set_c0 (v : vec4) (x : Q) : vec4 := V4 x (c1 v) (c2 v) (c3 v).
Definition set_c1 (v : vec4) (x : Q) : vec4 := V4 (c0 v) x (c2 v) (c3 v).
Definition set_c2 (v : vec4) (x : Q) : vec4 := V4 (c0 v) (c1 v) x (c3 v).
Definition set_c3 (v : vec4) (x : Q) : vec4 := V4 (c0 v) (c1 v) (c2 v) x.

Definition check (b : bool) (e : error) : result unit :=
  if b then Ok tt else Err e.

(** [pred_boxes[..., k] = rhs], where [rhs] is computed from the broadcast
    RF centres and the regression logits. *)
Definition assign_channel (set : vec4 -> Q -> vec4)
    (rhs : Q * Q -> vec4 -> Q)
    (pred : list vec4) (centers : list (Q * Q)) (logits : list vec4)
    : list vec4 :=
  zip_with (fun p cl => set p (rhs (fst cl) (snd cl)))
           pred (combine centers logits).

Definition apply_bbox_regression (self : DetectionHead)
    (reg_logits : batch vec4) : result (batch vec4) :=
  let fh := th reg_logits in
  let fw := tw reg_logits in
  rf_anchors <- gen_rf_anchors self (Z.of_nat fh) (Z.of_nat fw) false ;;
  let rf_normalizer := rf_half self in
  _ <- check (fh =? gh rf_anchors) AssertionError ;;
  _ <- check (fw =? gw rf_anchors) AssertionError ;;
  let rf_centers :=
    grid_map (fun a => ((c0 a + c2 a) / 2, (c1 a + c3 a) / 2)%Q) rf_anchors in
  let centers := tile (tb reg_logits) (gdata rf_centers) in
  let logits := tdata reg_logits in
  let pred := logits in
  let pred := assign_channel set_c0
    (fun c r => fst c - rf_normalizer * c0 r)%Q pred centers logits in
  let pred := assign_channel set_c1
    (fun c r => snd c - rf_normalizer * c1 r)%Q pred centers logits in
  let pred := assign_channel set_c2
    (fun c r => fst c - rf_normalizer * c2 r)%Q pred centers logits in
  let pred := assign_channel set_c3
    (fun c r => snd c - rf_normalizer * c3 r)%Q pred centers logits in
  let xhi := Zq (Z.of_nat fw * rf_stride self) in
  let yhi := Zq (Z.of_nat fh * rf_stride self) in
  let pred := map (fun p => V4 (clamp (c0 p) 0 xhi) (c1 p)
                               (clamp (c2 p) 0 xhi) (c3 p)) pred in
  let pred := map (fun p => V4 (c0 p) (clamp (c1 p) 0 yhi)
                               (c2 p) (clamp (c3 p) 0 yhi)) pred in
  Ok (Batch (tb reg_logits) fh fw pred).

(** The decoded box of one cell, from the cell's anchor [a] and its
    regression row [r], on a feature map of [fh] by [fw] cells. *)
Definition spec_decode (self : DetectionHead) (fh fw : nat) (a r : vec4) : vec4 :=
  let n := rf_half self in
  let xhi := Zq (Z.of_nat fw * rf_stride self) in
  let yhi := Zq (Z.of_nat fh * rf_stride self) in
  V4 (clamp (center_x a - n * c0 r) 0 xhi)
     (clamp (center_y a - n * c1 r) 0 yhi)
     (clamp (center_x a - n * c2 r) 0 xhi)
     (clamp (center_y a - n * c3 r) 0 yhi).

(** *** Target construction *)

(** [t[i]] of a batched tensor whose images hold [n] cells each. *)
Definition image_slice {A : Type} (n i : nat) (data : list A) : list A :=
  firstn n (skipn (i * n) data).

(** [t[i] = seg] for a segment [seg] of [n] cells. *)
Definition set_image_slice {A : Type} (n i : nat) (seg data : list A)
    : list A :=
  firstn (i * n) data ++ seg ++ skipn (i * n + n) data.

(** The elements of [g] broadcast to the shape [(fh, fw)], the way a slice
    assignment [t[i, :, :] = g] expands its right-hand side: a dimension of
    [g] must equal the target's or be one. *)
Definition broadcast_to {A : Type} (d : A) (fh fw : nat) (g : grid A)
    : result (list A) :=
  if ((gh g =? fh) || (gh g =? 1)) && ((gw g =? fw) || (gw g =? 1)) then
    Ok (flat_map
          (fun i =>
             map (fun j => cell d g (if gh g =? fh then i else 0)
                                    (if gw g =? fw then j else 0))
                 (seq 0 fw))
          (seq 0 fh))
  else Err RuntimeError.

(** The three target tensors under construction. *)
Record targets : Type := Targets {
  t_cls : batch Q;
  t_regs : batch vec4;
  t_ignore : batch bool
}.

(** What one call of the matcher returns:
    [(cls_mask, reg_targets, ignore_mask)], a boolean mask of rank two,
    the regression targets with their trailing dimension of four, and a
    boolean mask of rank two.  (Masks of another rank, which torch's
    indexing accepts as well, are not covered.) *)
Definition match_result : Type := (grid bool * grid vec4 * grid bool)%type.

Section Head.
(** [LFFDMatcher.__call__] lives in [mypackage/utils/matcher.py], outside
    the inspected sources; the head is parameterised by it. *)
Variable matcher : grid vec4 -> list vec4 -> Q -> result match_result.

(** [random_sample_selection] lives in [mypackage/utils/utils.py], outside
    the inspected sources; one run of the head sees one outcome of the
    draw, which is what this function stands for. *)
Variable random_sample_selection : list nat -> Z -> result (list nat).

(** [F.binary_cross_entropy_with_logits(input, target)] on an input of
    shape [(N, C)] and a target of shape [(N, 1)], given row by row. *)
Variable binary_cross_entropy_with_logits :
  list (list Q) -> list (list Q) -> result Q.

Variable self : DetectionHead.

(** The body of [for i in range(batch_size)], from image [i] on. *)
Fixpoint build_targets_loop (rf_anchors : grid vec4) (fh fw : nat)
    (i : nat) (gt_boxes : list (list vec4)) (st : targets)
    : result targets :=
  match gt_boxes with
  | [] => Ok st
  | gt :: rest =>
      m <- matcher rf_anchors gt (rf_half self) ;;
      let '(cls_mask, reg_targets, ignore_mask) := m in
      let n := fh * fw in
      (* t_cls[i, cls_mask] = 1 *)
      _ <- check ((gh cls_mask =? fh) && (gw cls_mask =? fw)) IndexError ;;
      let cls_i :=
        zip_with (fun (m : bool) (old : Q) => if m then 1%Q else old)
                 (gdata cls_mask) (image_slice n i (tdata (t_cls st))) in
      let cls' := Batch (tb (t_cls st)) fh fw
                    (set_image_slice n i cls_i (tdata (t_cls st))) in
      (* t_regs[i, :,:,:] = reg_targets *)
      regs_i <- broadcast_to vec4_zero fh fw reg_targets ;;
      let regs' := Batch (tb (t_regs st)) fh fw
                     (set_image_slice n i regs_i (tdata (t_regs st))) in
      (* ignore[i, :,:] = ignore_mask *)
      ign_i <- broadcast_to false fh fw ignore_mask ;;
      let ign' := Batch (tb (t_ignore st)) fh fw
                    (set_image_slice n i ign_i (tdata (t_ignore st))) in
      build_targets_loop rf_anchors fh fw (S i) rest
        (Targets cls' regs' ign')
  end.

(** [torch.zeros(bs, fh, fw)] and friends. *)
Definition full {A : Type} (bs fh fw : nat) (x : A) : batch A :=
  Batch bs fh fw (repeat x (bs * (fh * fw))).

Definition build_targets (fmap : Z * Z) (gt_boxes : list (list vec4))
    : result targets :=
  let batch_size := length gt_boxes in
  let '(fh, fw) := fmap in
  (* torch.zeros refuses a negative dimension *)
  _ <- check ((0 <=? fh)%Z && (0 <=? fw)%Z) RuntimeError ;;
  let nh := Z.to_nat fh in
  let nw := Z.to_nat fw in
  let st := Targets (full batch_size nh nw 0%Q)
                    (full batch_size nh nw vec4_zero)
                    (full batch_size nh nw false) in
  rf_anchors <- gen_rf_anchors self fh fw false ;;
  build_targets_loop rf_anchors nh nw 0 gt_boxes st.

(** *** The loss *)

(** [mask.sum()] of a boolean tensor. *)
Definition count_true (mask : list bool) : Z :=
  Z.of_nat (length (filter (fun b : bool => b) mask)).

(** [torch.where(mask)] of a flat boolean tensor: the indices that hold
    [True], in increasing order. *)
Definition where_true (mask : list bool) : list nat :=
  filter (fun k => nth k mask false) (seq 0 (length mask)).

(** [t[mask]]: the elements (rows) of [t] where [mask] holds, in
    row-major order. *)
Definition select {A : Type} (mask : list bool) (data : list A) : list A :=
  map snd (filter fst (combine mask data)).

(** [mask[:] = False; mask[selections] = True] on a flat tensor; an index
    past the end is refused. *)
Definition scatter_true (len : nat) (selections : list nat)
    : result (list bool) :=
  _ <- check (forallb (fun k => k <? len) selections) IndexError ;;
  Ok (map (fun k => existsb (Nat.eqb k) selections) (seq 0 len)).

(** [F.mse_loss(input, target)] for an input of shape [(N, c)] and a
    target of shape [(N, 4)]: the mean of the squared differences over
    all [4 N] elements; an input with one channel is broadcast, any other
    channel count than four is refused.  (On [N = 0] torch returns nan;
    [compute_loss] guards the call so that [N > 0].) *)
Definition row_vec4 (c : nat) (r : list Q) : vec4 :=
  if c =? 1 then V4 (nth 0 r 0%Q) (nth 0 r 0%Q) (nth 0 r 0%Q) (nth 0 r 0%Q)
  else V4 (nth 0 r 0%Q) (nth 1 r 0%Q) (nth 2 r 0%Q) (nth 3 r 0%Q).

Definition sq_err (x t : vec4) : Q :=
  ((c0 x - c0 t) * (c0 x - c0 t) + (c1 x - c1 t) * (c1 x - c1 t) +
   (c2 x - c2 t) * (c2 x - c2 t) + (c3 x - c3 t) * (c3 x - c3 t))%Q.

Definition Qsum (l : list Q) : Q := fold_right Qplus 0%Q l.

Definition mse_loss (c : nat) (input : list (list Q)) (target : list vec4)
    : result Q :=
  _ <- check ((c =? 4) || (c =? 1)) RuntimeError ;;
  Ok (Qsum (zip_with sq_err (map (row_vec4 c) input) target)
      / (4 * Nq (length target)))%Q.

(** A rank-four tensor of shape [(d0, d1, d2, d3)], and whether autograd
    tracks it. *)
Record tensor4 : Type := Tensor4 {
  d0 : nat; d1 : nat; d2 : nat; d3 : nat;
  t4data : list Q;
  t4grad : bool
}.

Definition tensor4_wf (t : tensor4) : Prop :=
  length (t4data t) = d0 t * (d1 t * (d2 t * d3 t)).

(** [t.permute(0,2,3,1)]: from [(bs, C, fh, fw)] to [(bs, fh, fw, C)], the
    trailing dimension kept as the row of channels of each cell. *)
Definition permute_0231 (t : tensor4) : batch (list Q) :=
  Batch (d0 t) (d2 t) (d3 t)
    (flat_map (fun b =>
       flat_map (fun i =>
         map (fun j =>
           map (fun c =>
                  nth (((b * d1 t + c) * d2 t + i) * d3 t + j)
                      (t4data t) 0%Q)
               (seq 0 (d1 t)))
           (seq 0 (d3 t)))
         (seq 0 (d2 t)))
       (seq 0 (d0 t))).

(** A zero-dimensional tensor. *)
Record scalar : Type := Scalar { value : Q; requires_grad : bool }.

(** The intermediate values of one call of [compute_loss]. *)
Record loss_trace : Type := LossTrace {
  lt_targets : targets;
  lt_pos_mask : list bool;
  lt_rpos_mask : list bool;
  lt_neg_candidates : list bool;
  lt_positives : Z;
  lt_requested : Z;
  lt_selections : list nat;
  lt_neg_mask : list bool;
  lt_cls_input : list (list Q);
  lt_cls_target : list (list Q);
  lt_cls_loss : scalar;
  lt_reg_loss : scalar
}.

Definition compute_loss_trace (cls_logits reg_logits : tensor4)
    (gt_boxes : list (list vec4)) : result loss_trace :=
  let fh := d2 cls_logits in
  let fw := d3 cls_logits in
  let batch_size := d0 cls_logits in
  let ratio := 5%Z in
  let cls_rows := permute_0231 cls_logits in
  let reg_rows := permute_0231 reg_logits in
  tg <- build_targets (Z.of_nat fh, Z.of_nat fw) gt_boxes ;;
  let target_cls := tdata (t_cls tg) in
  let target_regs := tdata (t_regs tg) in
  let ignore := tdata (t_ignore tg) in
  let pos_mask :=
    zip_with (fun t ig => Qeq_bool t 1 && negb ig) target_cls ignore in
  let rpos_mask := map (fun t => Qeq_bool t 1) target_cls in
  let neg_mask :=
    zip_with (fun t ig => Qeq_bool t 0 && negb ig) target_cls ignore in
  let positives := count_true pos_mask in
  let negatives :=
    if (positives <=? 0)%Z then Z.of_nat batch_size
    else Z.min (count_true neg_mask) (ratio * positives) in
  (* random sample selection *)
  let ss := where_true neg_mask in
  selections <- random_sample_selection ss negatives ;;
  sampled <- scatter_true (length neg_mask) selections ;;
  (* neg_mask.view(batch_size, fh, fw) *)
  _ <- check (length sampled =? batch_size * (fh * fw)) RuntimeError ;;
  (* pos_mask | neg_mask, and indexing with it *)
  _ <- check (tb (t_cls tg) =? batch_size) IndexError ;;
  let union := zip_with orb pos_mask sampled in
  let cls_input := select union (tdata cls_rows) in
  let cls_target := map (fun t => [t]) (select union target_cls) in
  cls_value <- binary_cross_entropy_with_logits cls_input cls_target ;;
  let cls_loss := Scalar cls_value (t4grad cls_logits) in
  reg_loss <-
    (if (count_true rpos_mask <=? 0)%Z then Ok (Scalar 0 true)
     else
       _ <- check (same_shape reg_rows (t_cls tg)) IndexError ;;
       v <- mse_loss (d1 reg_logits)
              (select rpos_mask (tdata reg_rows))
              (select rpos_mask target_regs) ;;
       Ok (Scalar v (t4grad reg_logits))) ;;
  Ok (LossTrace tg pos_mask rpos_mask neg_mask positives negatives
        selections sampled cls_input cls_target cls_loss reg_loss).

Definition compute_loss (cls_logits reg_logits : tensor4)
    (gt_boxes : list (list vec4)) : result (scalar * scalar) :=
  tr <- compute_loss_trace cls_logits reg_logits gt_boxes ;;
  Ok (lt_cls_loss tr, lt_reg_loss tr).
End Head.

(** ** The padding transform ([transforms/pad.py]) *)

(** A numpy array: its shape and its elements in row-major order. *)
Record ndarray (A : Type) : Type :=
  NDArray { shape : list nat; elems : list A }.

Definition ndarray_wf {A : Type} (a : ndarray A) : Prop :=
  length (elems a) = fold_right Nat.mul 1 (shape a).

(** The row-major elements of the rank-three array [a[i, j, k] = f i j k]
    of shape [(n0, n1, n2)]. *)
Definition tab3 {A : Type} (n0 n1 n2 : nat) (f : nat -> nat -> nat -> A)
    : list A :=
  flat_map (fun i => outer (f i) (seq 0 n1) (seq 0 n2)) (seq 0 n0).

(** [a[i, j, k]] of a rank-three array of shape [(_, n1, n2)]. *)
Definition get3 {A : Type} (d : A) (n1 n2 : nat) (l : list A)
    (i j k : nat) : A :=
  nth ((i * n1 + j) * n2 + k) l d.

(** The bounds Python gives the slice [a:b] on an axis of length [n]:
    a negative bound counts from the end, both are clipped to [0, n], and
    an empty range starts and stops at its start. *)
Definition slice_bounds (n a b : Z) : nat * nat :=
  let norm x := (if x <? 0 then Z.max 0 (x + n) else Z.min x n)%Z in
  let lo := norm a in
  let hi := Z.max lo (norm b) in
  (Z.to_nat lo, Z.to_nat hi).

(** numpy stretches a source dimension of one to the target's. *)
Definition broadcastable (src dst : nat) : bool :=
  (src =? dst) || (src =? 1).

Module Pad.

Record Padding : Type := {
  target_size : Z * Z; (* w, h *)
  pad_value : Z
}.

(** The four pad widths [(pad_left, pad_right, pad_up, pad_down)]. *)
Definition pads (self : Padding) (h w : nat) : Z * Z * Z * Z :=
  let '(tw, th) := target_size self in
  let pad_left := ((tw - Z.of_nat w) / 2 + (tw - Z.of_nat w) mod 2)%Z in
  let pad_right := ((tw - Z.of_nat w) / 2)%Z in
  let '(pad_left, pad_right) :=
    if (Z.of_nat w >? tw)%Z then (0%Z, 0%Z) else (pad_left, pad_right) in
  let pad_up := ((th - Z.of_nat h) / 2 + (th - Z.of_nat h) mod 2)%Z in
  let pad_down := ((th - Z.of_nat h) / 2)%Z in
  let '(pad_up, pad_down) :=
    if (Z.of_nat h >? th)%Z then (0%Z, 0%Z) else (pad_up, pad_down) in
  (pad_left, pad_right, pad_up, pad_down).

(** [nboxes[:, cols] = boxes[:, cols] + pad] on arrays of [k] columns. *)
Definition assign_cols (cols : list nat) (pad : Z) (k : nat)
    (nboxes boxes : list Q) : list Q :=
  map (fun p =>
         let idx := fst p in
         if existsb (Nat.eqb (idx mod k)) cols
         then (snd (snd p) + Zq pad)%Q
         else fst (snd p))
      (combine (seq 0 (length nboxes)) (combine nboxes boxes)).

Definition call (self : Padding) (img : ndarray Z) (boxes : ndarray Q)
    : result (ndarray Z * ndarray Q) :=
  match shape img with
  | [h; w; c] =>
      let '(tw, th) := target_size self in
      let '(pad_left, pad_right, pad_up, pad_down) := pads self h w in
      (* np.ones((th, tw, c)) * pad_value *)
      _ <- check ((0 <=? th)%Z && (0 <=? tw)%Z) ValueError ;;
      let nh := Z.to_nat th in
      let nw := Z.to_nat tw in
      (* nimg[pad_up:th-pad_down, pad_left:tw-pad_right] = img *)
      let '(r0, r1) := slice_bounds th pad_up (th - pad_down) in
      let '(x0, x1) := slice_bounds tw pad_left (tw - pad_right) in
      let rh := r1 - r0 in
      let rw := x1 - x0 in
      _ <- check (broadcastable h rh && broadcastable w rw) ValueError ;;
      let nimg :=
        tab3 nh nw c
          (fun y x ch =>
             if (r0 <=? y) && (y <? r1) && (x0 <=? x) && (x <? x1)
             then get3 0%Z w c (elems img)
                       (if h =? rh then y - r0 else 0)
                       (if w =? rw then x - x0 else 0) ch
             else pad_value self) in
      nboxes <-
        match shape boxes with
        | [n; k] =>
            if 0 <? n then
              _ <- check (2 <? k) IndexError ;;
              let nb := assign_cols [0; 2] pad_left k
                          (elems boxes) (elems boxes) in
              _ <- check (3 <? k) IndexError ;;
              let nb := assign_cols [1; 3] pad_up k nb (elems boxes) in
              Ok (NDArray (shape boxes) nb)
            else Ok boxes
        | _ => Ok boxes
        end ;;
      Ok (NDArray [nh; nw; c] nimg, nboxes)
  | _ => Err ValueError
  end.

(** Row [i] of an array of [k] columns, as a box. *)
Definition box_row (k : nat) (l : list Q) (i : nat) : vec4 :=
  V4 (nth (i * k) l 0%Q) (nth (i * k + 1) l 0%Q)
     (nth (i * k + 2) l 0%Q) (nth (i * k + 3) l 0%Q).

End Pad.

(** ** The detector module ([fastface/module.py]) *)

(** A row of the prediction tensor of shape [(N, 6)]:
    [xmin, ymin, xmax, ymax, score, batch index]. *)
Record prediction : Type :=
  Pred { p_box : vec4; p_score : Q; p_batch : Q }.

(** The literal [1e-16]. *)
Definition eps16 : Q := 1 # 10000000000000000.

Section FaceDetector.
(** The architecture ([self.arch]) is built from a class that
    [get_arch_cls] loads at run time; the detector is parameterised by its
    three methods.  [preprocess] returns the batch, the scale factor and
    the pad tensor (one-dimensional). *)
Variable Logits : Type.
Variable preprocess : tensor4 -> result (tensor4 * Q * list Q).
Variable arch_forward : tensor4 -> result Logits.
Variable postprocess : Logits -> result (list prediction).

Definition map_box (f : vec4 -> vec4) (p : prediction) : prediction :=
  Pred (f (p_box p)) (p_score p) (p_batch p).

(** [FaceDetector.forward]. *)
Definition detector_forward (batch : tensor4) : result (list prediction) :=
  let image_h := d2 batch in
  let image_w := d3 batch in
  r <- preprocess batch ;;
  let '(batch', sf, pad) := r in
  logits <- arch_forward batch' ;;
  preds <- postprocess logits ;;
  (* preds[:, :4] = preds[:, :4] - pad[:2].repeat(2): the subtrahend has
     four elements exactly when [pad] has at least two *)
  pad4 <- match pad with
          | p0 :: p1 :: _ => Ok (V4 p0 p1 p0 p1)
          | _ => Err RuntimeError
          end ;;
  let preds :=
    map (map_box (fun b => V4 (c0 b - c0 pad4) (c1 b - c1 pad4)
                              (c2 b - c2 pad4) (c3 b - c3 pad4))%Q) preds in
  (* preds[:, :4] = preds[:, :4] / (sf + 1e-16); a zero divisor makes
     torch return nan or an infinity, which a rational cannot stand for:
     the statements about this function exclude it *)
  let preds :=
    map (map_box (fun b => V4 (c0 b / (sf + eps16)) (c1 b / (sf + eps16))
                              (c2 b / (sf + eps16)) (c3 b / (sf + eps16)))%Q)
        preds in
  (* preds[:, [0, 2]] = preds[:, [0, 2]].clamp(min=0, max=image_w) *)
  let preds :=
    map (map_box (fun b => V4 (clamp (c0 b) 0 (Nq image_w)) (c1 b)
                              (clamp (c2 b) 0 (Nq image_w)) (c3 b))) preds in
  (* preds[:, [1, 3]] = preds[:, [1, 3]].clamp(min=0, max=image_h) *)
  let preds :=
    map (map_box (fun b => V4 (c0 b) (clamp (c1 b) 0 (Nq image_h))
                              (c2 b) (clamp (c3 b) 0 (Nq image_h)))) preds in
  Ok preds.
End FaceDetector.

(** A box lies in an image of [w] by [h] pixels. *)
Definition in_image (w h : nat) (b : vec4) : Prop :=
  (0 <= c0 b <= Nq w /\ 0 <= c1 b <= Nq h /\
   0 <= c2 b <= Nq w /\ 0 <= c3 b <= Nq h)%Q.

(** The grouping of the predictions in [FaceDetector.validation_step]:
    [[preds[preds[:, 5] == batch_idx][:, :5] for batch_idx in
    range(batch_size)]]; a row keeps its box and its score. *)
Definition batch_preds (batch_size : nat) (preds : list prediction)
    : list (list (vec4 * Q)) :=
  map (fun batch_idx =>
         map (fun p => (p_box p, p_score p))
           (filter (fun p => Qeq_bool (p_batch p) (Nq batch_idx)) preds))
      (seq 0 batch_size).

(** The batch index of a prediction is one of [range(batch_size)]. *)
Definition batch_index_in_range (batch_size : nat) (p : prediction) : bool :=
  existsb (fun batch_idx => Qeq_bool (p_batch p) (Nq batch_idx))
    (seq 0 batch_size).

(** ** Architecture discovery ([mypackage/utils/config.py]) *)

Module Config.
Import Ascii String.

(** A Python [str] is the list of its characters; a character is a code
    point below 256. *)
Definition str : Type := list ascii.

Definition lit (s : string) : str := list_ascii_of_string s.

Arguments lit : simpl never.

(** [a == b] *)
Fixpoint str_eqb (a b : str) : bool :=
  match a, b with
  | [], [] => true
  | x :: a, y :: b => Ascii.eqb x y && str_eqb a b
  | _, _ => false
  end.

(** [s.startswith(p)] *)
Fixpoint startswith (s p : str) : bool :=
  match p, s with
  | [], _ => true
  | y :: p, x :: s => Ascii.eqb x y && startswith s p
  | _ :: _, [] => false
  end.

(** [s.endswith(p)] *)
Definition endswith (s p : str) : bool := startswith (rev s) (rev p).

(** The [count] argument of [str.replace]: [None] stands for a negative
    count, which replaces every occurrence. *)
Definition can_replace (count : option nat) : bool :=
  match count with
  | Some 0 => false
  | _ => true
  end.

Definition one_less (count : option nat) : option nat :=
  match count with
  | Some n => Some (n - 1)
  | None => None
  end.

(** Replacement of a non-empty [old]: the occurrences are found from left
    to right and do not overlap; [skip] characters of the occurrence just
    replaced are still to be dropped. *)
Fixpoint replace_from (old new : str) (count : option nat) (skip : nat)
    (s : str) : str :=
  match s with
  | [] => []
  | c :: r =>
      match skip with
      | S k => replace_from old new count k r
      | 0 =>
          if startswith (c :: r) old && can_replace count then
            new ++ replace_from old new (one_less count)
                     (List.length old - 1) r
          else c :: replace_from old new count 0 r
      end
  end.

(** Replacement of the empty string: [new] goes before every character
    and after the last one, as long as the count allows. *)
Fixpoint insert_between (new : str) (count : option nat) (s : str) : str :=
  if can_replace count then
    new ++ match s with
           | [] => []
           | c :: r => c :: insert_between new (one_less count) r
           end
  else s.

(** [s.replace(old, new, count)] *)
Definition replace (s old new : str) (count : Z) : str :=
  let limit := if (count <? 0)%Z then None else Some (Z.to_nat count) in
  match old with
  | [] => insert_between new limit s
  | _ :: _ => replace_from old new limit 0 s
  end.

(** [s.split(c)] for a separator of one character. *)
Fixpoint split (c : ascii) (s : str) : list str :=
  match s with
  | [] => [[]]
  | x :: r =>
      if Ascii.eqb x c then [] :: split c r
      else match split c r with
           | w :: ws => (x :: w) :: ws
           | [] => [[x]]
           end
  end.

(** [sep.join(parts)] *)
Fixpoint str_join (sep : str) (parts : list str) : str :=
  match parts with
  | [] => []
  | [w] => w
  | w :: ws => w ++ sep ++ str_join sep ws
  end.

(** [c.lower()] on the code points below 256: the letters [A]-[Z] and the
    Latin-1 capitals [U+00C0]-[U+00DE] except the sign [U+00D7]. *)
Definition lower_char (c : ascii) : ascii :=
  let n := nat_of_ascii c in
  if ((65 <=? n) && (n <=? 90))
     || ((192 <=? n) && (n <=? 222) && negb (n =? 215))
  then ascii_of_nat (n + 32) else c.

(** [s.lower()] *)
Definition lower (s : str) : str := map lower_char s.

(** [os.path.sep] and [os.path.join] of two paths, as on POSIX. *)
Definition sep_char : ascii := "/"%char.
Definition sep : str := [sep_char].

Definition join (a b : str) : str :=
  if startswith b sep then b
  else if (match a with [] => true | _ :: _ => false end) || endswith a sep
       then a ++ b
       else a ++ sep ++ b.

(** A generator: what the consumer's [for] loop sees, one step at a
    time.  The body runs up to the next [yield], to its end, or to an
    exception. *)
Inductive gen (A : Type) : Type :=
| Stop
| Yield (a : A) (rest : gen A)
| Raise (e : error).

Arguments Stop {A}.
Arguments Yield {A} a rest.
Arguments Raise {A} e.

(** The values a generator yields before it stops or raises. *)
Fixpoint gen_items {A : Type} (g : gen A) : list A :=
  match g with
  | Yield a rest => a :: gen_items rest
  | _ => []
  end.

Section FileSystem.
(** The environment of the module: the real path of [config.py], the
    directory listing [os.listdir], the test [os.path.isfile], and
    [importlib.import_module], whose result is given by the names of
    [dir(api)], in that order, each with its attribute [getattr(api, d)].
    An exception of the listing or of the import is passed on. *)
Variable config_file : str.
Variable listdir : str -> result (list str).
Variable isfile : str -> bool.
Variable Cls : Type.
Variable import_module : str -> result (list (str * Cls)).

(** [__ROOT_PATH__] *)
Definition ROOT_PATH : str :=
  let parts := split sep_char config_file in
  str_join sep (firstn (List.length parts - 2) parts).

Definition get_pkg_root_path : str := ROOT_PATH.

Definition get_pkg_arch_path : str :=
  let root_path := get_pkg_root_path in
  join root_path (lit "arch").

(** The loop of [discover_archs] over the listed candidates. *)
Fixpoint discover_in (arch_path : str) (candidates : list str)
    : gen (str * str) :=
  match candidates with
  | [] => Stop
  | candidate :: rest =>
      let file_path := join arch_path candidate in
      if isfile file_path || str_eqb candidate (lit "__pycache__")
      then discover_in arch_path rest
      else
        let module_path := join file_path (lit "module.py") in
        if isfile module_path
        then Yield (candidate, module_path) (discover_in arch_path rest)
        else Raise AssertionError
  end.

Definition discover_archs : gen (str * str) :=
  let arch_path := get_pkg_arch_path in
  match listdir arch_path with
  | Ok candidates => discover_in arch_path candidates
  | Err e => Raise e
  end.

(** The dotted module path that [get_arch_pkg] and [get_arch_cls] compute
    from [module_path] (the same three statements in both). *)
Definition module_name (arch_path module_path : str) : str :=
  let abs_m_p :=
    replace (replace module_path arch_path [] 1) (lit ".py") [] (-1) in
  let abs_m_p :=
    if startswith abs_m_p sep then replace abs_m_p sep [] 1 else abs_m_p in
  replace abs_m_p sep (lit ".") (-1).

Fixpoint get_arch_pkg_loop (arch_path arch : str) (g : gen (str * str))
    : result (list (str * Cls)) :=
  match g with
  | Stop => Err AssertionError
  | Raise e => Err e
  | Yield (arch_name, module_path) rest =>
      if negb (str_eqb arch_name arch)
      then get_arch_pkg_loop arch_path arch rest
      else import_module
             (lit "mypackage.arch." ++ module_name arch_path module_path)
  end.

Definition get_arch_pkg (arch : str) : result (list (str * Cls)) :=
  let arch_path := get_pkg_arch_path in
  get_arch_pkg_loop arch_path arch discover_archs.

(** The inner loop of [get_arch_cls] over [dir(api)]. *)
Fixpoint find_cls (arch : str) (names : list (str * Cls)) : option Cls :=
  match names with
  | [] => None
  | (d, v) :: rest =>
      if negb (str_eqb (lower d) arch) then find_cls arch rest else Some v
  end.

Fixpoint get_arch_cls_loop (arch_path arch : str) (g : gen (str * str))
    : result Cls :=
  match g with
  | Stop => Err AssertionError
  | Raise e => Err e
  | Yield (arch_name, module_path) rest =>
      if negb (str_eqb arch_name arch)
      then get_arch_cls_loop arch_path arch rest
      else
        api <- import_module
                 (lit "mypackage.arch." ++ module_name arch_path module_path) ;;
        match find_cls arch api with
        | Some v => Ok v
        | None => get_arch_cls_loop arch_path arch rest
        end
  end.

Definition get_arch_cls (arch : str) : result Cls :=
  let arch_path := get_pkg_arch_path in
  get_arch_cls_loop arch_path arch discover_archs.
End FileSystem.

(** A name with a capital letter [A]-[Z]. *)
Definition is_upper (c : ascii) : bool :=
  (65 <=? nat_of_ascii c) && (nat_of_ascii c <=? 90).

(** A path component: no separator in it. *)
Definition no_sep (s : str) : bool :=
  forallb (fun c => negb (Ascii.eqb c sep_char)) s.

(** A name without path separator and without dot. *)
Definition plain_char (c : ascii) : bool :=
  negb (Ascii.eqb c sep_char) && negb (Ascii.eqb c "."%char).

Definition plain_name (s : str) : bool :=
  match s with
  | [] => false
  | _ :: _ => forallb plain_char s
  end.

(** The file [module.py] of the directory [name] below [arch_path]. *)
Definition module_file (arch_path name : str) : str :=
  join (join arch_path name) (lit "module.py").

(** An installation: the package lies in [/site/mypackage]; its [arch]
    directory holds a file, a cache directory, the architecture [lffd]
    and a directory without [module.py]. *)
Definition example_config_file : str :=
  lit "/site/mypackage/utils/config.py".

Definition example_listdir (path : str) : result (list str) :=
  Ok [lit "__init__.py"; lit "__pycache__"; lit "lffd"; lit "broken"].

Definition example_isfile (path : str) : bool :=
  str_eqb path (lit "/site/mypackage/arch/__init__.py")
  || str_eqb path (lit "/site/mypackage/arch/lffd/module.py").

(** The module of [lffd] defines the class [LFFD] (here [1]) and imports
    [nn] (here [2]); no other module can be imported. *)
Definition example_import (name : str) : result (list (str * nat)) :=
  if str_eqb name (lit "mypackage.arch.lffd.module")
  then Ok [(lit "LFFD", 1); (lit "nn", 2)]
  else Err RuntimeError.

Definition name_lffd : str := lit "lffd".
Definition name_LFFD : str := lit "LFFD".
Definition name_retina : str := lit "retina".
Definition lffd_module : str := lit "mypackage.arch.lffd.module".
Definition example_root : str := lit "/site/mypackage".
Definition dir_utils : str := lit "utils".
Definition file_config : str := lit "config.py".
End Config.

(** ** The contracts of the external collaborators *)

(** The matcher's contract on shapes: for anchors of shape [(fh, fw)] it
    returns a mask, regression targets and an ignore mask of that shape. *)
Definition grid_shaped {A : Type} (fh fw : nat) (g : grid A) : bool :=
  (gh g =? fh) && (gw g =? fw) && (length (gdata g) =? fh * fw).

Definition well_shaped (fh fw : nat) (m : result match_result) : bool :=
  match m with
  | Ok (cls_mask, reg_targets, ignore_mask) =>
      grid_shaped fh fw cls_mask && grid_shaped fh fw reg_targets &&
      grid_shaped fh fw ignore_mask
  | Err _ => false
  end.

(** The matcher honours its contract on every image of the batch. *)
Definition matcher_contract_on
    (matcher : grid vec4 -> list vec4 -> Q -> result match_result)
    (self : DetectionHead) (fh fw : nat) (gt_boxes : list (list vec4))
    : bool :=
  match gen_rf_anchors self (Z.of_nat fh) (Z.of_nat fw) false with
  | Ok anchors =>
      forallb (fun gt => well_shaped fh fw (matcher anchors gt (rf_half self)))
              gt_boxes
  | Err _ => false
  end.

(** What the matcher returned for image [b] of the batch. *)
Definition matched
    (matcher : grid vec4 -> list vec4 -> Q -> result match_result)
    (self : DetectionHead) (fh fw : nat) (gt_boxes : list (list vec4))
    (b : nat) : result match_result :=
  anchors <- gen_rf_anchors self (Z.of_nat fh) (Z.of_nat fw) false ;;
  match nth_error gt_boxes b with
  | Some gt => matcher anchors gt (rf_half self)
  | None => Err IndexError
  end.

(** The part of the sampler's contract (specification, section 6) that the
    head relies on: the call returns, and what it returns is drawn from the
    candidates. *)
Definition sampler_contract
    (sample : list nat -> Z -> result (list nat)) : Prop :=
  forall candidates k,
    exists sel, sample candidates k = Ok sel /\ incl sel candidates.

(** [F.binary_cross_entropy_with_logits] returns a value whenever its
    input and target have the same size; the head passes a target with one
    column. *)
Definition bce_contract
    (bce : list (list Q) -> list (list Q) -> result Q) : Prop :=
  forall input target,
    length input = length target ->
    Forall (fun r => length r = 1) input ->
    Forall (fun r => length r = 1) target ->
    exists v, bce input target = Ok v.

(** A batched tensor has the shape [(bs, fh, fw)] and as many elements. *)
Definition batch_shaped {A : Type} (bs fh fw : nat) (t : batch A) : Prop :=
  tb t = bs /\ th t = fh /\ tw t = fw /\
  length (tdata t) = bs * (fh * fw).

Definition targets_shaped (bs fh fw : nat) (st : targets) : Prop :=
  batch_shaped bs fh fw (t_cls st) /\ batch_shaped bs fh fw (t_regs st) /\
  batch_shaped bs fh fw (t_ignore st).

(** The grids the matcher returns are tensors: each holds as many elements
    as its shape says, whenever the anchors it is given do. *)
Definition matcher_returns_tensors
    (matcher : grid vec4 -> list vec4 -> Q -> result match_result) : Prop :=
  forall anchors gt n cm rt im,
    grid_wf anchors ->
    matcher anchors gt n = Ok (cm, rt, im) ->
    grid_wf cm /\ grid_wf rt /\ grid_wf im.

(** A class target is zero or one. *)
Definition zero_one (t : Q) : Prop := t = 0%Q \/ t = 1%Q.

(** The sampler returns at most the number of indices it is asked for. *)
Definition sampler_bounded
    (sample : list nat -> Z -> result (list nat)) : Prop :=
  forall candidates k sel,
    sample candidates k = Ok sel ->
    (Z.of_nat (length sel) <= Z.max 0 k)%Z.

(** ** Concrete inputs used by the examples below *)

(** The head of the specification's end-to-end scenario. *)
Definition example_head : DetectionHead :=
  {| head_idx := 0; rf_size := 20; rf_start_offset := 10; rf_stride := 8;
     num_classes := 1 |}.

(** Two heads whose receptive fields start beyond [2^24] pixels, where
    [float32] holds even integers only. *)
Definition far_head : DetectionHead :=
  {| head_idx := 0; rf_size := 2; rf_start_offset := 16777216;
     rf_stride := 1; num_classes := 1 |}.

Definition far_head3 : DetectionHead :=
  {| head_idx := 0; rf_size := 3; rf_start_offset := 16777218;
     rf_stride := 1; num_classes := 1 |}.


(** Regression logits of shape [(1, 2, 2, 4)]. *)
Definition example_logits : batch vec4 :=
  Batch 1 2 2 [V4 1 1 (-1) (-1); V4 0 0 0 0;
               V4 (1 # 2) (1 # 4) (-3) (-2); V4 5 5 5 5].

(** A small matcher standing in for [LFFDMatcher] in the examples: a cell
    is positive when its RF centre lies in a ground-truth box, its
    regression target is the centre's offset to the edges of the first such
    box in units of [n], and it is ignored when such a box is at most [n]
    wide. *)
Definition inside (g : vec4) (x y : Q) : bool :=
  Qle_bool (c0 g) x && Qle_bool x (c2 g) &&
  Qle_bool (c1 g) y && Qle_bool y (c3 g).

Definition example_matcher (anchors : grid vec4) (gt : list vec4) (n : Q)
    : result match_result :=
  let hit a g := inside g (center_x a) (center_y a) in
  Ok (grid_map (fun a => existsb (hit a) gt) anchors,
      grid_map (fun a =>
                  match find (hit a) gt with
                  | Some g => V4 ((center_x a - c0 g) / n)
                                 ((center_y a - c1 g) / n)
                                 ((center_x a - c2 g) / n)
                                 ((center_y a - c3 g) / n)
                  | None => vec4_zero
                  end) anchors,
      grid_map (fun a => existsb (fun g => hit a g
                                           && Qle_bool (box_width g) n) gt)
               anchors).

(** Three images: one face over four cells, one small (ignored) face on
    cell [(2, 2)], and no face. *)
Definition example_gt : list (list vec4) :=
  [[V4 5 5 25 25]; [V4 24 24 28 28]; []].

(** A sampler that keeps the first [k] candidates. *)
Definition example_sampler (candidates : list nat) (k : Z)
    : result (list nat) :=
  Ok (firstn (Z.to_nat k) candidates).

(** A stand-in for the cross-entropy: the sum over the rows of
    [x * (1 - t)]; it reads every logit it is given. *)
Definition example_bce (input target : list (list Q)) : result Q :=
  Ok (fold_right Qplus 0%Q
        (zip_with (fun x t => (nth 0 x 0 * (1 - nth 0 t 0))%Q) input target)).

(** Classification logits of shape [(3, 1, 4, 4)] and regression logits of
    shape [(3, 4, 4, 4)]. *)
Definition example_cls_logits : tensor4 :=
  Tensor4 3 1 4 4 (map (fun k => (Nq k / 10)%Q) (seq 0 48)) true.

Definition example_reg_logits : tensor4 :=
  Tensor4 3 4 4 4 (map (fun k => (Nq k / 100)%Q) (seq 0 192)) true.

(** A batch of three images without any face. *)
Definition example_gt_none : list (list vec4) := [[]; []; []].

(** Classification logits that differ from [example_cls_logits] only on
    the last cell of the last image. *)
Definition example_cls_logits' : tensor4 :=
  Tensor4 3 1 4 4
    (map (fun k => if k =? 47 then 1000%Q else (Nq k / 10)%Q) (seq 0 48))
    true.

(** A 2 by 3 grey image padded to 5 rows by 6 columns, with two boxes. *)
Definition example_padding : Pad.Padding :=
  {| Pad.target_size := (6%Z, 5%Z); Pad.pad_value := 0%Z |}.

Definition example_image : ndarray Z :=
  NDArray [2; 3; 1] [11; 12; 13; 21; 22; 23]%Z.

Definition example_boxes : ndarray Q :=
  NDArray [2; 4] [0; 0; 2; 1; 1; 0; 3; 2]%Q.

(** Regression logits of shape [(3, 4, 4, 4)] that equal the regression
    targets of [example_gt] on every cell. *)
Definition example_reg_exact : tensor4 :=
  match build_targets example_matcher example_head (4%Z, 4%Z) example_gt with
  | Ok tg =>
      Tensor4 3 4 4 4
        (flat_map (fun b =>
           flat_map (fun c =>
             map (fun ij =>
                    let v := nth (b * 16 + ij) (tdata (t_regs tg)) vec4_zero in
                    nth c [c0 v; c1 v; c2 v; c3 v] 0%Q)
                 (seq 0 16))
             (seq 0 4))
           (seq 0 3))
        true
  | Err _ => Tensor4 0 0 0 0 [] true
  end.

(** A target of 5 rows by 2 columns, too narrow for [example_image], and
    one of exactly its size. *)
Definition example_narrow_padding : Pad.Padding :=
  {| Pad.target_size := (2%Z, 5%Z); Pad.pad_value := 0%Z |}.

Definition example_exact_padding : Pad.Padding :=
  {| Pad.target_size := (3%Z, 2%Z); Pad.pad_value := 7%Z |}.

(** Two boxes with three columns only. *)
Definition example_short_boxes : ndarray Q :=
  NDArray [2; 3] [0; 0; 2; 1; 0; 3]%Q.

(** A stand-in architecture: the input was scaled by two and padded by
    one pixel; it predicts two boxes on image 0. *)
Definition example_preprocess (batch : tensor4)
    : result (tensor4 * Q * list Q) :=
  Ok (batch, 2%Q, [1%Q; 1%Q]).

Definition example_arch_forward (batch : tensor4) : result unit := Ok tt.

Definition example_postprocess (_ : unit) : result (list prediction) :=
  Ok [Pred (V4 3 3 7 5) (9 # 10) 0; Pred (V4 (-3) 1 100 9) (1 # 2) 0].

(** * Facts about row-major indexing *)

Section RowMajor.
Context {A B C : Type}.

Lemma length_outer (f : A -> B -> C) (a : list A) (b : list B) :
  length (outer f a b) = length a * length b.
Proof.
  unfold outer. induction a as [|x a IH]; simpl; [reflexivity|].
  rewrite length_app, length_map, IH. reflexivity.
Qed.

Lemma nth_outer (f : A -> B -> C) (a : list A) (b : list B)
    (da : A) (db : B) (d : C) (i j : nat) :
  i < length a -> j < length b ->
  nth (i * length b + j) (outer f a b) d = f (nth i a da) (nth j b db).
Proof.
  unfold outer. revert i.
  induction a as [|x a IH]; intros i Hi Hj; simpl in *; [lia|].
  destruct i as [|i].
  - simpl. rewrite app_nth1 by (rewrite length_map; lia).
    rewrite (nth_indep _ d (f x db)) by (rewrite length_map; lia).
    apply map_nth.
  - rewrite app_nth2 by (rewrite length_map; simpl; lia).
    rewrite length_map.
    replace (S i * length b + j - length b) with (i * length b + j)
      by (simpl; lia).
    apply IH; lia.
Qed.
End RowMajor.

Lemma nth_seq0 (n k d : nat) : k < n -> nth k (seq 0 n) d = k.
Proof. intros H. rewrite seq_nth by exact H. reflexivity. Qed.

Lemma arange_ok (n : Z) :
  (0 <= n)%Z -> arange n = Ok (map Nq (seq 0 (Z.to_nat n))).
Proof.
  intros H. unfold arange.
  destruct (Z.ltb_spec n 0); [lia|reflexivity].
Qed.

Lemma arange_neg (n : Z) : (n < 0)%Z -> arange n = Err RuntimeError.
Proof.
  intros H. unfold arange.
  destruct (Z.ltb_spec n 0); [reflexivity|lia].
Qed.

Lemma nth_arange_elems (n k : nat) : k < n -> nth k (map Nq (seq 0 n)) 0%Q = Nq k.
Proof.
  intros H. change 0%Q with (Nq 0) at 1.
  rewrite map_nth, nth_seq0 by exact H. reflexivity.
Qed.

Lemma nth_map_in {A B : Type} (f : A -> B) (l : list A) (d : A) (d' : B)
    (k : nat) :
  k < length l -> nth k (map f l) d' = f (nth k l d).
Proof.
  intros H. rewrite (nth_indep _ d' (f d)) by (rewrite length_map; exact H).
  apply map_nth.
Qed.

(** * Floating dtypes *)

Lemma precision_pos (dt : dtype) : (1 < precision dt <= 53)%Z.
Proof. destruct dt; simpl; lia. Qed.

Lemma ulp_floor_neg (dt : dtype) : (emin dt - (precision dt - 1) < 0)%Z.
Proof. destruct dt; simpl; lia. Qed.

Lemma round_half_even_comp (y y' : Q) :
  (y == y')%Q -> round_half_even y = round_half_even y'.
Proof.
  intros H. unfold round_half_even. rewrite (Qfloor_comp _ _ H).
  assert (E : (y - inject_Z (Qfloor y') == y' - inject_Z (Qfloor y'))%Q)
    by (rewrite H; reflexivity).
  rewrite (Qcompare_comp _ _ E _ _ (Qeq_refl (1 # 2))). reflexivity.
Qed.

Lemma round_half_even_Z (m : Z) : round_half_even (inject_Z m) = m.
Proof.
  unfold round_half_even. rewrite Qfloor_Z.
  assert (E : (inject_Z m - inject_Z m == 0)%Q) by ring.
  rewrite (Qcompare_comp _ _ E _ _ (Qeq_refl (1 # 2))). reflexivity.
Qed.

(** An upper bound of [floor(log2 |x|)]. *)
Lemma ilog2_lt (x : Q) (b : Z) :
  ~ (x == 0)%Q -> (0 <= b)%Z ->
  (Z.abs (Qnum x) < 2 ^ b * Zpos (Qden x))%Z ->
  (ilog2 x < b)%Z.
Proof.
  intros Hx Hb H. unfold ilog2.
  set (a := Z.abs (Qnum x)) in *. set (d := Zpos (Qden x)) in *.
  set (k := (Z.log2 d + 1)%Z).
  assert (Hd : (0 < d)%Z) by (unfold d; lia).
  assert (Ha : (1 <= a)%Z).
  { unfold a. assert (Qnum x <> 0%Z); [|lia].
    intros E. apply Hx. unfold Qeq. simpl. rewrite E. reflexivity. }
  assert (Hk0 : (0 <= k)%Z) by (unfold k; pose proof (Z.log2_nonneg d); lia).
  assert (Hk : (d < 2 ^ k)%Z).
  { unfold k. replace (Z.log2 d + 1)%Z with (Z.succ (Z.log2 d)) by lia.
    apply Z.log2_spec. exact Hd. }
  assert (Hq1 : (1 <= a * 2 ^ k / d)%Z).
  { apply Z.div_le_lower_bound; [exact Hd|]. nia. }
  assert (Hq2 : (a * 2 ^ k / d < 2 ^ (b + k))%Z).
  { apply Z.div_lt_upper_bound; [exact Hd|].
    rewrite Z.pow_add_r by lia. nia. }
  apply Z.log2_lt_pow2 in Hq2; lia.
Qed.

Lemma inject_Z_pos_neq (z : Z) : (0 < z)%Z -> ~ (inject_Z z == 0)%Q.
Proof. intros Hz H. unfold Qeq in H. simpl in H. lia. Qed.

Lemma pow2_neg (s : Z) :
  (s < 0)%Z -> (pow2 s == 1 / inject_Z (2 * 2 ^ (- s - 1)))%Q.
Proof.
  intros Hs. unfold pow2. destruct (Z.leb_spec 0 s) as [H|H]; [lia|].
  replace (- s)%Z with (Z.succ (- s - 1)) at 1 by lia.
  rewrite Z.pow_succ_r by lia. reflexivity.
Qed.

(** A multiple of one half below [2^(p-1)] in magnitude is a value of the
    dtype: rounding leaves it as it is. *)
Lemma fround_exact (dt : dtype) (x : Q) (k : Z) :
  (x == inject_Z k / 2)%Q -> (Z.abs k < 2 ^ precision dt)%Z ->
  (fround dt x == x)%Q.
Proof.
  intros Hx Hk. unfold fround.
  destruct (Qeq_bool x 0) eqn:E0.
  - apply Qeq_bool_iff in E0. symmetry. exact E0.
  - assert (Hn0 : ~ (x == 0)%Q).
    { intros H. apply Qeq_bool_iff in H. congruence. }
    pose proof (precision_pos dt) as Hp.
    assert (He : (ilog2 x < precision dt - 1)%Z).
    { apply ilog2_lt; [exact Hn0 | lia |].
      assert (Hr : (Qnum x * 2 = k * Zpos (Qden x))%Z).
      { unfold Qeq in Hx. simpl in Hx. lia. }
      assert (Hp2 : (2 ^ precision dt = 2 * 2 ^ (precision dt - 1))%Z).
      { replace (precision dt) with (Z.succ (precision dt - 1)) at 1 by lia.
        apply Z.pow_succ_r. lia. }
      assert (Ha : (Z.abs (Qnum x) * 2 = Z.abs k * Zpos (Qden x))%Z).
      { rewrite <- (Z.abs_eq 2) at 1 by lia. rewrite <- Z.abs_mul, Hr.
        rewrite Z.abs_mul. f_equal. }
      nia. }
    pose proof (ulp_floor_neg dt) as Hf.
    set (s := Z.max _ _).
    assert (Hs : (s < 0)%Z) by (unfold s; lia).
    assert (Hpw : (0 < 2 ^ (- s - 1))%Z) by (apply Z.pow_pos_nonneg; lia).
    assert (Hy : (x / pow2 s == inject_Z (k * 2 ^ (- s - 1)))%Q).
    { rewrite (pow2_neg Hs), Hx, !inject_Z_mult.
      field. apply inject_Z_pos_neq. exact Hpw. }
    rewrite (round_half_even_comp Hy), round_half_even_Z.
    rewrite (pow2_neg Hs), Hx, !inject_Z_mult.
    field. apply inject_Z_pos_neq. exact Hpw.
Qed.

Lemma fround_half (dt : dtype) (x : Q) (k : Z) :
  (x == inject_Z k / 2)%Q -> (Z.abs k < 2 ^ precision dt)%Z ->
  (fround dt x == inject_Z k / 2)%Q.
Proof. intros Hx Hk. rewrite (fround_exact dt Hx Hk). exact Hx. Qed.

Lemma fround_int (dt : dtype) (x : Q) (z : Z) :
  (x == inject_Z z)%Q -> (Z.abs z < 2 ^ (precision dt - 1))%Z ->
  (fround dt x == inject_Z z)%Q.
Proof.
  intros Hx Hz. rewrite (@fround_exact dt x (2 * z)); [exact Hx | |].
  - rewrite Hx, inject_Z_mult. field.
  - pose proof (precision_pos dt) as Hp.
    replace (precision dt) with (Z.succ (precision dt - 1)) at 1 by lia.
    rewrite Z.pow_succ_r by lia. lia.
Qed.

(** * The RF anchor generator *)

Section Anchors.
Variable self : DetectionHead.

(** The grid before the optional clipping, cell by cell. *)
Lemma gen_rf_anchors_shape (fmaph fmapw : Z) (clip : bool) :
  (0 <= fmaph)%Z -> (0 <= fmapw)%Z ->
  exists g,
    gen_rf_anchors self fmaph fmapw clip = Ok g /\
    gh g = Z.to_nat fmaph /\ gw g = Z.to_nat fmapw /\ grid_wf g.
Proof.
  intros Hh Hw. unfold gen_rf_anchors.
  rewrite (arange_ok Hh), (arange_ok Hw). cbn [bind meshgrid].
  eexists; split; [reflexivity|].
  destruct clip; unfold grid_wf, grid_map, stack2; cbn [gh gw gdata];
    rewrite !length_map, length_combine, !length_outer, !length_map,
      !length_seq; repeat split; lia.
Qed.

Lemma gen_rf_anchors_cell (fmaph fmapw : Z) (g : grid vec4)
    (row col : nat) :
  gen_rf_anchors self fmaph fmapw false = Ok g ->
  row < gh g -> col < gw g ->
  cell vec4_zero g row col = spec_rf_anchor self row col.
Proof.
  unfold gen_rf_anchors, arange.
  destruct (fmaph <? 0)%Z; [discriminate|].
  destruct (fmapw <? 0)%Z; [discriminate|].
  cbn [bind meshgrid]. intros E; injection E as <-.
  unfold cell, grid_map, stack2; cbn [gh gw gdata].
  rewrite !length_map, !length_seq. intros Hr Hc.
  set (ys := map Nq (seq 0 (Z.to_nat fmaph))).
  set (xs := map Nq (seq 0 (Z.to_nat fmapw))).
  assert (Lx : length xs = Z.to_nat fmapw)
    by (unfold xs; rewrite length_map, length_seq; reflexivity).
  assert (Ly : length ys = Z.to_nat fmaph)
    by (unfold ys; rewrite length_map, length_seq; reflexivity).
  assert (Lo1 : length (outer (fun (_ bj : Q) => bj) ys xs)
                = Z.to_nat fmaph * Z.to_nat fmapw)
    by (rewrite length_outer; lia).
  assert (Lo2 : length (outer (fun (ai _ : Q) => ai) ys xs)
                = Z.to_nat fmaph * Z.to_nat fmapw)
    by (rewrite length_outer; lia).
  assert (Hk : row * Z.to_nat fmapw + col < Z.to_nat fmaph * Z.to_nat fmapw)
    by nia.
  rewrite (nth_map_in _ _ vec4_zero)
    by (rewrite !length_map, length_combine; lia).
  rewrite (nth_map_in _ _ vec4_zero)
    by (rewrite !length_map, length_combine; lia).
  rewrite (nth_map_in _ _ (0%Q, 0%Q))
    by (rewrite !length_map, length_combine; lia).
  rewrite (nth_map_in _ _ (0%Q, 0%Q))
    by (rewrite !length_map, length_combine; lia).
  rewrite (nth_map_in _ _ (0%Q, 0%Q))
    by (rewrite length_combine; lia).
  assert (E : nth (row * Z.to_nat fmapw + col)
                (combine (outer (fun (_ bj : Q) => bj) ys xs)
                         (outer (fun (ai _ : Q) => ai) ys xs)) (0%Q, 0%Q)
              = (Nq col, Nq row)).
  { rewrite combine_nth by lia. rewrite <- Lx.
    rewrite !(nth_outer _ ys xs 0%Q 0%Q) by lia.
    unfold xs, ys. rewrite !nth_arange_elems by lia. reflexivity. }
  rewrite E. reflexivity.
Qed.
End Anchors.

Lemma Nq_succ (n : nat) : (Nq (S n) == Nq n + 1)%Q.
Proof.
  unfold Nq. rewrite Nat2Z.inj_succ. unfold Z.succ.
  rewrite inject_Z_plus. reflexivity.
Qed.

Lemma center_x_spec_anchor (self : DetectionHead) (row col : nat) :
  (center_x (spec_rf_anchor self row col) == spec_rf_cx self col)%Q.
Proof. unfold center_x, spec_rf_anchor; cbn [c0 c2]. field. Qed.

Lemma center_y_spec_anchor (self : DetectionHead) (row col : nat) :
  (center_y (spec_rf_anchor self row col) == spec_rf_cy self row)%Q.
Proof. unfold center_y, spec_rf_anchor; cbn [c1 c3]. field. Qed.

(** ** The generator in a floating dtype *)

Lemma nth_map_seq {A : Type} (f : nat -> A) (n k : nat) (d : A) :
  k < n -> nth k (map f (seq 0 n)) d = f k.
Proof.
  intros H. rewrite (nth_map_in f (seq 0 n) 0 d) by (rewrite length_seq; exact H).
  rewrite nth_seq0 by exact H. reflexivity.
Qed.

Lemma arange_dtype_ok (dt : dtype) (n : Z) :
  (0 <= n)%Z ->
  arange_dtype dt n = Ok (map (fun k => fround dt (Nq k)) (seq 0 (Z.to_nat n))).
Proof.
  intros H. unfold arange_dtype.
  destruct (Z.ltb_spec n 0); [lia | reflexivity].
Qed.

Lemma arange_dtype_neg (dt : dtype) (n : Z) :
  (n < 0)%Z -> arange_dtype dt n = Err RuntimeError.
Proof.
  intros H. unfold arange_dtype.
  destruct (Z.ltb_spec n 0); [reflexivity | lia].
Qed.

Section AnchorsDtype.
Variable dt : dtype.
Variable self : DetectionHead.

Lemma gen_rf_anchors_dtype_shape (fmaph fmapw : Z) (clip : bool) :
  (0 <= fmaph)%Z -> (0 <= fmapw)%Z ->
  exists g,
    gen_rf_anchors_dtype dt self fmaph fmapw clip = Ok g /\
    gh g = Z.to_nat fmaph /\ gw g = Z.to_nat fmapw /\ grid_wf g.
Proof.
  intros Hh Hw. unfold gen_rf_anchors_dtype.
  rewrite (arange_dtype_ok dt Hh), (arange_dtype_ok dt Hw).
  cbn [bind meshgrid].
  eexists; split; [reflexivity|].
  destruct clip; unfold grid_wf, grid_map, stack2; cbn [gh gw gdata];
    rewrite !length_map, length_combine, !length_outer, !length_map,
      !length_seq; repeat split; lia.
Qed.

(** The grid before the optional clipping, cell by cell. *)
Lemma gen_rf_anchors_dtype_cell (fmaph fmapw : Z) (g : grid vec4)
    (row col : nat) :
  gen_rf_anchors_dtype dt self fmaph fmapw false = Ok g ->
  row < gh g -> col < gw g ->
  cell vec4_zero g row col = dtype_rf_anchor dt self row col.
Proof.
  unfold gen_rf_anchors_dtype, arange_dtype.
  destruct (fmaph <? 0)%Z; [discriminate|].
  destruct (fmapw <? 0)%Z; [discriminate|].
  cbn [bind meshgrid]. intros E; injection E as <-.
  unfold cell, grid_map, stack2; cbn [gh gw gdata].
  rewrite !length_map, !length_seq. intros Hr Hc.
  set (ys := map (fun k => fround dt (Nq k)) (seq 0 (Z.to_nat fmaph))).
  set (xs := map (fun k => fround dt (Nq k)) (seq 0 (Z.to_nat fmapw))).
  assert (Lx : length xs = Z.to_nat fmapw)
    by (unfold xs; rewrite length_map, length_seq; reflexivity).
  assert (Ly : length ys = Z.to_nat fmaph)
    by (unfold ys; rewrite length_map, length_seq; reflexivity).
  assert (Lo1 : length (outer (fun (_ bj : Q) => bj) ys xs)
                = Z.to_nat fmaph * Z.to_nat fmapw)
    by (rewrite length_outer; lia).
  assert (Lo2 : length (outer (fun (ai _ : Q) => ai) ys xs)
                = Z.to_nat fmaph * Z.to_nat fmapw)
    by (rewrite length_outer; lia).
  assert (Hk : row * Z.to_nat fmapw + col < Z.to_nat fmaph * Z.to_nat fmapw)
    by nia.
  rewrite (nth_map_in _ _ vec4_zero)
    by (rewrite !length_map, length_combine; lia).
  rewrite (nth_map_in _ _ vec4_zero)
    by (rewrite !length_map, length_combine; lia).
  rewrite (nth_map_in _ _ (0%Q, 0%Q))
    by (rewrite !length_map, length_combine; lia).
  rewrite (nth_map_in _ _ (0%Q, 0%Q))
    by (rewrite !length_map, length_combine; lia).
  rewrite (nth_map_in _ _ (0%Q, 0%Q))
    by (rewrite length_combine; lia).
  assert (E : nth (row * Z.to_nat fmapw + col)
                (combine (outer (fun (_ bj : Q) => bj) ys xs)
                         (outer (fun (ai _ : Q) => ai) ys xs)) (0%Q, 0%Q)
              = (fround dt (Nq col), fround dt (Nq row))).
  { rewrite combine_nth by lia. rewrite <- Lx.
    rewrite !(nth_outer _ ys xs 0%Q 0%Q) by lia.
    unfold xs, ys. rewrite !nth_map_seq by lia. reflexivity. }
  rewrite E. reflexivity.
Qed.

(** Clipping is a map over the unclipped grid. *)
Lemma gen_rf_anchors_dtype_clip_unfold (fmaph fmapw : Z) :
  gen_rf_anchors_dtype dt self fmaph fmapw true
  = (g <- gen_rf_anchors_dtype dt self fmaph fmapw false ;;
     Ok (grid_map (clamp_box (fround dt (Zq (fmapw * rf_stride self)))
                             (fround dt (Zq (fmaph * rf_stride self)))) g)).
Proof.
  unfold gen_rf_anchors_dtype.
  destruct (arange_dtype dt fmaph); cbn [bind]; [|reflexivity].
  destruct (arange_dtype dt fmapw); cbn [bind]; reflexivity.
Qed.

(** Within the range of [anchors_fit] no operation of the generator
    rounds. *)
Lemma dtype_rf_c_exact (fmaph fmapw : Z) (k : nat) :
  anchors_fit dt self fmaph fmapw ->
  (Z.of_nat k < Z.max fmaph fmapw)%Z ->
  (dtype_rf_c dt self k
   == inject_Z (Z.of_nat k * rf_stride self + rf_start_offset self))%Q.
Proof.
  unfold anchors_fit. intros Hfit Hk.
  set (M := Z.max fmaph fmapw) in *.
  set (A := Z.abs (rf_stride self)) in *.
  assert (HA : (0 <= A)%Z) by (unfold A; lia).
  assert (HKA : (Z.abs (Z.of_nat k * rf_stride self) <= M * A)%Z).
  { rewrite Z.abs_mul, (Z.abs_eq (Z.of_nat k)) by lia. fold A. nia. }
  assert (HMA : (A <= M * A)%Z) by nia.
  assert (Ek : (fround dt (Nq k) == inject_Z (Z.of_nat k))%Q).
  { apply fround_int; [reflexivity | nia]. }
  assert (Es : (fround dt (Zq (rf_stride self))
                == inject_Z (rf_stride self))%Q).
  { apply fround_int; [reflexivity | fold A; nia]. }
  assert (Eo : (fround dt (Zq (rf_start_offset self))
                == inject_Z (rf_start_offset self))%Q).
  { apply fround_int; [reflexivity | nia]. }
  assert (Eks : (fround dt (fround dt (Nq k) * fround dt (Zq (rf_stride self)))
                 == inject_Z (Z.of_nat k * rf_stride self))%Q).
  { apply fround_int; [rewrite Ek, Es, inject_Z_mult; reflexivity | nia]. }
  unfold dtype_rf_c. apply fround_int.
  - rewrite Eks, Eo, inject_Z_plus. reflexivity.
  - lia.
Qed.

Lemma rf_half_dtype_exact (fmaph fmapw : Z) :
  (0 < Z.max fmaph fmapw)%Z ->
  anchors_fit dt self fmaph fmapw ->
  (rf_half_dtype dt self == inject_Z (rf_size self) / 2)%Q.
Proof.
  unfold anchors_fit. intros HM Hfit.
  pose proof (precision_pos dt) as Hp.
  assert (HA : (0 <= Z.max fmaph fmapw * (1 + Z.abs (rf_stride self)))%Z)
    by nia.
  assert (H1 : (2 ^ (precision dt - 1) < 2 ^ precision dt)%Z)
    by (apply Z.pow_lt_mono_r; lia).
  assert (H2 : (2 ^ (precision dt - 1) < 2 ^ 53)%Z)
    by (apply Z.pow_lt_mono_r; lia).
  unfold rf_half_dtype. apply fround_half.
  - apply fround_half; [reflexivity|].
    change (precision float64) with 53%Z. lia.
  - lia.
Qed.

Lemma dtype_rf_anchor_exact (fmaph fmapw : Z) (row col : nat) :
  anchors_fit dt self fmaph fmapw ->
  (Z.of_nat row < fmaph)%Z -> (Z.of_nat col < fmapw)%Z ->
  vec4_eq (dtype_rf_anchor dt self row col) (spec_rf_anchor self row col).
Proof.
  intros Hfit Hr Hc.
  assert (HM : (0 < Z.max fmaph fmapw)%Z) by lia.
  pose proof (@dtype_rf_c_exact fmaph fmapw col Hfit ltac:(lia)) as Ex.
  pose proof (@dtype_rf_c_exact fmaph fmapw row Hfit ltac:(lia)) as Ey.
  pose proof (@rf_half_dtype_exact fmaph fmapw HM Hfit) as Eh.
  unfold anchors_fit in Hfit.
  set (M := Z.max fmaph fmapw) in *.
  set (A := Z.abs (rf_stride self)) in *.
  assert (HA : (0 <= A)%Z) by (unfold A; lia).
  assert (Hx : (Z.abs (Z.of_nat col * rf_stride self) <= M * A)%Z).
  { rewrite Z.abs_mul, (Z.abs_eq (Z.of_nat col)) by lia. fold A. nia. }
  assert (Hy : (Z.abs (Z.of_nat row * rf_stride self) <= M * A)%Z).
  { rewrite Z.abs_mul, (Z.abs_eq (Z.of_nat row)) by lia. fold A. nia. }
  pose proof (precision_pos dt) as Hp.
  assert (Hp2 : (2 ^ precision dt = 2 * 2 ^ (precision dt - 1))%Z).
  { replace (precision dt) with (Z.succ (precision dt - 1)) at 1 by lia.
    apply Z.pow_succ_r. lia. }
  assert (Low : forall k : nat,
            (dtype_rf_c dt self k
             == inject_Z (Z.of_nat k * rf_stride self
                          + rf_start_offset self))%Q ->
            (Z.abs (Z.of_nat k * rf_stride self) <= M * A)%Z ->
            (fround dt (dtype_rf_c dt self k - rf_half_dtype dt self)
             == Nq k * Zq (rf_stride self) + Zq (rf_start_offset self)
                - rf_half self)%Q).
  { intros k Ek Hk.
    rewrite (@fround_half dt _
               (2 * (Z.of_nat k * rf_stride self + rf_start_offset self)
                + - rf_size self)).
    - unfold rf_half, Nq, Zq.
      rewrite ?inject_Z_plus, ?inject_Z_opp, ?inject_Z_mult, ?inject_Z_plus,
        ?inject_Z_mult.
      field.
    - rewrite Ek, Eh.
      rewrite ?inject_Z_plus, ?inject_Z_opp, ?inject_Z_mult, ?inject_Z_plus,
        ?inject_Z_mult.
      field.
    - lia. }
  assert (High : forall k : nat,
            (dtype_rf_c dt self k
             == inject_Z (Z.of_nat k * rf_stride self
                          + rf_start_offset self))%Q ->
            (Z.abs (Z.of_nat k * rf_stride self) <= M * A)%Z ->
            (fround dt (dtype_rf_c dt self k + rf_half_dtype dt self)
             == Nq k * Zq (rf_stride self) + Zq (rf_start_offset self)
                + rf_half self)%Q).
  { intros k Ek Hk.
    rewrite (@fround_half dt _
               (2 * (Z.of_nat k * rf_stride self + rf_start_offset self)
                + rf_size self)).
    - unfold rf_half, Nq, Zq.
      rewrite ?inject_Z_plus, ?inject_Z_opp, ?inject_Z_mult, ?inject_Z_plus,
        ?inject_Z_mult.
      field.
    - rewrite Ek, Eh.
      rewrite ?inject_Z_plus, ?inject_Z_opp, ?inject_Z_mult, ?inject_Z_plus,
        ?inject_Z_mult.
      field.
    - lia. }
  unfold vec4_eq, dtype_rf_anchor, spec_rf_anchor, spec_rf_cx, spec_rf_cy;
    cbn [c0 c1 c2 c3].
  repeat split; first [apply Low | apply High]; assumption.
Qed.
End AnchorsDtype.

(** Where no operation rounds, the generator in the dtype returns the
    grid that [gen_rf_anchors] describes with the arithmetic of the
    rationals. *)
Lemma gen_rf_anchors_dtype_agrees (dt : dtype) (self : DetectionHead)
    (fmaph fmapw : Z) :
  (0 <= fmaph)%Z -> (0 <= fmapw)%Z ->
  anchors_fit dt self fmaph fmapw ->
  exists g g0,
    gen_rf_anchors_dtype dt self fmaph fmapw false = Ok g /\
    gen_rf_anchors self fmaph fmapw false = Ok g0 /\
    gh g = gh g0 /\ gw g = gw g0 /\
    forall row col, row < gh g -> col < gw g ->
      vec4_eq (cell vec4_zero g row col) (cell vec4_zero g0 row col).
Proof.
  intros Hh Hw Hfit.
  destruct (@gen_rf_anchors_dtype_shape dt self fmaph fmapw false Hh Hw)
    as (g & E & Sh & Sw & _).
  destruct (@gen_rf_anchors_shape self fmaph fmapw false Hh Hw)
    as (g0 & E0 & Sh0 & Sw0 & _).
  exists g, g0. split; [exact E|]. split; [exact E0|].
  split; [congruence|]. split; [congruence|].
  intros row col Hr Hc.
  rewrite (gen_rf_anchors_dtype_cell dt self fmaph fmapw E Hr Hc).
  rewrite (gen_rf_anchors_cell self fmaph fmapw E0)
    by (rewrite ?Sh0, ?Sw0, <- ?Sh, <- ?Sw; assumption).
  apply (@dtype_rf_anchor_exact dt self fmaph fmapw); [exact Hfit | lia | lia].
Qed.

(** C3 (what holds).  For a feature map with [fmaph > 0] and [fmapw > 0]
    and a head whose numbers fit the dtype,
    [max(fmaph, fmapw) * (1 + |rf_stride|) + |rf_start_offset| + |rf_size|
    < 2^(p-1)] with [p] the width of the significand (24 for the default
    [float32], 53 for [float64]), [gen_rf_anchors] (called the way the head
    calls it, without clipping) succeeds with a grid of that shape whose
    cell [(row, col)] holds exactly the anchor [(cx - rf_size/2,
    cy - rf_size/2, cx + rf_size/2, cy + rf_size/2)], where
    [cx = col*rf_stride + rf_start_offset] and
    [cy = row*rf_stride + rf_start_offset].  Hence every anchor is
    [rf_size] wide and high and the centres of neighbouring cells are
    [rf_stride] apart along a row and along a column.  A second call with
    the same arguments returns the same grid. *)
Theorem gen_rf_anchors_cells (dt : dtype) (self : DetectionHead)
    (fmaph fmapw : Z) :
  (0 < fmaph)%Z -> (0 < fmapw)%Z ->
  anchors_fit dt self fmaph fmapw ->
  exists g,
    gen_rf_anchors_dtype dt self fmaph fmapw false = Ok g /\
    gh g = Z.to_nat fmaph /\ gw g = Z.to_nat fmapw /\ grid_wf g /\
    (forall row col, row < gh g -> col < gw g ->
       let a := cell vec4_zero g row col in
       vec4_eq a (V4 (spec_rf_cx self col - Zq (rf_size self) / 2)
                     (spec_rf_cy self row - Zq (rf_size self) / 2)
                     (spec_rf_cx self col + Zq (rf_size self) / 2)
                     (spec_rf_cy self row + Zq (rf_size self) / 2)) /\
       (box_width a == Zq (rf_size self))%Q /\
       (box_height a == Zq (rf_size self))%Q) /\
    (forall row col, row < gh g -> S col < gw g ->
       (center_x (cell vec4_zero g row (S col))
        - center_x (cell vec4_zero g row col) == Zq (rf_stride self))%Q) /\
    (forall row col, S row < gh g -> col < gw g ->
       (center_y (cell vec4_zero g (S row) col)
        - center_y (cell vec4_zero g row col) == Zq (rf_stride self))%Q) /\
    (forall g', gen_rf_anchors_dtype dt self fmaph fmapw false = Ok g' ->
                g' = g).
Proof.
  intros Hh Hw Hfit.
  destruct (@gen_rf_anchors_dtype_shape dt self fmaph fmapw false)
    as (g & E & Sh & Sw & Wf); [lia | lia |].
  exists g. repeat (split; [assumption|]).
  assert (C : forall row col, row < gh g -> col < gw g ->
                vec4_eq (cell vec4_zero g row col)
                        (spec_rf_anchor self row col)).
  { intros row col Hr Hc.
    rewrite (gen_rf_anchors_dtype_cell dt self fmaph fmapw E Hr Hc).
    apply (@dtype_rf_anchor_exact dt self fmaph fmapw); [exact Hfit | lia | lia]. }
  split; [|split; [|split]].
  - intros row col Hr Hc a. subst a.
    destruct (C row col Hr Hc) as (H0 & H1 & H2 & H3).
    unfold spec_rf_anchor, rf_half in H0, H1, H2, H3;
      cbn [c0 c1 c2 c3] in H0, H1, H2, H3.
    split; [repeat split; assumption|].
    unfold box_width, box_height. rewrite H0, H1, H2, H3. split; field.
  - intros row col Hr Hc.
    destruct (C row (S col)) as (H0 & _ & H2 & _); [lia | lia |].
    destruct (C row col) as (K0 & _ & K2 & _); [lia | lia |].
    unfold center_x. rewrite H0, H2, K0, K2.
    unfold spec_rf_anchor, spec_rf_cx; cbn [c0 c2].
    rewrite Nq_succ. field.
  - intros row col Hr Hc.
    destruct (C (S row) col) as (_ & H1 & _ & H3); [lia | lia |].
    destruct (C row col) as (_ & K1 & _ & K3); [lia | lia |].
    unfold center_y. rewrite H1, H3, K1, K3.
    unfold spec_rf_anchor, spec_rf_cy; cbn [c1 c3].
    rewrite Nq_succ. field.
  - intros g' E'. congruence.
Qed.

Lemma gen_rf_anchors_cells_witness :
  (0 < 4)%Z /\ (0 < 4)%Z /\ anchors_fit float32 example_head 4 4 /\
  exists g, gen_rf_anchors_dtype float32 example_head 4 4 false = Ok g /\
            vec4_eq (cell vec4_zero g 1 2)
                    (V4 (Nq 2 * Zq 8 + Zq 10 - Zq 20 / 2)
                        (Nq 1 * Zq 8 + Zq 10 - Zq 20 / 2)
                        (Nq 2 * Zq 8 + Zq 10 + Zq 20 / 2)
                        (Nq 1 * Zq 8 + Zq 10 + Zq 20 / 2)).
Proof.
  assert (Hfit : anchors_fit float32 example_head 4 4)
    by (unfold anchors_fit; simpl; lia).
  split; [lia|]. split; [lia|]. split; [exact Hfit|].
  destruct (@gen_rf_anchors_cells float32 example_head 4 4)
    as (g & E & Sh & Sw & _ & C & _); [lia | lia | exact Hfit |].
  exists g. split; [exact E|].
  apply (C 1 2); [rewrite Sh | rewrite Sw]; vm_compute; lia.
Defined.

(** C3 as stated fails beyond that range.  In [float32], with
    [rf_stride = 1], [rf_start_offset = 2^24] and [rf_size = 2], the
    anchors of the columns 0 and 1 are the same box
    [(16777215, 16777215, 16777216, 16777216)]: the centres are not
    [rf_stride] apart and the width is not [rf_size].  With [rf_size = 3]
    and [rf_start_offset = 16777218] the anchor of cell [(0, 0)] is
    [(16777216, 16777216, 16777220, 16777220)], four pixels wide. *)
Lemma gen_rf_anchors_float32_inexact :
  (0 < 1)%Z /\ (0 < 2)%Z /\
  (exists g,
     gen_rf_anchors_dtype float32 far_head 1 2 false = Ok g /\
     vec4_eqb (cell vec4_zero g 0 0)
              (V4 16777215 16777215 16777216 16777216) = true /\
     vec4_eqb (cell vec4_zero g 0 1)
              (V4 16777215 16777215 16777216 16777216) = true /\
     ~ (center_x (cell vec4_zero g 0 1) - center_x (cell vec4_zero g 0 0)
        == Zq (rf_stride far_head))%Q /\
     ~ (box_width (cell vec4_zero g 0 0) == Zq (rf_size far_head))%Q /\
     ~ vec4_eq (cell vec4_zero g 0 1)
               (V4 (spec_rf_cx far_head 1 - Zq (rf_size far_head) / 2)
                   (spec_rf_cy far_head 0 - Zq (rf_size far_head) / 2)
                   (spec_rf_cx far_head 1 + Zq (rf_size far_head) / 2)
                   (spec_rf_cy far_head 0 + Zq (rf_size far_head) / 2))) /\
  (exists g,
     gen_rf_anchors_dtype float32 far_head3 1 1 false = Ok g /\
     vec4_eqb (cell vec4_zero g 0 0)
              (V4 16777216 16777216 16777220 16777220) = true /\
     ~ (box_width (cell vec4_zero g 0 0) == Zq (rf_size far_head3))%Q).
Proof.
  split; [lia|]. split; [lia|]. split.
  - eexists. split; [vm_compute; reflexivity|].
    split; [vm_compute; reflexivity|]. split; [vm_compute; reflexivity|].
    split; [|split].
    + intros H. vm_compute in H. discriminate H.
    + intros H. vm_compute in H. discriminate H.
    + intros (H & _). vm_compute in H. discriminate H.
  - eexists. split; [vm_compute; reflexivity|].
    split; [vm_compute; reflexivity|].
    intros H. vm_compute in H. discriminate H.
Qed.

(** C9 (the part that holds).  When both sizes are non-negative and one of
    them is zero, [gen_rf_anchors] succeeds and the grid it returns has no
    cell; when one of them is negative, [torch.arange] refuses it and the
    call fails. *)
Theorem gen_rf_anchors_degenerate (self : DetectionHead) (fmaph fmapw : Z)
    (clip : bool) :
  ((0 <= fmaph)%Z -> (0 <= fmapw)%Z -> (fmaph = 0 \/ fmapw = 0)%Z ->
   exists g, gen_rf_anchors self fmaph fmapw clip = Ok g /\
             gh g = Z.to_nat fmaph /\ gw g = Z.to_nat fmapw /\
             gdata g = []) /\
  ((fmaph < 0 \/ fmapw < 0)%Z ->
   is_ok (gen_rf_anchors self fmaph fmapw clip) = false).
Proof.
  split.
  - intros Hh Hw Hz.
    destruct (@gen_rf_anchors_shape self fmaph fmapw clip)
      as (g & E & Sh & Sw & Wf); [assumption | assumption |].
    exists g. repeat (split; [assumption|]).
    apply length_zero_iff_nil. unfold grid_wf in Wf. rewrite Wf, Sh, Sw.
    destruct Hz as [-> | ->]; simpl; lia.
  - intros Hneg. unfold gen_rf_anchors.
    destruct (Z.ltb_spec fmaph 0) as [Hh | Hh].
    + rewrite (arange_neg Hh). reflexivity.
    + rewrite (arange_ok Hh). cbn [bind].
      rewrite arange_neg by lia. reflexivity.
Qed.

Lemma gen_rf_anchors_degenerate_witness :
  ((0 <= 0)%Z /\ (0 <= 3)%Z /\ (0 = 0 \/ 3 = 0)%Z /\
   exists g, gen_rf_anchors example_head 0 3 false = Ok g /\
             gh g = Z.to_nat 0 /\ gw g = Z.to_nat 3 /\ gdata g = []) /\
  ((-2 < 0 \/ 3 < 0)%Z /\
   is_ok (gen_rf_anchors example_head (-2) 3 false) = false).
Proof.
  split.
  - split; [lia|]. split; [lia|]. split; [left; reflexivity|].
    apply (proj1 (gen_rf_anchors_degenerate example_head 0 3 false));
      [lia | lia | left; reflexivity].
  - split; [left; lia|].
    apply (proj2 (gen_rf_anchors_degenerate example_head (-2) 3 false)).
    left; lia.
Defined.

(** C9 as stated fails: a negative feature-map height is not turned into an
    empty grid, the call raises. *)
Lemma gen_rf_anchors_negative_raises :
  gen_rf_anchors example_head (-1) 4 false = Err RuntimeError /\
  ~ (exists g, gen_rf_anchors example_head (-1) 4 false = Ok g /\
               gdata g = []).
Proof.
  split; [reflexivity|].
  intros (g & E & _). discriminate E.
Qed.

(** * The box decoder *)

Section ZipWith.
Context {A B C : Type} (f : A -> B -> C).

Lemma length_zip_with (l1 : list A) (l2 : list B) :
  length (zip_with f l1 l2) = Nat.min (length l1) (length l2).
Proof. unfold zip_with. rewrite length_map, length_combine. reflexivity. Qed.

Lemma nth_zip_with (l1 : list A) (l2 : list B) (d1 : A) (d2 : B) (d : C)
    (k : nat) :
  k < length l1 -> k < length l2 ->
  nth k (zip_with f l1 l2) d = f (nth k l1 d1) (nth k l2 d2).
Proof.
  intros H1 H2. unfold zip_with.
  rewrite (nth_map_in _ _ (d1, d2)) by (rewrite length_combine; lia).
  revert l2 k H1 H2.
  induction l1 as [|x l1 IH]; intros [|y l2] [|k] H1 H2; simpl in *;
    try lia; try reflexivity.
  apply IH; lia.
Qed.
End ZipWith.

Lemma length_tile {A : Type} (n : nat) (l : list A) :
  length (tile n l) = n * length l.
Proof. unfold tile. rewrite length_outer, length_seq. reflexivity. Qed.

Lemma nth_tile {A : Type} (n : nat) (l : list A) (d : A) (b k : nat) :
  b < n -> k < length l -> nth (b * length l + k) (tile n l) d = nth k l d.
Proof.
  intros Hb Hk. unfold tile.
  apply (nth_outer (fun (_ : nat) (x : A) => x) (seq 0 n) l 0 d d);
    [rewrite length_seq|]; assumption.
Qed.

Lemma length_assign_channel set rhs pred centers logits :
  length centers = length pred -> length logits = length pred ->
  length (assign_channel set rhs pred centers logits) = length pred.
Proof.
  intros H1 H2. unfold assign_channel.
  rewrite length_zip_with, length_combine. lia.
Qed.

Lemma nth_assign_channel set rhs pred centers logits (k : nat) (d : vec4) :
  length centers = length pred -> length logits = length pred ->
  k < length pred ->
  nth k (assign_channel set rhs pred centers logits) d
  = set (nth k pred vec4_zero)
        (rhs (nth k centers (0%Q, 0%Q)) (nth k logits vec4_zero)).
Proof.
  intros H1 H2 Hk. unfold assign_channel.
  rewrite (nth_zip_with _ _ _ vec4_zero ((0%Q, 0%Q), vec4_zero))
    by (rewrite ?length_combine; lia).
  rewrite combine_nth by lia. reflexivity.
Qed.

Lemma apply_bbox_regression_cells (self : DetectionHead)
    (reg_logits : batch vec4) :
  batch_wf reg_logits ->
  exists anchors pred,
    gen_rf_anchors self (Z.of_nat (th reg_logits)) (Z.of_nat (tw reg_logits))
      false = Ok anchors /\
    gh anchors = th reg_logits /\ gw anchors = tw reg_logits /\
    apply_bbox_regression self reg_logits = Ok pred /\
    tb pred = tb reg_logits /\ th pred = th reg_logits /\
    tw pred = tw reg_logits /\ batch_wf pred /\
    forall b i j, b < tb reg_logits -> i < th reg_logits ->
      j < tw reg_logits ->
      bcell vec4_zero pred b i j
      = spec_decode self (th reg_logits) (tw reg_logits)
          (cell vec4_zero anchors i j) (bcell vec4_zero reg_logits b i j).
Proof.
  intros Wf. destruct reg_logits as [bs fh fw data].
  unfold batch_wf in Wf. cbn [tb th tw tdata] in *.
  destruct (@gen_rf_anchors_shape self (Z.of_nat fh) (Z.of_nat fw) false)
    as (g & E & Sh & Sw & Wg); [lia | lia |].
  rewrite Nat2Z.id in Sh, Sw.
  exists g. eexists. split; [exact E|]. split; [exact Sh|]. split; [exact Sw|].
  unfold apply_bbox_regression. cbn [tb th tw tdata]. rewrite E. cbn [bind].
  rewrite Sh, Sw, !Nat.eqb_refl. cbn [check bind].
  split; [reflexivity|]. cbn [tb th tw tdata].
  set (centers := tile bs (gdata (grid_map _ g))).
  assert (Lg : length (gdata g) = fh * fw)
    by (unfold grid_wf in Wg; rewrite Wg, Sh, Sw; reflexivity).
  assert (Lc : length centers = length data).
  { unfold centers, grid_map; cbn [gdata].
    rewrite length_tile, length_map. lia. }
  set (p1 := assign_channel set_c0 _ data centers data).
  assert (L1 : length p1 = length data)
    by (unfold p1; rewrite length_assign_channel; lia).
  set (p2 := assign_channel set_c1 _ p1 centers data).
  assert (L2 : length p2 = length data)
    by (unfold p2; rewrite length_assign_channel; lia).
  set (p3 := assign_channel set_c2 _ p2 centers data).
  assert (L3 : length p3 = length data)
    by (unfold p3; rewrite length_assign_channel; lia).
  set (p4 := assign_channel set_c3 _ p3 centers data).
  assert (L4 : length p4 = length data)
    by (unfold p4; rewrite length_assign_channel; lia).
  repeat (split; [reflexivity|]).
  split.
  { unfold batch_wf; cbn [tb th tw tdata]. rewrite !length_map. lia. }
  intros b i j Hb Hi Hj. unfold bcell; cbn [tb th tw tdata].
  assert (Hij : i * fw + j < fh * fw) by nia.
  assert (Hk : b * (fh * fw) + (i * fw + j) < length data) by nia.
  set (k := b * (fh * fw) + (i * fw + j)) in *.
  rewrite (nth_map_in _ _ vec4_zero) by (rewrite length_map; lia).
  rewrite (nth_map_in _ _ vec4_zero) by lia.
  unfold p4. rewrite nth_assign_channel by lia.
  unfold p3. rewrite nth_assign_channel by lia.
  unfold p2. rewrite nth_assign_channel by lia.
  unfold p1. rewrite nth_assign_channel by lia.
  assert (Ec : nth k centers (0%Q, 0%Q)
               = (center_x (cell vec4_zero g i j),
                  center_y (cell vec4_zero g i j))).
  { unfold centers, k, grid_map, cell; cbn [gdata].
    replace (fh * fw) with (length (map (fun a : vec4 =>
        (((c0 a + c2 a) / 2)%Q, ((c1 a + c3 a) / 2)%Q)) (gdata g)))
      by (rewrite length_map; exact Lg).
    rewrite nth_tile by (rewrite ?length_map; lia).
    rewrite (nth_map_in _ _ vec4_zero) by lia.
    rewrite Sw. reflexivity. }
  rewrite Ec. reflexivity.
Qed.


Lemma clamp_bounds (x lo hi : Q) :
  (lo <= hi)%Q -> (lo <= clamp x lo hi /\ clamp x lo hi <= hi)%Q.
Proof.
  intros H. unfold clamp. split.
  - apply Q.min_glb; [apply Q.le_max_r | exact H].
  - apply Q.le_min_r.
Qed.

Lemma Zq_nonneg (z : Z) : (0 <= z)%Z -> (0 <= Zq z)%Q.
Proof. intros H. unfold Zq. change 0%Q with (inject_Z 0). rewrite <- Zle_Qle. exact H. Qed.

(** C2.  On regression logits of shape [(bs, fh, fw, 4)],
    [apply_bbox_regression] succeeds with a tensor of the same shape, and
    the cell [(b, i, j)] of the result is
    [(ccx - n*r0, ccy - n*r1, ccx - n*r2, ccy - n*r3)], minus on all four
    channels, where [(r0, r1, r2, r3)] is the logit row of the cell,
    [n = rf_size/2] and [(ccx, ccy)] is the centre of the cell's RF anchor,
    that is [(j*rf_stride + rf_start_offset, i*rf_stride +
    rf_start_offset)]; the x coordinates are then clamped with bounds
    [0] and [fw*rf_stride] and the y coordinates with bounds [0] and
    [fh*rf_stride], so that (for a non-negative stride) they lie in these
    intervals. *)
Theorem apply_bbox_regression_decodes (self : DetectionHead)
    (reg_logits : batch vec4) :
  batch_wf reg_logits ->
  exists anchors pred,
    gen_rf_anchors self (Z.of_nat (th reg_logits)) (Z.of_nat (tw reg_logits))
      false = Ok anchors /\
    apply_bbox_regression self reg_logits = Ok pred /\
    tb pred = tb reg_logits /\ th pred = th reg_logits /\
    tw pred = tw reg_logits /\ batch_wf pred /\
    forall b i j, b < tb reg_logits -> i < th reg_logits ->
      j < tw reg_logits ->
      let r := bcell vec4_zero reg_logits b i j in
      let a := cell vec4_zero anchors i j in
      let ccx := center_x a in
      let ccy := center_y a in
      let n := (Zq (rf_size self) / 2)%Q in
      let xhi := Zq (Z.of_nat (tw reg_logits) * rf_stride self) in
      let yhi := Zq (Z.of_nat (th reg_logits) * rf_stride self) in
      let p := bcell vec4_zero pred b i j in
      p = V4 (clamp (ccx - n * c0 r) 0 xhi) (clamp (ccy - n * c1 r) 0 yhi)
             (clamp (ccx - n * c2 r) 0 xhi) (clamp (ccy - n * c3 r) 0 yhi) /\
      (ccx == Nq j * Zq (rf_stride self) + Zq (rf_start_offset self))%Q /\
      (ccy == Nq i * Zq (rf_stride self) + Zq (rf_start_offset self))%Q /\
      ((0 <= rf_stride self)%Z ->
       (0 <= c0 p <= xhi)%Q /\ (0 <= c1 p <= yhi)%Q /\
       (0 <= c2 p <= xhi)%Q /\ (0 <= c3 p <= yhi)%Q).
Proof.
  intros Wf.
  destruct (apply_bbox_regression_cells self Wf)
    as (g & pred & E & Sh & Sw & Ep & Sb & Sph & Spw & Wp & C).
  exists g, pred. repeat (split; [assumption|]).
  intros b i j Hb Hi Hj r a ccx ccy n xhi yhi p.
  assert (Ea : a = spec_rf_anchor self i j).
  { unfold a. eapply gen_rf_anchors_cell; [exact E | lia | lia]. }
  assert (Hp : p = V4 (clamp (ccx - n * c0 r) 0 xhi)
                      (clamp (ccy - n * c1 r) 0 yhi)
                      (clamp (ccx - n * c2 r) 0 xhi)
                      (clamp (ccy - n * c3 r) 0 yhi)).
  { unfold p. rewrite (C b i j Hb Hi Hj). reflexivity. }
  split; [exact Hp|].
  split; [unfold ccx; rewrite Ea; apply center_x_spec_anchor|].
  split; [unfold ccy; rewrite Ea; apply center_y_spec_anchor|].
  intros Hs. rewrite Hp; cbn [c0 c1 c2 c3].
  assert (Hx : (0 <= xhi)%Q) by (apply Zq_nonneg; nia).
  assert (Hy : (0 <= yhi)%Q) by (apply Zq_nonneg; nia).
  repeat split; apply clamp_bounds; assumption.
Qed.

Lemma apply_bbox_regression_decodes_witness :
  batch_wf example_logits /\
  exists pred,
    apply_bbox_regression example_head example_logits = Ok pred /\
    tb pred = 1 /\ th pred = 2 /\ tw pred = 2.
Proof.
  split; [reflexivity|].
  destruct (@apply_bbox_regression_decodes example_head example_logits)
    as (g & pred & _ & Ep & Sb & Sh & Sw & _); [reflexivity|].
  exists pred. repeat split; assumption.
Defined.




(** * The target builder *)

Section Slices.
Context {A : Type}.

Lemma length_set_image_slice (n i : nat) (seg data : list A) :
  length seg = n -> i * n + n <= length data ->
  length (set_image_slice n i seg data) = length data.
Proof.
  intros Hs Hd. unfold set_image_slice.
  rewrite !length_app, length_firstn, length_skipn. lia.
Qed.

Lemma nth_set_image_slice (n i : nat) (seg data : list A) (d : A) (k : nat) :
  length seg = n -> i * n + n <= length data ->
  nth k (set_image_slice n i seg data) d
  = if (i * n <=? k) && (k <? i * n + n) then nth (k - i * n) seg d
    else nth k data d.
Proof.
  intros Hs Hd. unfold set_image_slice.
  assert (Lf : length (firstn (i * n) data) = i * n)
    by (rewrite length_firstn; lia).
  destruct (Nat.leb_spec (i * n) k) as [H1 | H1]; cbn [andb].
  - rewrite app_nth2 by lia. rewrite Lf.
    destruct (Nat.ltb_spec k (i * n + n)) as [H2 | H2].
    + rewrite app_nth1 by lia. reflexivity.
    + rewrite app_nth2 by lia. rewrite nth_skipn. f_equal. lia.
  - rewrite app_nth1 by lia. rewrite nth_firstn.
    destruct (Nat.ltb_spec k (i * n)); [reflexivity | lia].
Qed.

Lemma length_image_slice (n i : nat) (data : list A) :
  i * n + n <= length data -> length (image_slice n i data) = n.
Proof.
  intros H. unfold image_slice. rewrite length_firstn, length_skipn. lia.
Qed.

Lemma nth_image_slice (n i : nat) (data : list A) (d : A) (k : nat) :
  k < n -> nth k (image_slice n i data) d = nth (i * n + k) data d.
Proof.
  intros H. unfold image_slice. rewrite nth_firstn.
  destruct (Nat.ltb_spec k n); [|lia]. apply nth_skipn.
Qed.

Lemma outer_tabulate (h w : nat) (l : list A) (d : A) :
  length l = h * w ->
  outer (fun i j => nth (i * w + j) l d) (seq 0 h) (seq 0 w) = l.
Proof.
  intros H. apply (nth_ext _ _ d d).
  - rewrite length_outer, !length_seq. lia.
  - intros k Hk. rewrite length_outer, !length_seq in Hk.
    assert (Hw : 0 < w) by (destruct w; [lia | lia]).
    assert (Hq : k / w < h) by (apply Nat.Div0.div_lt_upper_bound; lia).
    assert (Hm : k mod w < w) by (apply Nat.mod_upper_bound; lia).
    assert (Ek : k = k / w * w + k mod w)
      by (rewrite (Nat.div_mod_eq k w) at 1; lia).
    rewrite Ek at 1.
    replace w with (length (seq 0 w)) at 2 by apply length_seq.
    rewrite (nth_outer _ (seq 0 h) (seq 0 w) 0 0)
      by (rewrite length_seq; assumption).
    rewrite !nth_seq0 by assumption. rewrite <- Ek. reflexivity.
Qed.

Lemma broadcast_to_same (d : A) (fh fw : nat) (g : grid A) :
  gh g = fh -> gw g = fw -> grid_wf g ->
  broadcast_to d fh fw g = Ok (gdata g).
Proof.
  intros Hh Hw Wf. unfold broadcast_to, cell, grid_wf in *.
  rewrite Hh, Hw in *. rewrite !Nat.eqb_refl. cbn [orb andb].
  f_equal. apply (outer_tabulate fh fw (gdata g) d). exact Wf.
Qed.
End Slices.

Lemma skipn_cons_nth {A : Type} (l : list A) (i : nat) (x : A) (r : list A)
    (d : A) :
  skipn i l = x :: r -> nth i l d = x /\ skipn (S i) l = r /\ i < length l.
Proof.
  revert i. induction l as [|y l IH]; intros [|i] H; simpl in *;
    try discriminate.
  - injection H as -> ->. repeat split. lia.
  - destruct (IH i H) as (H1 & H2 & H3). repeat split; [assumption .. | lia].
Qed.

Lemma grid_shaped_true {A : Type} (fh fw : nat) (g : grid A) :
  grid_shaped fh fw g = true ->
  gh g = fh /\ gw g = fw /\ grid_wf g /\ length (gdata g) = fh * fw.
Proof.
  unfold grid_shaped, grid_wf. rewrite !andb_true_iff, !Nat.eqb_eq.
  intros ((H1 & H2) & H3). rewrite H1, H2. auto.
Qed.

Section TargetBuilder.
Variable matcher : grid vec4 -> list vec4 -> Q -> result match_result.
Variable self : DetectionHead.
Variable anchors : grid vec4.
Variables fh fw : nat.
Variable gt_boxes : list (list vec4).

Hypothesis matcher_shapes :
  forallb (fun gt => well_shaped fh fw (matcher anchors gt (rf_half self)))
          gt_boxes = true.

(** The loop, started at image [i] on a state of the right shape, ends
    normally; it leaves the images before [i] alone and writes what the
    matcher returned into each image from [i] on. *)
Lemma build_targets_loop_cells (rest : list (list vec4)) :
  forall (i : nat) (st : targets),
    rest = skipn i gt_boxes ->
    targets_shaped (length gt_boxes) fh fw st ->
    exists st',
      build_targets_loop matcher self anchors fh fw i rest st = Ok st' /\
      targets_shaped (length gt_boxes) fh fw st' /\
      forall b k, b < length gt_boxes -> k < fh * fw ->
        let idx := b * (fh * fw) + k in
        (b < i ->
         nth idx (tdata (t_cls st')) 0%Q = nth idx (tdata (t_cls st)) 0%Q /\
         nth idx (tdata (t_regs st')) vec4_zero
         = nth idx (tdata (t_regs st)) vec4_zero /\
         nth idx (tdata (t_ignore st')) false
         = nth idx (tdata (t_ignore st)) false) /\
        (i <= b ->
         forall cm rt im,
           matcher anchors (nth b gt_boxes []) (rf_half self)
           = Ok (cm, rt, im) ->
           nth idx (tdata (t_cls st')) 0%Q
           = (if nth k (gdata cm) false then 1%Q
              else nth idx (tdata (t_cls st)) 0%Q) /\
           nth idx (tdata (t_regs st')) vec4_zero
           = nth k (gdata rt) vec4_zero /\
           nth idx (tdata (t_ignore st')) false = nth k (gdata im) false).
Proof.
  induction rest as [|gt rest IH]; intros i st Hrest Hst.
  - exists st. split; [reflexivity|]. split; [exact Hst|].
    intros b k Hb Hk idx. split; [auto|].
    intros Hi. exfalso.
    assert (length (skipn i gt_boxes) = 0) by (rewrite <- Hrest; reflexivity).
    rewrite length_skipn in H. lia.
  - symmetry in Hrest.
    destruct (skipn_cons_nth gt_boxes i [] Hrest) as (Hgt & Hrest' & Hi).
    assert (Hin : In gt gt_boxes) by (rewrite <- Hgt; apply nth_In; exact Hi).
    pose proof (proj1 (forallb_forall _ _) matcher_shapes gt Hin) as Hws.
    cbv beta in Hws.
    cbn [build_targets_loop].
    destruct (matcher anchors gt (rf_half self)) as [[[cm rt] im]|e] eqn:Em;
      [|discriminate Hws].
    cbn [well_shaped] in Hws. rewrite !andb_true_iff in Hws.
    destruct Hws as ((Hcm & Hrt) & Him).
    apply grid_shaped_true in Hcm, Hrt, Him.
    destruct Hcm as (Hcm1 & Hcm2 & Wcm & Lcm).
    destruct Hrt as (Hrt1 & Hrt2 & Wrt & Lrt).
    destruct Him as (Him1 & Him2 & Wim & Lim).
    cbn [bind]. rewrite Hcm1, Hcm2, !Nat.eqb_refl. cbn [andb check bind].
    rewrite (broadcast_to_same vec4_zero Hrt1 Hrt2 Wrt). cbn [bind].
    rewrite (broadcast_to_same false Him1 Him2 Wim). cbn [bind].
    destruct Hst as ((Sc1 & Sc2 & Sc3 & Lc) & (Sr1 & Sr2 & Sr3 & Lr)
                     & (Si1 & Si2 & Si3 & Li)).
    assert (Hslot : i * (fh * fw) + fh * fw <= length gt_boxes * (fh * fw))
      by nia.
    set (cls_i := zip_with _ (gdata cm) _).
    assert (Lcls : length cls_i = fh * fw).
    { unfold cls_i. rewrite length_zip_with, length_image_slice by lia. lia. }
    match goal with
    | |- exists st', build_targets_loop _ _ _ _ _ _ _ ?s = _ /\ _ =>
        set (st1 := s)
    end.
    assert (Hst1 : targets_shaped (length gt_boxes) fh fw st1).
    { unfold st1, targets_shaped, batch_shaped;
        cbn [t_cls t_regs t_ignore tb th tw tdata].
      rewrite !length_set_image_slice by lia. repeat split; assumption. }
    destruct (IH (S i) st1 (eq_sym Hrest') Hst1) as (st' & Erun & Hst' & Hc).
    exists st'. split; [exact Erun|]. split; [exact Hst'|].
    intros b k Hb Hk. set (idx := b * (fh * fw) + k).
    pose proof (Hc b k Hb Hk) as Hc'. cbv zeta in Hc'. fold idx in Hc'.
    destruct Hc' as (Hbefore & Hafter).
    assert (Hset_other : b <> i ->
              (i * (fh * fw) <=? idx) && (idx <? i * (fh * fw) + fh * fw)
              = false).
    { intros Hne. unfold idx.
      destruct (Nat.leb_spec (i * (fh * fw)) (b * (fh * fw) + k));
        destruct (Nat.ltb_spec (b * (fh * fw) + k) (i * (fh * fw) + fh * fw));
        try reflexivity.
      exfalso. apply Hne. nia. }
    assert (Hset_same : b = i ->
              (i * (fh * fw) <=? idx) && (idx <? i * (fh * fw) + fh * fw)
              = true /\ idx - i * (fh * fw) = k).
    { intros ->. unfold idx. split; [|lia].
      destruct (Nat.leb_spec (i * (fh * fw)) (i * (fh * fw) + k)); [|lia].
      destruct (Nat.ltb_spec (i * (fh * fw) + k) (i * (fh * fw) + fh * fw));
        [reflexivity | lia]. }
    assert (Hst1_other : b <> i ->
      nth idx (tdata (t_cls st1)) 0%Q = nth idx (tdata (t_cls st)) 0%Q /\
      nth idx (tdata (t_regs st1)) vec4_zero
      = nth idx (tdata (t_regs st)) vec4_zero /\
      nth idx (tdata (t_ignore st1)) false
      = nth idx (tdata (t_ignore st)) false).
    { intros Hne. unfold st1; cbn [t_cls t_regs t_ignore tdata].
      rewrite !nth_set_image_slice by lia.
      rewrite (Hset_other Hne). repeat split. }
    split.
    + intros Hlt. destruct Hbefore as (B1 & B2 & B3); [lia|].
      destruct Hst1_other as (O1 & O2 & O3); [lia|].
      rewrite B1, B2, B3, O1, O2, O3. repeat split.
    + intros Hle cm' rt' im' Em'.
      destruct (Nat.eq_dec b i) as [-> | Hne].
      * rewrite Hgt, Em in Em'. injection Em' as <- <- <-.
        destruct Hbefore as (B1 & B2 & B3); [lia|].
        rewrite B1, B2, B3.
        unfold st1; cbn [t_cls t_regs t_ignore tdata].
        rewrite !nth_set_image_slice by lia.
        destruct (Hset_same eq_refl) as (-> & ->).
        split; [|split; reflexivity].
        unfold cls_i.
        rewrite (nth_zip_with _ _ _ false 0%Q)
          by (rewrite ?length_image_slice; lia).
        rewrite nth_image_slice by lia. reflexivity.
      * destruct (Hafter ltac:(lia) cm' rt' im' Em') as (A1 & A2 & A3).
        destruct (Hst1_other Hne) as (O1 & O2 & O3).
        rewrite A1, A2, A3, O1. repeat split.
Qed.
End TargetBuilder.

Lemma full_shaped {A : Type} (bs fh fw : nat) (x : A) :
  batch_shaped bs fh fw (full bs fh fw x).
Proof.
  unfold batch_shaped, full; cbn [tb th tw tdata].
  rewrite repeat_length. repeat split.
Qed.

Lemma build_targets_flat
    (matcher : grid vec4 -> list vec4 -> Q -> result match_result)
    (self : DetectionHead) (fh fw : nat) (gt_boxes : list (list vec4)) :
  matcher_contract_on matcher self fh fw gt_boxes = true ->
  exists tg,
    build_targets matcher self (Z.of_nat fh, Z.of_nat fw) gt_boxes = Ok tg /\
    targets_shaped (length gt_boxes) fh fw tg /\
    forall b, b < length gt_boxes ->
      exists cm rt im,
        matched matcher self fh fw gt_boxes b = Ok (cm, rt, im) /\
        grid_shaped fh fw cm = true /\ grid_shaped fh fw rt = true /\
        grid_shaped fh fw im = true /\
        forall k, k < fh * fw ->
          nth (b * (fh * fw) + k) (tdata (t_cls tg)) 0%Q
          = (if nth k (gdata cm) false then 1%Q else 0%Q) /\
          nth (b * (fh * fw) + k) (tdata (t_regs tg)) vec4_zero
          = nth k (gdata rt) vec4_zero /\
          nth (b * (fh * fw) + k) (tdata (t_ignore tg)) false
          = nth k (gdata im) false.
Proof.
  unfold matcher_contract_on. intros Hc.
  destruct (gen_rf_anchors self (Z.of_nat fh) (Z.of_nat fw) false)
    as [anchors|e] eqn:Ea; [|discriminate Hc].
  set (st0 := Targets (full (length gt_boxes) fh fw 0%Q)
                      (full (length gt_boxes) fh fw vec4_zero)
                      (full (length gt_boxes) fh fw false)).
  assert (Hst0 : targets_shaped (length gt_boxes) fh fw st0)
    by (repeat split; apply full_shaped).
  destruct (@build_targets_loop_cells matcher self anchors fh fw gt_boxes Hc
              gt_boxes 0 st0 eq_refl Hst0) as (tg & Erun & Htg & Hcells).
  exists tg. split.
  { unfold build_targets.
    destruct (Z.leb_spec 0 (Z.of_nat fh)); [|lia].
    destruct (Z.leb_spec 0 (Z.of_nat fw)); [|lia].
    cbn [andb check bind]. rewrite Ea. cbn [bind].
    rewrite !Nat2Z.id. exact Erun. }
  split; [exact Htg|].
  intros b Hb.
  assert (Hin : In (nth b gt_boxes []) gt_boxes) by (apply nth_In; exact Hb).
  pose proof (proj1 (forallb_forall _ _) Hc _ Hin) as Hws. cbv beta in Hws.
  destruct (matcher anchors (nth b gt_boxes []) (rf_half self))
    as [[[cm rt] im]|e] eqn:Em; [|discriminate Hws].
  cbn [well_shaped] in Hws. rewrite !andb_true_iff in Hws.
  destruct Hws as ((Hcm & Hrt) & Him).
  exists cm, rt, im. split.
  { unfold matched. rewrite Ea. cbn [bind].
    rewrite (nth_error_nth' gt_boxes [] Hb). exact Em. }
  repeat (split; [assumption|]).
  intros k Hk.
  destruct (Hcells b k Hb Hk) as (_ & Hafter).
  destruct (Hafter ltac:(lia) cm rt im Em) as (A1 & A2 & A3).
  rewrite A1, A2, A3. repeat split.
  unfold st0, full; cbn [t_cls tdata]. rewrite nth_repeat. reflexivity.
Qed.

(** A slice is determined by its elements. *)
Lemma image_slice_ext {A : Type} (n b : nat) (data seg : list A) (d : A) :
  b * n + n <= length data -> length seg = n ->
  (forall k, k < n -> nth (b * n + k) data d = nth k seg d) ->
  image_slice n b data = seg.
Proof.
  intros Hd Hs H. apply (nth_ext _ _ d d).
  - rewrite length_image_slice by exact Hd. symmetry; exact Hs.
  - intros k Hk. rewrite length_image_slice in Hk by exact Hd.
    rewrite nth_image_slice by exact Hk. apply H. exact Hk.
Qed.

(** C8.  For every batch on which the matcher honours its contract,
    [build_targets] succeeds with three tensors of shape [(bs, fh, fw)];
    in image [b] the classification target of a cell is one where the
    matcher's classification mask for that image holds and zero, the
    initial value, everywhere else, and the slices [t_regs[b]] and
    [ignore[b]] are the matcher's regression output and ignore output,
    element for element. *)
Theorem build_targets_copies_matcher
    (matcher : grid vec4 -> list vec4 -> Q -> result match_result)
    (self : DetectionHead) (fh fw : nat) (gt_boxes : list (list vec4)) :
  matcher_contract_on matcher self fh fw gt_boxes = true ->
  exists tg,
    build_targets matcher self (Z.of_nat fh, Z.of_nat fw) gt_boxes = Ok tg /\
    targets_shaped (length gt_boxes) fh fw tg /\
    forall b, b < length gt_boxes ->
      exists cm rt im,
        matched matcher self fh fw gt_boxes b = Ok (cm, rt, im) /\
        (forall i j, i < fh -> j < fw ->
           bcell 0%Q (t_cls tg) b i j
           = (if cell false cm i j then 1%Q else 0%Q)) /\
        image_slice (fh * fw) b (tdata (t_cls tg))
        = map (fun m : bool => if m then 1%Q else 0%Q) (gdata cm) /\
        image_slice (fh * fw) b (tdata (t_regs tg)) = gdata rt /\
        image_slice (fh * fw) b (tdata (t_ignore tg)) = gdata im.
Proof.
  intros Hc.
  destruct (build_targets_flat matcher self fh fw gt_boxes Hc)
    as (tg & Erun & Htg & Himg).
  exists tg. split; [exact Erun|]. split; [exact Htg|].
  intros b Hb.
  destruct (Himg b Hb) as (cm & rt & im & Em & Scm & Srt & Sim & Hk).
  exists cm, rt, im. split; [exact Em|].
  apply grid_shaped_true in Scm, Srt, Sim.
  destruct Scm as (_ & Wcm & _ & Lcm).
  destruct Srt as (_ & _ & _ & Lrt).
  destruct Sim as (_ & _ & _ & Lim).
  destruct Htg as ((_ & Hth & Htw & Lc) & (_ & _ & _ & Lr) & (_ & _ & _ & Li)).
  assert (Hslot : b * (fh * fw) + fh * fw <= length gt_boxes * (fh * fw))
    by nia.
  split; [|split; [|split]].
  - intros i j Hi Hj. unfold bcell, cell. rewrite Hth, Htw, Wcm.
    assert (Hij : i * fw + j < fh * fw) by nia.
    apply (Hk _ Hij).
  - apply (image_slice_ext _ _ _ 0%Q); [lia | rewrite length_map; exact Lcm |].
    intros k Hlt. rewrite (nth_map_in _ _ false) by lia.
    apply (Hk k Hlt).
  - apply (image_slice_ext _ _ _ vec4_zero); [lia | exact Lrt |].
    intros k Hlt. apply (Hk k Hlt).
  - apply (image_slice_ext _ _ _ false); [lia | exact Lim |].
    intros k Hlt. apply (Hk k Hlt).
Qed.

Lemma build_targets_copies_matcher_witness :
  matcher_contract_on example_matcher example_head 4 4 example_gt = true /\
  exists tg,
    build_targets example_matcher example_head (Z.of_nat 4, Z.of_nat 4)
      example_gt = Ok tg /\
    targets_shaped (length example_gt) 4 4 tg.
Proof.
  assert (H : matcher_contract_on example_matcher example_head 4 4 example_gt
              = true) by (vm_compute; reflexivity).
  split; [exact H|].
  destruct (@build_targets_copies_matcher example_matcher example_head 4 4
              example_gt H) as (tg & E & S & _).
  exists tg. split; assumption.
Defined.

(** * The loss composer *)

Lemma length_flat_map_const {A B : Type} (g : A -> list B) (n : nat)
    (l : list A) :
  (forall x, In x l -> length (g x) = n) ->
  length (flat_map g l) = length l * n.
Proof.
  induction l as [|x l IH]; intros H; simpl; [reflexivity|].
  rewrite length_app, (H x (or_introl eq_refl)), IH; [reflexivity|].
  intros y Hy. apply H. right; exact Hy.
Qed.

Lemma Forall_flat_map {A B : Type} (P : B -> Prop) (g : A -> list B)
    (l : list A) :
  (forall x, In x l -> Forall P (g x)) -> Forall P (flat_map g l).
Proof.
  induction l as [|x l IH]; intros H; simpl; [constructor|].
  apply Forall_app. split; [apply H; left; reflexivity|].
  apply IH. intros y Hy. apply H. right; exact Hy.
Qed.

Lemma length_permute_0231 (t : tensor4) :
  length (tdata (permute_0231 t)) = d0 t * (d2 t * d3 t).
Proof.
  unfold permute_0231; cbn [tdata].
  rewrite (@length_flat_map_const _ _ _ (d2 t * d3 t)), length_seq;
    [reflexivity|].
  intros b _.
  rewrite (@length_flat_map_const _ _ _ (d3 t)), length_seq; [reflexivity|].
  intros i _. rewrite length_map, length_seq. reflexivity.
Qed.

Lemma rows_permute_0231 (t : tensor4) :
  Forall (fun r => length r = d1 t) (tdata (permute_0231 t)).
Proof.
  unfold permute_0231; cbn [tdata].
  apply Forall_flat_map; intros b _.
  apply Forall_flat_map; intros i _.
  apply Forall_forall. intros r Hr. apply in_map_iff in Hr.
  destruct Hr as (j & <- & _). rewrite length_map, length_seq. reflexivity.
Qed.

Lemma count_true_nonneg (mask : list bool) : (0 <= count_true mask)%Z.
Proof. unfold count_true. lia. Qed.

Lemma where_true_spec (mask : list bool) (k : nat) :
  In k (where_true mask) <-> k < length mask /\ nth k mask false = true.
Proof.
  unfold where_true. rewrite filter_In, in_seq. split.
  - intros ((_ & H) & E). split; [lia | exact E].
  - intros (H & E). split; [lia | exact E].
Qed.

Lemma scatter_true_ok (len : nat) (sel : list nat) :
  (forall k, In k sel -> k < len) ->
  scatter_true len sel
  = Ok (map (fun k => existsb (Nat.eqb k) sel) (seq 0 len)).
Proof.
  intros H. unfold scatter_true.
  assert (E : forallb (fun k => k <? len) sel = true).
  { apply forallb_forall. intros k Hk. apply Nat.ltb_lt. apply H. exact Hk. }
  rewrite E. reflexivity.
Qed.

Lemma scatter_true_length (len : nat) (sel : list nat) (m : list bool) :
  scatter_true len sel = Ok m -> length m = len.
Proof.
  unfold scatter_true. destruct (forallb _ sel); [|discriminate].
  cbn [check bind]. intros E; injection E as <-.
  rewrite length_map, length_seq. reflexivity.
Qed.

Lemma scatter_true_nth (len : nat) (sel : list nat) (m : list bool)
    (k : nat) :
  scatter_true len sel = Ok m -> k < len ->
  nth k m false = true <-> In k sel.
Proof.
  unfold scatter_true. destruct (forallb _ sel); [|discriminate].
  cbn [check bind]. intros E Hk; injection E as <-.
  rewrite (nth_map_in _ _ 0) by (rewrite length_seq; exact Hk).
  rewrite nth_seq0 by exact Hk. rewrite existsb_exists. split.
  - intros (x & Hx & Ex). apply Nat.eqb_eq in Ex. subst x. exact Hx.
  - intros Hin. exists k. split; [exact Hin | apply Nat.eqb_refl].
Qed.

Section Select.
Context {A : Type}.



Lemma length_select_eq {B : Type} (mask : list bool) (data : list A)
    (data' : list B) :
  length data = length data' ->
  length (select mask data) = length (select mask data').
Proof.
  unfold select. rewrite !length_map. revert data data'.
  induction mask as [|m mask IH]; intros [|x data] [|y data'] H; simpl in *;
    try reflexivity; try discriminate.
  destruct m; simpl; rewrite (IH data data') by lia; reflexivity.
Qed.

Lemma select_ext (mask : list bool) (data data' : list A) (d : A) :
  length data = length data' ->
  (forall k, k < length mask -> nth k mask false = true ->
             nth k data d = nth k data' d) ->
  select mask data = select mask data'.
Proof.
  unfold select. revert data data'.
  induction mask as [|m mask IH]; intros [|x data] [|y data'] L H;
    simpl in *; try reflexivity; try discriminate.
  assert (IH' : map snd (filter fst (combine mask data))
                = map snd (filter fst (combine mask data'))).
  { apply IH; [lia|]. intros k Hk Hm. apply (H (S k)); [lia | exact Hm]. }
  destruct m; simpl; [|exact IH'].
  rewrite IH'. f_equal. apply (H 0); [lia | reflexivity].
Qed.


Lemma select_Forall (P : A -> Prop) (mask : list bool) (data : list A) :
  Forall P data -> Forall P (select mask data).
Proof.
  intros H. unfold select. apply Forall_forall. intros x Hx.
  apply in_map_iff in Hx. destruct Hx as ((m & y) & <- & Hy).
  apply filter_In in Hy. destruct Hy as (Hy & _).
  apply in_combine_r in Hy. rewrite Forall_forall in H. apply H. exact Hy.
Qed.

Lemma select_nil_of_count (mask : list bool) (data : list A) :
  count_true mask = 0%Z -> select mask data = [].
Proof.
  unfold select, count_true. intros H.
  assert (H' : length (filter (fun b : bool => b) mask) = 0) by lia.
  clear H. revert data.
  induction mask as [|m mask IH]; intros [|x data]; simpl in *;
    try reflexivity.
  destruct m; simpl in *; [discriminate H'|]. apply IH. exact H'.
Qed.
End Select.

Section Loss.
Variable matcher : grid vec4 -> list vec4 -> Q -> result match_result.
Variable random_sample_selection : list nat -> Z -> result (list nat).
Variable binary_cross_entropy_with_logits :
  list (list Q) -> list (list Q) -> result Q.
Variable self : DetectionHead.

Abbreviation trace_of :=
  (compute_loss_trace matcher random_sample_selection
     binary_cross_entropy_with_logits self).

(** What a completed call of [compute_loss] has computed, step by step. *)
Lemma compute_loss_trace_inv (cls_logits reg_logits : tensor4)
    (gt_boxes : list (list vec4)) (tr : loss_trace) :
  trace_of cls_logits reg_logits gt_boxes = Ok tr ->
  let tg := lt_targets tr in
  let target_cls := tdata (t_cls tg) in
  let ignore := tdata (t_ignore tg) in
  let union := zip_with orb (lt_pos_mask tr) (lt_neg_mask tr) in
  build_targets matcher self
    (Z.of_nat (d2 cls_logits), Z.of_nat (d3 cls_logits)) gt_boxes = Ok tg /\
  lt_pos_mask tr
  = zip_with (fun t ig => Qeq_bool t 1 && negb ig) target_cls ignore /\
  lt_rpos_mask tr = map (fun t => Qeq_bool t 1) target_cls /\
  lt_neg_candidates tr
  = zip_with (fun t ig => Qeq_bool t 0 && negb ig) target_cls ignore /\
  lt_positives tr = count_true (lt_pos_mask tr) /\
  lt_requested tr
  = (if (lt_positives tr <=? 0)%Z then Z.of_nat (d0 cls_logits)
     else Z.min (count_true (lt_neg_candidates tr)) (5 * lt_positives tr)) /\
  random_sample_selection (where_true (lt_neg_candidates tr))
    (lt_requested tr) = Ok (lt_selections tr) /\
  scatter_true (length (lt_neg_candidates tr)) (lt_selections tr)
  = Ok (lt_neg_mask tr) /\
  length (lt_neg_mask tr) = d0 cls_logits * (d2 cls_logits * d3 cls_logits) /\
  tb (t_cls tg) = d0 cls_logits /\
  lt_cls_input tr = select union (tdata (permute_0231 cls_logits)) /\
  lt_cls_target tr = map (fun t => [t]) (select union target_cls) /\
  binary_cross_entropy_with_logits (lt_cls_input tr) (lt_cls_target tr)
  = Ok (value (lt_cls_loss tr)) /\
  requires_grad (lt_cls_loss tr) = t4grad cls_logits /\
  (((count_true (lt_rpos_mask tr) <= 0)%Z /\
    lt_reg_loss tr = Scalar 0 true) \/
   ((0 < count_true (lt_rpos_mask tr))%Z /\
    same_shape (permute_0231 reg_logits) (t_cls tg) = true /\
    exists v,
      mse_loss (d1 reg_logits)
        (select (lt_rpos_mask tr) (tdata (permute_0231 reg_logits)))
        (select (lt_rpos_mask tr) (tdata (t_regs tg))) = Ok v /\
      lt_reg_loss tr = Scalar v (t4grad reg_logits))).
Proof.
  unfold compute_loss_trace.
  destruct (build_targets matcher self _ gt_boxes) as [tg|e] eqn:Et;
    cbn [bind]; [|discriminate].
  destruct (random_sample_selection _ _) as [sel|e] eqn:Es;
    cbn [bind]; [|discriminate].
  destruct (scatter_true _ sel) as [sampled|e] eqn:Esc;
    cbn [bind]; [|discriminate].
  destruct (Nat.eqb_spec (length sampled)
              (d0 cls_logits * (d2 cls_logits * d3 cls_logits)))
    as [Hlen|Hlen]; cbn [check bind]; [|discriminate].
  destruct (Nat.eqb_spec (tb (t_cls tg)) (d0 cls_logits)) as [Htb|Htb];
    cbn [check bind]; [|discriminate].
  destruct (binary_cross_entropy_with_logits _ _) as [v|e] eqn:Eb;
    cbn [bind]; [|discriminate].
  destruct (Z.leb_spec (count_true (map (fun t => Qeq_bool t 1)
                                        (tdata (t_cls tg)))) 0) as [Hc|Hc].
  - cbn [bind]. intros E; injection E as <-.
    cbn [lt_targets lt_pos_mask lt_rpos_mask lt_neg_candidates lt_positives
         lt_requested lt_selections lt_neg_mask lt_cls_input lt_cls_target
         lt_cls_loss lt_reg_loss value requires_grad].
    repeat (split; [first [reflexivity | assumption]|]).
    left. split; [exact Hc | reflexivity].
  - destruct (same_shape (permute_0231 reg_logits) (t_cls tg)) eqn:Ess;
      cbn [check bind]; [|discriminate].
    destruct (mse_loss _ _ _) as [w|e] eqn:Em; cbn [bind]; [|discriminate].
    intros E; injection E as <-.
    cbn [lt_targets lt_pos_mask lt_rpos_mask lt_neg_candidates lt_positives
         lt_requested lt_selections lt_neg_mask lt_cls_input lt_cls_target
         lt_cls_loss lt_reg_loss value requires_grad].
    repeat (split; [first [reflexivity | assumption]|]).
    right. split; [exact Hc|]. split; [exact Ess|].
    exists w. split; [exact Em | reflexivity].
Qed.

(** A completed call can be replayed with another sampler and other
    classification logits: the sampler is consulted once, for the request
    of the trace, and the logits are read on the union of the positive and
    the sampled negative mask only. *)
Lemma compute_loss_trace_replay (cls_logits cls_logits' reg_logits : tensor4)
    (gt_boxes : list (list vec4)) (tr : loss_trace)
    (sample' : list nat -> Z -> result (list nat)) :
  trace_of cls_logits reg_logits gt_boxes = Ok tr ->
  sample' (where_true (lt_neg_candidates tr)) (lt_requested tr)
  = Ok (lt_selections tr) ->
  d0 cls_logits' = d0 cls_logits -> d2 cls_logits' = d2 cls_logits ->
  d3 cls_logits' = d3 cls_logits ->
  t4grad cls_logits' = t4grad cls_logits ->
  (let union := zip_with orb (lt_pos_mask tr) (lt_neg_mask tr) in
   forall k, k < length union -> nth k union false = true ->
     nth k (tdata (permute_0231 cls_logits')) []
     = nth k (tdata (permute_0231 cls_logits)) []) ->
  exists tr',
    compute_loss_trace matcher sample' binary_cross_entropy_with_logits self
      cls_logits' reg_logits gt_boxes = Ok tr' /\
    lt_cls_loss tr' = lt_cls_loss tr /\
    lt_reg_loss tr' = lt_reg_loss tr.
Proof.
  intros E Hsel' H0 H2 H3 Hg Hagree.
  destruct (compute_loss_trace_inv _ _ _ E)
    as (Et & Hpos & Hr & Hneg & Hp & Hreq & Hsel & Hsc & Hlen & Htb
        & Hin & Htgt & Hbce & Hgrad & Hreg).
  cbv zeta in Hagree.
  unfold compute_loss_trace. rewrite H0, H2, H3, Et. cbn [bind].
  rewrite <- Hpos, <- Hneg, <- Hr, <- Hp, <- Hreq, Hsel'. cbn [bind].
  rewrite Hsc. cbn [bind]. rewrite Hlen, Nat.eqb_refl. cbn [check bind].
  rewrite Htb, Nat.eqb_refl. cbn [check bind].
  rewrite (select_ext _ (tdata (permute_0231 cls_logits'))
             (tdata (permute_0231 cls_logits)) [])
    by (rewrite ?length_permute_0231, ?H0, ?H2, ?H3; auto).
  rewrite <- Hin, <- Htgt, Hbce. cbn [bind]. rewrite Hg, <- Hgrad.
  assert (Ecl : Scalar (value (lt_cls_loss tr))
                       (requires_grad (lt_cls_loss tr)) = lt_cls_loss tr)
    by (destruct (lt_cls_loss tr); reflexivity).
  destruct Hreg as [(Hz & Hl) | (Hz & Hss & v & Em & Hl)].
  - destruct (Z.leb_spec (count_true (lt_rpos_mask tr)) 0); [|lia].
    cbn [bind]. eexists. split; [reflexivity|].
    cbn [lt_cls_loss lt_reg_loss]. split; [exact Ecl | symmetry; exact Hl].
  - destruct (Z.leb_spec (count_true (lt_rpos_mask tr)) 0); [lia|].
    rewrite Hss. cbn [check bind]. rewrite Em. cbn [bind].
    eexists. split; [reflexivity|].
    cbn [lt_cls_loss lt_reg_loss]. split; [exact Ecl | symmetry; exact Hl].
Qed.

Hypothesis sampler_ok : sampler_contract random_sample_selection.
Hypothesis bce_ok : bce_contract binary_cross_entropy_with_logits.

(** On a well-formed batch, with collaborators that honour their
    contracts, [compute_loss] runs to completion. *)
Lemma compute_loss_trace_runs (cls_logits reg_logits : tensor4)
    (gt_boxes : list (list vec4)) :
  length gt_boxes = d0 cls_logits ->
  d1 cls_logits = 1 ->
  matcher_contract_on matcher self (d2 cls_logits) (d3 cls_logits) gt_boxes
  = true ->
  (forall tg,
     build_targets matcher self
       (Z.of_nat (d2 cls_logits), Z.of_nat (d3 cls_logits)) gt_boxes = Ok tg ->
     (count_true (map (fun t => Qeq_bool t 1) (tdata (t_cls tg))) <= 0)%Z \/
     (d0 reg_logits = d0 cls_logits /\ d2 reg_logits = d2 cls_logits /\
      d3 reg_logits = d3 cls_logits /\
      (d1 reg_logits = 4 \/ d1 reg_logits = 1))) ->
  exists tr, trace_of cls_logits reg_logits gt_boxes = Ok tr.
Proof.
  intros Hbs Hc1 Hm Hreg.
  destruct (build_targets_flat matcher self _ _ gt_boxes Hm)
    as (tg & Et & ((Tb & Th & Tw & Lc) & _ & (_ & _ & _ & Li)) & _).
  specialize (Hreg tg Et).
  unfold compute_loss_trace. rewrite Et. cbn [bind].
  set (pos_mask := zip_with (fun t ig => Qeq_bool t 1 && negb ig) _ _).
  set (neg_mask := zip_with (fun t ig => Qeq_bool t 0 && negb ig) _ _).
  set (rpos_mask := map (fun t => Qeq_bool t 1) _).
  set (negatives := if (count_true pos_mask <=? 0)%Z then _ else _).
  assert (Lneg : length neg_mask
                 = d0 cls_logits * (d2 cls_logits * d3 cls_logits))
    by (unfold neg_mask; rewrite length_zip_with; lia).
  assert (Lpos : length pos_mask
                 = d0 cls_logits * (d2 cls_logits * d3 cls_logits))
    by (unfold pos_mask; rewrite length_zip_with; lia).
  destruct (sampler_ok (where_true neg_mask) negatives) as (sel & Es & Hincl).
  rewrite Es. cbn [bind].
  rewrite scatter_true_ok
    by (intros k Hk; apply Hincl in Hk; apply where_true_spec in Hk;
        tauto).
  cbn [bind]. rewrite length_map, length_seq, Lneg, Nat.eqb_refl.
  cbn [check bind]. rewrite Tb, Hbs, Nat.eqb_refl. cbn [check bind].
  set (sampled := map _ (seq 0 _)).
  set (union := zip_with orb pos_mask sampled).
  destruct (bce_ok (input := select union (tdata (permute_0231 cls_logits)))
              (target := map (fun t => [t])
                           (select union (tdata (t_cls tg)))))
    as (v & Ev).
  { rewrite length_map. apply length_select_eq.
    rewrite length_permute_0231. lia. }
  { apply select_Forall. rewrite <- Hc1. apply rows_permute_0231. }
  { apply Forall_forall. intros r Hr. apply in_map_iff in Hr.
    destruct Hr as (t & <- & _). reflexivity. }
  rewrite Ev. cbn [bind].
  destruct (Z.leb_spec (count_true rpos_mask) 0) as [Hz|Hz].
  - cbn [bind]. eexists; reflexivity.
  - destruct Hreg as [Hreg | (R0 & R2 & R3 & R1)]; [unfold rpos_mask in Hz; lia|].
    assert (Ess : same_shape (permute_0231 reg_logits) (t_cls tg) = true).
    { unfold same_shape, permute_0231; cbn [tb th tw].
      rewrite R0, R2, R3, Tb, Th, Tw, Hbs, !Nat.eqb_refl. reflexivity. }
    rewrite Ess. cbn [check bind].
    unfold mse_loss.
    assert (E4 : (d1 reg_logits =? 4) || (d1 reg_logits =? 1) = true)
      by (destruct R1 as [-> | ->]; reflexivity).
    rewrite E4. cbn [check bind]. eexists; reflexivity.
Qed.

(** C4.  In [compute_loss], with [positives] the number of cells whose
    class target (as [build_targets] returns it) is one and that are not
    ignored, the number of negatives requested from the sampler is
    [batch_size] when [positives] is zero, and [min(number of negative
    candidates, 5 * positives)] when it is positive; the candidates are
    the cells whose class target is zero and that are not ignored.  The
    sampler is consulted for this request only: with any sampler that
    answers it alike the call returns the same losses.  On a well-formed
    batch the call reaches that point. *)
Theorem requested_negatives (cls_logits reg_logits : tensor4)
    (gt_boxes : list (list vec4)) :
  (forall tr,
     trace_of cls_logits reg_logits gt_boxes = Ok tr ->
     let tg := lt_targets tr in
     let target_cls := tdata (t_cls tg) in
     let ignore := tdata (t_ignore tg) in
     let positives :=
       count_true (zip_with (fun t ig => Qeq_bool t 1 && negb ig)
                            target_cls ignore) in
     let candidates :=
       zip_with (fun t ig => Qeq_bool t 0 && negb ig) target_cls ignore in
     build_targets matcher self
       (Z.of_nat (d2 cls_logits), Z.of_nat (d3 cls_logits)) gt_boxes = Ok tg /\
     random_sample_selection (where_true candidates) (lt_requested tr)
     = Ok (lt_selections tr) /\
     (positives = 0%Z -> lt_requested tr = Z.of_nat (d0 cls_logits)) /\
     ((0 < positives)%Z ->
      lt_requested tr = Z.min (count_true candidates) (5 * positives)) /\
     compute_loss matcher random_sample_selection
       binary_cross_entropy_with_logits self cls_logits reg_logits gt_boxes
     = Ok (lt_cls_loss tr, lt_reg_loss tr) /\
     forall sample' : list nat -> Z -> result (list nat),
       sample' (where_true candidates) (lt_requested tr)
       = Ok (lt_selections tr) ->
       compute_loss matcher sample' binary_cross_entropy_with_logits self
         cls_logits reg_logits gt_boxes
       = Ok (lt_cls_loss tr, lt_reg_loss tr)) /\
  (length gt_boxes = d0 cls_logits ->
   d1 cls_logits = 1 ->
   matcher_contract_on matcher self (d2 cls_logits) (d3 cls_logits) gt_boxes
   = true ->
   d0 reg_logits = d0 cls_logits /\ d2 reg_logits = d2 cls_logits /\
   d3 reg_logits = d3 cls_logits /\ d1 reg_logits = 4 ->
   exists tr, trace_of cls_logits reg_logits gt_boxes = Ok tr).
Proof.
  split.
  - intros tr E.
    destruct (compute_loss_trace_inv _ _ _ E)
      as (Et & Hpos & _ & Hneg & Hp & Hreq & Hsel & _).
    cbv zeta. rewrite <- Hpos, <- Hneg, <- Hp.
    split; [exact Et|]. split; [exact Hsel|]. rewrite Hreq.
    split; [intros ->; reflexivity|].
    split.
    { intros H. destruct (Z.leb_spec (lt_positives tr) 0); [lia|reflexivity]. }
    split; [unfold compute_loss; rewrite E; reflexivity|].
    intros sample' Hs'. rewrite <- Hreq in Hs'.
    destruct (@compute_loss_trace_replay cls_logits cls_logits reg_logits
                gt_boxes tr sample' E Hs' eq_refl eq_refl eq_refl eq_refl)
      as (tr' & E' & Hc & Hr); [intros; reflexivity|].
    unfold compute_loss. rewrite E'. cbn [bind]. rewrite Hc, Hr. reflexivity.
  - intros Hbs Hc1 Hm (R0 & R2 & R3 & R1).
    apply compute_loss_trace_runs; try assumption.
    intros tg _. right. repeat split; try assumption. left; exact R1.
Qed.

Lemma count_true_map_none {A : Type} (f : A -> bool) (l : list A) :
  forallb (fun t => negb (f t)) l = true -> count_true (map f l) = 0%Z.
Proof.
  unfold count_true. intros H.
  assert (E : filter (fun b : bool => b) (map f l) = []).
  { induction l as [|x l IH]; simpl in *; [reflexivity|].
    apply andb_true_iff in H. destruct H as (Hx & Hl).
    destruct (f x); [discriminate Hx|]. apply IH. exact Hl. }
  rewrite E. reflexivity.
Qed.

Lemma mse_loss_value (c : nat) (input : list (list Q)) (target : list vec4)
    (v : Q) :
  mse_loss c input target = Ok v ->
  v = (Qsum (zip_with sq_err (map (row_vec4 c) input) target)
       / (4 * Nq (length target)))%Q.
Proof.
  unfold mse_loss. destruct ((c =? 4) || (c =? 1)); cbn [check bind];
    [|discriminate].
  intros E; injection E as <-. reflexivity.
Qed.


(** C6.  In [compute_loss], when no cell has class target one, the call
    does not fail, and the regression loss it returns is the constant zero
    created with [requires_grad=True]. *)
Theorem no_positive_zero_reg_loss (cls_logits reg_logits : tensor4)
    (gt_boxes : list (list vec4)) (tg : targets) :
  length gt_boxes = d0 cls_logits ->
  d1 cls_logits = 1 ->
  matcher_contract_on matcher self (d2 cls_logits) (d3 cls_logits) gt_boxes
  = true ->
  build_targets matcher self
    (Z.of_nat (d2 cls_logits), Z.of_nat (d3 cls_logits)) gt_boxes = Ok tg ->
  forallb (fun t => negb (Qeq_bool t 1)) (tdata (t_cls tg)) = true ->
  exists cls_loss reg_loss,
    compute_loss matcher random_sample_selection
      binary_cross_entropy_with_logits self cls_logits reg_logits gt_boxes
    = Ok (cls_loss, reg_loss) /\
    reg_loss = Scalar 0 true /\
    value reg_loss = 0%Q /\ requires_grad reg_loss = true.
Proof.
  intros Hbs Hc1 Hm Et Hnone.
  assert (Hz : count_true (map (fun t => Qeq_bool t 1) (tdata (t_cls tg)))
               = 0%Z) by (apply count_true_map_none; exact Hnone).
  destruct (@compute_loss_trace_runs cls_logits reg_logits gt_boxes
              Hbs Hc1 Hm) as (tr & E).
  { intros tg' Et'. rewrite Et in Et'. injection Et' as <-. left. lia. }
  destruct (compute_loss_trace_inv _ _ _ E)
    as (Et' & _ & Hr & _ & _ & _ & _ & _ & _ & _ & _ & _ & _ & _ & Hreg).
  rewrite Et in Et'. injection Et' as Etg.
  exists (lt_cls_loss tr), (lt_reg_loss tr). split.
  - unfold compute_loss. rewrite E. reflexivity.
  - destruct Hreg as [(_ & ->) | (Hpos & _)].
    + repeat split.
    + rewrite Hr, <- Etg, Hz in Hpos. lia.
Qed.
Lemma build_targets_zero_one (fh fw : nat) (gt_boxes : list (list vec4))
    (tg : targets) :
  matcher_contract_on matcher self fh fw gt_boxes = true ->
  build_targets matcher self (Z.of_nat fh, Z.of_nat fw) gt_boxes = Ok tg ->
  Forall (fun t => t = 0%Q \/ t = 1%Q) (tdata (t_cls tg)).
Proof.
  intros Hm Et.
  destruct (build_targets_flat matcher self fh fw gt_boxes Hm)
    as (tg' & Et' & ((_ & _ & _ & Lc) & _) & Himg).
  rewrite Et in Et'. injection Et' as <-.
  apply Forall_nth. intros idx d Hidx.
  rewrite (nth_indep _ d 0%Q) by exact Hidx.
  rewrite Lc in Hidx.
  assert (Hn : 0 < fh * fw) by (destruct (fh * fw); lia).
  assert (Hb : idx / (fh * fw) < length gt_boxes)
    by (apply Nat.Div0.div_lt_upper_bound; lia).
  assert (Hk : idx mod (fh * fw) < fh * fw)
    by (apply Nat.mod_upper_bound; lia).
  destruct (Himg _ Hb) as (cm & rt & im & _ & _ & _ & _ & Hcell).
  destruct (Hcell _ Hk) as (Hc & _).
  replace (idx / (fh * fw) * (fh * fw) + idx mod (fh * fw)) with idx in Hc
    by (rewrite (Nat.div_mod_eq idx (fh * fw)) at 1; lia).
  rewrite Hc. destruct (nth _ (gdata cm) false); [right | left]; reflexivity.
Qed.

(** C7.  In [compute_loss], the classification loss is
    [binary_cross_entropy_with_logits] applied to the logit rows selected
    by the union of the positive mask and the sampled negative mask, with
    the class targets selected by the same union, each zero or one.  The
    class targets and the ignore mask are those [build_targets] returns,
    the positive mask holds on the cells with target one that are not
    ignored, and the sampled mask holds exactly on the indices the sampler
    returned for the candidates.  Cells outside the union do not reach the
    loss: logits that differ from the given ones only outside the union
    yield the same losses. *)
Theorem cls_loss_over_union (cls_logits reg_logits : tensor4)
    (gt_boxes : list (list vec4)) :
  (forall tr,
     trace_of cls_logits reg_logits gt_boxes = Ok tr ->
     let tg := lt_targets tr in
     let target_cls := tdata (t_cls tg) in
     let ignore := tdata (t_ignore tg) in
     let pos_mask :=
       zip_with (fun t ig => Qeq_bool t 1 && negb ig) target_cls ignore in
     let candidates :=
       zip_with (fun t ig => Qeq_bool t 0 && negb ig) target_cls ignore in
     let union := zip_with orb pos_mask (lt_neg_mask tr) in
     build_targets matcher self
       (Z.of_nat (d2 cls_logits), Z.of_nat (d3 cls_logits)) gt_boxes = Ok tg /\
     random_sample_selection (where_true candidates) (lt_requested tr)
     = Ok (lt_selections tr) /\
     length (lt_neg_mask tr)
     = d0 cls_logits * (d2 cls_logits * d3 cls_logits) /\
     (forall k, k < length (lt_neg_mask tr) ->
        nth k (lt_neg_mask tr) false = true <-> In k (lt_selections tr)) /\
     binary_cross_entropy_with_logits
       (select union (tdata (permute_0231 cls_logits)))
       (map (fun t => [t]) (select union target_cls))
     = Ok (value (lt_cls_loss tr)) /\
     requires_grad (lt_cls_loss tr) = t4grad cls_logits /\
     compute_loss matcher random_sample_selection
       binary_cross_entropy_with_logits self cls_logits reg_logits gt_boxes
     = Ok (lt_cls_loss tr, lt_reg_loss tr) /\
     lt_cls_input tr = select union (tdata (permute_0231 cls_logits)) /\
     lt_cls_target tr = map (fun t => [t]) (select union target_cls) /\
     forall cls_logits',
       d0 cls_logits' = d0 cls_logits -> d2 cls_logits' = d2 cls_logits ->
       d3 cls_logits' = d3 cls_logits ->
       t4grad cls_logits' = t4grad cls_logits ->
       (forall k, k < length union -> nth k union false = true ->
          nth k (tdata (permute_0231 cls_logits')) []
          = nth k (tdata (permute_0231 cls_logits)) []) ->
       compute_loss matcher random_sample_selection
         binary_cross_entropy_with_logits self cls_logits' reg_logits gt_boxes
       = Ok (lt_cls_loss tr, lt_reg_loss tr) /\
       exists tr',
         trace_of cls_logits' reg_logits gt_boxes = Ok tr' /\
         lt_cls_loss tr' = lt_cls_loss tr /\
         lt_reg_loss tr' = lt_reg_loss tr) /\
  (length gt_boxes = d0 cls_logits ->
   d1 cls_logits = 1 ->
   matcher_contract_on matcher self (d2 cls_logits) (d3 cls_logits) gt_boxes
   = true ->
   d0 reg_logits = d0 cls_logits /\ d2 reg_logits = d2 cls_logits /\
   d3 reg_logits = d3 cls_logits /\ d1 reg_logits = 4 ->
   exists tr,
     trace_of cls_logits reg_logits gt_boxes = Ok tr /\
     Forall (fun r => r = [0%Q] \/ r = [1%Q]) (lt_cls_target tr)).
Proof.
  split.
  - intros tr E.
    destruct (compute_loss_trace_inv _ _ _ E)
      as (Et & Hpos & Hr & Hneg & Hp & Hreq & Hsel & Hsc & Hlen & Htb
          & Hin & Htgt & Hbce & Hgrad & Hreg).
    cbv zeta. rewrite <- Hpos, <- Hneg.
    split; [exact Et|]. split; [exact Hsel|]. split; [exact Hlen|].
    split.
    { intros k Hk. apply (@scatter_true_nth _ _ _ k Hsc).
      rewrite <- (@scatter_true_length _ _ _ Hsc). exact Hk. }
    split; [rewrite <- Hin, <- Htgt; exact Hbce|].
    split; [exact Hgrad|].
    split; [unfold compute_loss; rewrite E; reflexivity|].
    split; [exact Hin|]. split; [exact Htgt|].
    intros cls' H0 H2 H3 Hg Hagree.
    destruct (@compute_loss_trace_replay cls_logits cls' reg_logits
                gt_boxes tr random_sample_selection E Hsel H0 H2 H3 Hg)
      as (tr' & E' & Hc & Hl); [exact Hagree|].
    split.
    + unfold compute_loss. rewrite E'. cbn [bind]. rewrite Hc, Hl.
      reflexivity.
    + exists tr'. repeat split; assumption.
  - intros Hbs Hc1 Hm (R0 & R2 & R3 & R1).
    destruct (@compute_loss_trace_runs cls_logits reg_logits gt_boxes
                Hbs Hc1 Hm) as (tr & E).
    { intros tg _. right. repeat split; try assumption. left; exact R1. }
    exists tr. split; [exact E|].
    destruct (compute_loss_trace_inv _ _ _ E)
      as (Et & _ & _ & _ & _ & _ & _ & _ & _ & _ & _ & Htgt & _).
    rewrite Htgt. apply Forall_forall. intros r Hr.
    apply in_map_iff in Hr. destruct Hr as (t & <- & Ht).
    pose proof (build_targets_zero_one _ _ _ Hm Et) as H01.
    pose proof (@select_Forall _ _ (zip_with orb (lt_pos_mask tr)
                                      (lt_neg_mask tr)) _ H01) as Hs.
    rewrite Forall_forall in Hs. destruct (Hs t Ht) as [-> | ->];
      [left | right]; reflexivity.
Qed.
End Loss.

Lemma In_firstn {A : Type} (n : nat) (l : list A) (x : A) :
  In x (firstn n l) -> In x l.
Proof.
  revert n. induction l as [|y l IH]; intros [|n] H; simpl in *;
    try contradiction.
  destruct H as [H | H]; [left; exact H | right; apply (IH n); exact H].
Qed.

Lemma example_sampler_contract : sampler_contract example_sampler.
Proof.
  intros candidates k. eexists. split; [reflexivity|].
  intros x Hx. apply (In_firstn _ _ _ Hx).
Qed.

Lemma example_bce_contract : bce_contract example_bce.
Proof. intros input target _ _ _. eexists. reflexivity. Qed.

Lemma requested_negatives_witness :
  length example_gt = d0 example_cls_logits /\
  d1 example_cls_logits = 1 /\
  matcher_contract_on example_matcher example_head
    (d2 example_cls_logits) (d3 example_cls_logits) example_gt = true /\
  exists tr,
    compute_loss_trace example_matcher example_sampler example_bce
      example_head example_cls_logits example_reg_logits example_gt = Ok tr /\
    build_targets example_matcher example_head
      (Z.of_nat (d2 example_cls_logits), Z.of_nat (d3 example_cls_logits))
      example_gt = Ok (lt_targets tr) /\
    (* four positive cells and 43 candidates: min(43, 5 * 4) *)
    lt_requested tr = 20%Z /\
    example_sampler
      (where_true
         (zip_with (fun t ig => Qeq_bool t 0 && negb ig)
            (tdata (t_cls (lt_targets tr)))
            (tdata (t_ignore (lt_targets tr))))) 20
    = Ok (lt_selections tr) /\
    length (lt_selections tr) = 20.
Proof.
  assert (H : matcher_contract_on example_matcher example_head
                (d2 example_cls_logits) (d3 example_cls_logits) example_gt
              = true) by (vm_compute; reflexivity).
  split; [reflexivity|]. split; [reflexivity|]. split; [exact H|].
  pose proof (@requested_negatives example_matcher example_sampler
                example_bce example_head
                example_sampler_contract example_bce_contract
                example_cls_logits example_reg_logits example_gt)
    as (Hinv & Hrun).
  destruct Hrun as (tr & E);
    [reflexivity | reflexivity | exact H | repeat split |].
  destruct (Hinv tr E) as (Hbt & Hsel & _ & Hpos & _).
  pose proof E as E'. vm_compute in E'. injection E' as Etr.
  assert (Hreq : lt_requested tr = 20%Z).
  { rewrite Hpos; rewrite <- Etr; vm_compute; reflexivity. }
  exists tr. split; [exact E|]. split; [exact Hbt|]. split; [exact Hreq|].
  split; [rewrite Hreq in Hsel; exact Hsel|].
  rewrite <- Etr. vm_compute. reflexivity.
Defined.


Lemma no_positive_zero_reg_loss_witness :
  length example_gt_none = d0 example_cls_logits /\
  d1 example_cls_logits = 1 /\
  exists tg,
    build_targets example_matcher example_head
      (Z.of_nat (d2 example_cls_logits), Z.of_nat (d3 example_cls_logits))
      example_gt_none = Ok tg /\
    forallb (fun t => negb (Qeq_bool t 1)) (tdata (t_cls tg)) = true /\
    exists cls_loss reg_loss,
      compute_loss example_matcher example_sampler example_bce example_head
        example_cls_logits example_reg_logits example_gt_none
      = Ok (cls_loss, reg_loss) /\
      reg_loss = Scalar 0 true.
Proof.
  split; [reflexivity|]. split; [reflexivity|].
  destruct (build_targets example_matcher example_head
              (Z.of_nat (d2 example_cls_logits),
               Z.of_nat (d3 example_cls_logits)) example_gt_none)
    as [tg|e] eqn:Et; [|vm_compute in Et; discriminate Et].
  exists tg. split; [reflexivity|].
  assert (Hnone : forallb (fun t => negb (Qeq_bool t 1)) (tdata (t_cls tg))
                  = true).
  { pose proof Et as Et'. vm_compute in Et'. injection Et' as <-.
    vm_compute. reflexivity. }
  split; [exact Hnone|].
  destruct (@no_positive_zero_reg_loss example_matcher example_sampler
              example_bce example_head
              example_sampler_contract example_bce_contract
              example_cls_logits example_reg_logits example_gt_none tg)
    as (cl & rl & E & Hr & _);
    [reflexivity | reflexivity | vm_compute; reflexivity | exact Et
    | exact Hnone |].
  exists cl, rl. split; assumption.
Defined.

Lemma cls_loss_over_union_witness :
  exists tr tr',
    compute_loss_trace example_matcher example_sampler example_bce
      example_head example_cls_logits example_reg_logits example_gt = Ok tr /\
    build_targets example_matcher example_head
      (Z.of_nat (d2 example_cls_logits), Z.of_nat (d3 example_cls_logits))
      example_gt = Ok (lt_targets tr) /\
    (* four positive cells and twenty sampled negatives *)
    count_true
      (zip_with orb
         (zip_with (fun t ig => Qeq_bool t 1 && negb ig)
            (tdata (t_cls (lt_targets tr)))
            (tdata (t_ignore (lt_targets tr))))
         (lt_neg_mask tr)) = 24%Z /\
    example_bce
      (select
         (zip_with orb
            (zip_with (fun t ig => Qeq_bool t 1 && negb ig)
               (tdata (t_cls (lt_targets tr)))
               (tdata (t_ignore (lt_targets tr))))
            (lt_neg_mask tr))
         (tdata (permute_0231 example_cls_logits)))
      (map (fun t => [t])
         (select
            (zip_with orb
               (zip_with (fun t ig => Qeq_bool t 1 && negb ig)
                  (tdata (t_cls (lt_targets tr)))
                  (tdata (t_ignore (lt_targets tr))))
               (lt_neg_mask tr))
            (tdata (t_cls (lt_targets tr)))))
    = Ok (value (lt_cls_loss tr)) /\
    (0 < value (lt_cls_loss tr))%Q /\
    Forall (fun r => r = [0%Q] \/ r = [1%Q]) (lt_cls_target tr) /\
    compute_loss_trace example_matcher example_sampler example_bce
      example_head example_cls_logits' example_reg_logits example_gt
    = Ok tr' /\
    lt_cls_loss tr' = lt_cls_loss tr.
Proof.
  pose proof (@cls_loss_over_union example_matcher example_sampler
                example_bce example_head
                example_sampler_contract example_bce_contract
                example_cls_logits example_reg_logits example_gt)
    as (Hinv & Hrun).
  destruct Hrun as (tr & E & H01);
    [reflexivity | reflexivity | vm_compute; reflexivity | repeat split |].
  destruct (Hinv tr E) as (Hbt & _ & _ & _ & Hbce & _ & _ & _ & _ & Hind).
  pose proof E as E'. vm_compute in E'. injection E' as Etr.
  destruct (Hind example_cls_logits' eq_refl eq_refl eq_refl eq_refl)
    as (_ & tr' & E2 & Hcl & _).
  { intros k Hk Hu. rewrite <- Etr in Hk, Hu. vm_compute in Hk.
    do 48 (destruct k as [|k];
           [vm_compute in Hu;
            first [discriminate Hu | vm_compute; reflexivity]|]).
    lia. }
  exists tr, tr'. split; [exact E|]. split; [exact Hbt|].
  split; [rewrite <- Etr; vm_compute; reflexivity|].
  split; [exact Hbce|].
  split; [rewrite <- Etr; vm_compute; reflexivity|].
  split; [exact H01|]. split; assumption.
Defined.

(** * The padding transform *)

Lemma nth_flat_map_block {A B : Type} (g : A -> list B) (n : nat)
    (l : list A) (da : A) (d : B) (i k : nat) :
  (forall x, In x l -> length (g x) = n) ->
  i < length l -> k < n ->
  nth (i * n + k) (flat_map g l) d = nth k (g (nth i l da)) d.
Proof.
  revert i. induction l as [|x l IH]; intros i Hg Hi Hk; simpl in *; [lia|].
  assert (Lx : length (g x) = n) by (apply Hg; left; reflexivity).
  destruct i as [|i].
  - simpl. apply app_nth1. lia.
  - rewrite app_nth2 by (simpl; lia). rewrite Lx.
    replace (S i * n + k - n) with (i * n + k) by (simpl; lia).
    apply IH; [|lia|exact Hk]. intros y Hy. apply Hg. right; exact Hy.
Qed.

Lemma length_tab3 {A : Type} (n0 n1 n2 : nat) (f : nat -> nat -> nat -> A) :
  length (tab3 n0 n1 n2 f) = n0 * (n1 * n2).
Proof.
  unfold tab3.
  rewrite (@length_flat_map_const _ _ _ (n1 * n2)), length_seq;
    [reflexivity|].
  intros i _. rewrite length_outer, !length_seq. reflexivity.
Qed.

Lemma get3_tab3 {A : Type} (d : A) (n0 n1 n2 : nat)
    (f : nat -> nat -> nat -> A) (i j k : nat) :
  i < n0 -> j < n1 -> k < n2 ->
  get3 d n1 n2 (tab3 n0 n1 n2 f) i j k = f i j k.
Proof.
  intros Hi Hj Hk. unfold get3, tab3.
  replace ((i * n1 + j) * n2 + k) with (i * (n1 * n2) + (j * n2 + k)) by lia.
  rewrite (@nth_flat_map_block _ _ _ (n1 * n2) _ 0);
    [ | intros x _; rewrite length_outer, !length_seq; reflexivity
      | rewrite length_seq; exact Hi | nia ].
  rewrite nth_seq0 by exact Hi.
  replace n2 with (length (seq 0 n2)) at 1 by apply length_seq.
  rewrite (nth_outer _ (seq 0 n1) (seq 0 n2) 0 0)
    by (rewrite length_seq; assumption).
  rewrite !nth_seq0 by assumption. reflexivity.
Qed.

Lemma slice_bounds_inside (n a b : Z) :
  (0 <= a <= b)%Z -> (b <= n)%Z ->
  slice_bounds n a b = (Z.to_nat a, Z.to_nat b).
Proof.
  intros Ha Hb. unfold slice_bounds.
  destruct (Z.ltb_spec a 0); [lia|]. destruct (Z.ltb_spec b 0); [lia|].
  rewrite !Z.min_l by lia. rewrite Z.max_r by lia. reflexivity.
Qed.

Lemma half_split (z : Z) :
  (0 <= z)%Z ->
  (z / 2 + z mod 2 + z / 2 = z /\ 0 <= z / 2 /\ 0 <= z mod 2 <= 1)%Z.
Proof.
  intros H.
  pose proof (Z.div_mod z 2 ltac:(lia)) as E.
  pose proof (Z.mod_pos_bound z 2 ltac:(lia)) as B.
  pose proof (Z.div_pos z 2 H ltac:(lia)) as P.
  lia.
Qed.

(** The pad widths for an image that fits the target: they fill the
    target exactly, and the left (upper) pad is the right (lower) pad or
    one more. *)
Lemma pads_fit (self : Pad.Padding) (h w : nat) (tw th : Z) :
  Pad.target_size self = (tw, th) ->
  (Z.of_nat h <= th)%Z -> (Z.of_nat w <= tw)%Z ->
  exists pl pr pu pd,
    Pad.pads self h w = (pl, pr, pu, pd) /\
    (pl + Z.of_nat w + pr = tw /\ pu + Z.of_nat h + pd = th /\
     0 <= pr /\ pr <= pl <= pr + 1 /\ 0 <= pd /\ pd <= pu <= pd + 1)%Z.
Proof.
  intros Ets Hh Hw. unfold Pad.pads. rewrite Ets.
  destruct (Z.gtb_spec (Z.of_nat w) tw); [lia|].
  destruct (Z.gtb_spec (Z.of_nat h) th); [lia|].
  do 4 eexists. split; [reflexivity|].
  pose proof (@half_split (tw - Z.of_nat w) ltac:(lia)).
  pose proof (@half_split (th - Z.of_nat h) ltac:(lia)).
  lia.
Qed.

Lemma length_assign_cols (cols : list nat) (pad : Z) (k : nat)
    (nboxes boxes : list Q) :
  length nboxes = length boxes ->
  length (Pad.assign_cols cols pad k nboxes boxes) = length boxes.
Proof.
  intros H. unfold Pad.assign_cols.
  rewrite length_map, !length_combine, length_seq. lia.
Qed.

Lemma nth_assign_cols (cols : list nat) (pad : Z) (k : nat)
    (nboxes boxes : list Q) (idx : nat) :
  length nboxes = length boxes -> idx < length boxes ->
  nth idx (Pad.assign_cols cols pad k nboxes boxes) 0%Q
  = if existsb (Nat.eqb (idx mod k)) cols
    then (nth idx boxes 0 + Zq pad)%Q
    else nth idx nboxes 0%Q.
Proof.
  intros H Hi. unfold Pad.assign_cols.
  rewrite (nth_map_in _ _ (0, (0%Q, 0%Q)))
    by (rewrite !length_combine, length_seq; lia).
  rewrite combine_nth by (rewrite length_combine, length_seq; lia).
  rewrite combine_nth by lia.
  rewrite seq_nth by lia. cbn [fst snd]. reflexivity.
Qed.

Lemma row_col_mod (i k col : nat) : col < k -> (i * k + col) mod k = col.
Proof.
  intros H. rewrite Nat.add_comm, Nat.Div0.mod_add.
  apply Nat.mod_small. exact H.
Qed.

(** C10.  For an image of shape [(h, w, c)] that fits the target size
    [(tw, th)], and ground-truth boxes given as an array of [n] rows of at
    least four columns, [Padding.__call__] returns an image of shape
    [(th, tw, c)] that holds the original pixels in the rectangle starting
    at row [pad_up] and column [pad_left], and [pad_value] everywhere
    else; the pads fill the target exactly, with [pad_left] (resp.
    [pad_up]) equal to [pad_right] (resp. [pad_down]) or one more.  Every
    box is translated by [(pad_left, pad_up)], so its width and height are
    unchanged. *)
Theorem padding_centers_and_translates (self : Pad.Padding)
    (img : ndarray Z) (boxes : ndarray Q) (h w c n k : nat) (tw th : Z) :
  shape img = [h; w; c] ->
  Pad.target_size self = (tw, th) ->
  (Z.of_nat h <= th)%Z -> (Z.of_nat w <= tw)%Z ->
  shape boxes = [n; k] -> 4 <= k -> length (elems boxes) = n * k ->
  exists pl pr pu pd nimg nboxes,
    Pad.pads self h w = (pl, pr, pu, pd) /\
    Pad.call self img boxes = Ok (nimg, nboxes) /\
    shape nimg = [Z.to_nat th; Z.to_nat tw; c] /\
    ndarray_wf nimg /\
    (pl + Z.of_nat w + pr = tw /\ pu + Z.of_nat h + pd = th /\
     0 <= pr /\ pr <= pl <= pr + 1 /\ 0 <= pd /\ pd <= pu <= pd + 1)%Z /\
    (forall y x ch, y < h -> x < w -> ch < c ->
       get3 0%Z (Z.to_nat tw) c (elems nimg)
         (Z.to_nat pu + y) (Z.to_nat pl + x) ch
       = get3 0%Z w c (elems img) y x ch) /\
    (forall y x ch, y < Z.to_nat th -> x < Z.to_nat tw -> ch < c ->
       y < Z.to_nat pu \/ Z.to_nat pu + h <= y \/
       x < Z.to_nat pl \/ Z.to_nat pl + w <= x ->
       get3 0%Z (Z.to_nat tw) c (elems nimg) y x ch = Pad.pad_value self) /\
    shape nboxes = shape boxes /\
    forall i, i < n ->
      let b := Pad.box_row k (elems boxes) i in
      let b' := Pad.box_row k (elems nboxes) i in
      b' = V4 (c0 b + Zq pl) (c1 b + Zq pu) (c2 b + Zq pl) (c3 b + Zq pu) /\
      (box_width b' == box_width b)%Q /\ (box_height b' == box_height b)%Q.
Proof.
  intros Si Ets Hh Hw Sb Hk Lb.
  destruct (pads_fit self h w Ets Hh Hw)
    as (pl & pr & pu & pd & Ep & Hx & Hy & Hpr & Hpl & Hpd & Hpu).
  exists pl, pr, pu, pd.
  unfold Pad.call. rewrite Si, Ets, Ep.
  destruct (Z.leb_spec 0 th); [|lia]. destruct (Z.leb_spec 0 tw); [|lia].
  cbn [andb check bind].
  rewrite (@slice_bounds_inside th pu (th - pd)) by lia.
  rewrite (@slice_bounds_inside tw pl (tw - pr)) by lia.
  assert (Er : Z.to_nat (th - pd) = Z.to_nat pu + h) by lia.
  assert (Ec : Z.to_nat (tw - pr) = Z.to_nat pl + w) by lia.
  rewrite Er, Ec.
  replace (Z.to_nat pu + h - Z.to_nat pu) with h by lia.
  replace (Z.to_nat pl + w - Z.to_nat pl) with w by lia.
  unfold broadcastable. rewrite !Nat.eqb_refl. cbn [orb andb check bind].
  set (nimg := tab3 (Z.to_nat th) (Z.to_nat tw) c _).
  assert (Himg : forall y x ch, y < Z.to_nat th -> x < Z.to_nat tw -> ch < c ->
            get3 0%Z (Z.to_nat tw) c nimg y x ch
            = if (Z.to_nat pu <=? y) && (y <? Z.to_nat pu + h)
                 && (Z.to_nat pl <=? x) && (x <? Z.to_nat pl + w)
              then get3 0%Z w c (elems img)
                     (y - Z.to_nat pu) (x - Z.to_nat pl) ch
              else Pad.pad_value self).
  { intros y x ch Hy' Hx' Hc'. unfold nimg.
    rewrite get3_tab3 by assumption. reflexivity. }
  assert (Hbox : exists nboxes,
            match shape boxes with
            | [n0; k0] =>
                if 0 <? n0 then
                  _ <- check (2 <? k0) IndexError ;;
                  _ <- check (3 <? k0) IndexError ;;
                  Ok (NDArray (shape boxes)
                        (Pad.assign_cols [1; 3] pu k0
                           (Pad.assign_cols [0; 2] pl k0
                              (elems boxes) (elems boxes)) (elems boxes)))
                else Ok boxes
            | _ => Ok boxes
            end = Ok nboxes /\
            shape nboxes = shape boxes /\
            forall idx, idx < n * k ->
              nth idx (elems nboxes) 0%Q
              = if existsb (Nat.eqb (idx mod k)) [1; 3]
                then (nth idx (elems boxes) 0 + Zq pu)%Q
                else if existsb (Nat.eqb (idx mod k)) [0; 2]
                     then (nth idx (elems boxes) 0 + Zq pl)%Q
                     else nth idx (elems boxes) 0%Q).
  { rewrite Sb. destruct (Nat.ltb_spec 0 n) as [Hn|Hn].
    - destruct (Nat.ltb_spec 2 k); [|lia]. destruct (Nat.ltb_spec 3 k); [|lia].
      cbn [check bind]. eexists. split; [reflexivity|].
      cbn [shape elems]. split; [reflexivity|].
      intros idx Hidx.
      rewrite nth_assign_cols
        by (rewrite ?length_assign_cols; auto; lia).
      rewrite nth_assign_cols by (auto; lia). reflexivity.
    - exists boxes. split; [reflexivity|]. split; [exact Sb|].
      intros idx Hidx. exfalso. nia. }
  destruct Hbox as (nboxes & Eb & Snb & Hnb).
  exists (NDArray [Z.to_nat th; Z.to_nat tw; c] nimg), nboxes.
  split; [reflexivity|]. split.
  { cbv beta iota zeta in Eb |- *. rewrite Eb. reflexivity. }
  split; [reflexivity|]. split.
  { unfold ndarray_wf; cbn [shape elems fold_right]. unfold nimg.
    rewrite length_tab3. lia. }
  split; [lia|]. cbn [elems]. split; [|split; [|split; [exact Snb|]]].
  - intros y x ch Hy' Hx' Hc'. rewrite Himg by lia.
    destruct (Nat.leb_spec (Z.to_nat pu) (Z.to_nat pu + y)); [|lia].
    destruct (Nat.ltb_spec (Z.to_nat pu + y) (Z.to_nat pu + h)); [|lia].
    destruct (Nat.leb_spec (Z.to_nat pl) (Z.to_nat pl + x)); [|lia].
    destruct (Nat.ltb_spec (Z.to_nat pl + x) (Z.to_nat pl + w)); [|lia].
    cbn [andb]. f_equal; lia.
  - intros y x ch Hy' Hx' Hc' Hout. rewrite Himg by lia.
    destruct (Nat.leb_spec (Z.to_nat pu) y);
      destruct (Nat.ltb_spec y (Z.to_nat pu + h));
      destruct (Nat.leb_spec (Z.to_nat pl) x);
      destruct (Nat.ltb_spec x (Z.to_nat pl + w));
      cbn [andb]; try reflexivity.
    exfalso. lia.
  - intros i Hi.
    set (b := Pad.box_row k (elems boxes) i).
    set (b' := Pad.box_row k (elems nboxes) i).
    assert (Hb' : b' = V4 (c0 b + Zq pl) (c1 b + Zq pu)
                          (c2 b + Zq pl) (c3 b + Zq pu)).
    { unfold b', b, Pad.box_row; cbn [c0 c1 c2 c3].
      replace (i * k) with (i * k + 0) at 1 5 by lia.
      rewrite !Hnb by nia.
      rewrite !row_col_mod by lia. reflexivity. }
    split; [exact Hb'|]. rewrite Hb'.
    unfold box_width, box_height; cbn [c0 c1 c2 c3]. split; ring.
Qed.

Lemma padding_centers_and_translates_witness :
  shape example_image = [2; 3; 1] /\
  Pad.target_size example_padding = (6%Z, 5%Z) /\
  (Z.of_nat 2 <= 5)%Z /\ (Z.of_nat 3 <= 6)%Z /\
  shape example_boxes = [2; 4] /\ 4 <= 4 /\
  length (elems example_boxes) = 2 * 4 /\
  exists nimg nboxes,
    Pad.call example_padding example_image example_boxes
    = Ok (nimg, nboxes) /\
    shape nimg = [Z.to_nat 5; Z.to_nat 6; 1] /\
    shape nboxes = shape example_boxes.
Proof.
  repeat (split; [first [reflexivity | lia]|]).
  destruct (@padding_centers_and_translates example_padding example_image
              example_boxes 2 3 1 2 4 6%Z 5%Z)
    as (pl & pr & pu & pd & nimg & nboxes & _ & E & S & _ & _ & _ & _ & Sb & _);
    [reflexivity | reflexivity | lia | lia | reflexivity | lia | reflexivity |].
  exists nimg, nboxes. repeat split; assumption.
Defined.

(** The padded image and the translated boxes of the example, computed:
    the pads are [(pad_left, pad_right, pad_up, pad_down) = (2, 1, 2, 1)]. *)
Example padding_example_run :
  Pad.pads example_padding 2 3 = (2, 1, 2, 1)%Z /\
  Pad.call example_padding example_image example_boxes
  = Ok (NDArray [5; 6; 1]
          [0; 0; 0; 0; 0; 0;
           0; 0; 0; 0; 0; 0;
           0; 0; 11; 12; 13; 0;
           0; 0; 21; 22; 23; 0;
           0; 0; 0; 0; 0; 0]%Z,
        NDArray [2; 4]
          [0 + Zq 2; 0 + Zq 2; 2 + Zq 2; 1 + Zq 2;
           1 + Zq 2; 0 + Zq 2; 3 + Zq 2; 2 + Zq 2]%Q).
Proof. split; reflexivity. Qed.

(** Boxes that are not a two-dimensional array (for instance the empty
    array of shape [(0,)]) pass through [Padding.__call__] unchanged. *)
Lemma padding_keeps_other_ranks (self : Pad.Padding) (img : ndarray Z)
    (boxes : ndarray Q) (nimg : ndarray Z) (nboxes : ndarray Q) :
  length (shape boxes) <> 2 ->
  Pad.call self img boxes = Ok (nimg, nboxes) -> nboxes = boxes.
Proof.
  intros Hr. unfold Pad.call.
  destruct (shape img) as [|h [|w [|c [|? ?]]]]; try discriminate.
  destruct (Pad.target_size self) as [tw th].
  destruct (Pad.pads self h w) as [[[pl pr] pu] pd].
  destruct (check _ ValueError); cbn [bind]; [|discriminate].
  destruct (slice_bounds th pu (th - pd)) as [r0 r1].
  destruct (slice_bounds tw pl (tw - pr)) as [x0 x1].
  destruct (check _ ValueError); cbn [bind]; [|discriminate].
  destruct (shape boxes) as [|n [|k [|? ?]]]; cbn [bind];
    try (intros E; injection E as _ <-; reflexivity).
  exfalso. apply Hr. reflexivity.
Qed.

(** * Further properties of the anchor generator and the decoder *)

Lemma clamp_mono (x y lo hi : Q) :
  (x <= y)%Q -> (clamp x lo hi <= clamp y lo hi)%Q.
Proof.
  intros H. unfold clamp.
  apply Q.min_le_compat_r. apply Q.max_le_compat_r. exact H.
Qed.

Lemma clamp_nonexpansive (x y lo hi : Q) :
  (x <= y)%Q -> (clamp y lo hi - clamp x lo hi <= y - x)%Q.
Proof.
  intros H. unfold clamp.
  pose proof (Q.max_spec x lo) as M1. pose proof (Q.max_spec y lo) as M2.
  pose proof (Q.min_spec (Qmax x lo) hi) as M3.
  pose proof (Q.min_spec (Qmax y lo) hi) as M4.
  set (a := Qmax x lo) in *. set (b := Qmax y lo) in *.
  set (u := Qmin a hi) in *. set (v := Qmin b hi) in *.
  clearbody a b u v.
  destruct M1 as [[? ?]|[? ?]]; destruct M2 as [[? ?]|[? ?]];
    destruct M3 as [[? ?]|[? ?]]; destruct M4 as [[? ?]|[? ?]]; lra.
Qed.

(** Clipping is a map over the unclipped grid. *)
Lemma gen_rf_anchors_clip_unfold (self : DetectionHead) (fmaph fmapw : Z) :
  gen_rf_anchors self fmaph fmapw true
  = (g <- gen_rf_anchors self fmaph fmapw false ;;
     Ok (grid_map (clamp_box (Zq (fmapw * rf_stride self))
                             (Zq (fmaph * rf_stride self))) g)).
Proof.
  unfold gen_rf_anchors.
  destruct (arange fmaph); cbn [bind]; [|reflexivity].
  destruct (arange fmapw); cbn [bind]; reflexivity.
Qed.

Lemma gen_rf_anchors_clip_cell (self : DetectionHead) (fmaph fmapw : Z) :
  (0 <= fmaph)%Z -> (0 <= fmapw)%Z ->
  exists g,
    gen_rf_anchors self fmaph fmapw true = Ok g /\
    gh g = Z.to_nat fmaph /\ gw g = Z.to_nat fmapw /\ grid_wf g /\
    forall row col, row < gh g -> col < gw g ->
      cell vec4_zero g row col
      = clamp_box (Zq (fmapw * rf_stride self)) (Zq (fmaph * rf_stride self))
          (spec_rf_anchor self row col).
Proof.
  intros Hh Hw.
  destruct (@gen_rf_anchors_shape self fmaph fmapw false Hh Hw)
    as (g & E & Sh & Sw & Wf).
  rewrite gen_rf_anchors_clip_unfold, E. cbn [bind].
  eexists. split; [reflexivity|]. unfold grid_map, grid_wf; cbn [gh gw gdata].
  split; [exact Sh|]. split; [exact Sw|].
  split; [rewrite length_map; exact Wf|].
  intros row col Hr Hc. unfold cell; cbn [gw gdata].
  rewrite (nth_map_in _ _ vec4_zero)
    by (unfold grid_wf in Wf; rewrite Wf; nia).
  f_equal. apply (gen_rf_anchors_cell self fmaph fmapw E Hr Hc).
Qed.

(** X1.  With [clip=True], the anchor of cell [(row, col)] is the unclipped
    anchor with its x coordinates clamped with bounds [0] and
    [fmapw*rf_stride] and its y coordinates with bounds [0] and
    [fmaph*rf_stride]; for a non-negative stride every coordinate lies in
    these intervals. *)
Theorem gen_rf_anchors_clipped (self : DetectionHead) (fmaph fmapw : Z) :
  (0 <= fmaph)%Z -> (0 <= fmapw)%Z ->
  exists g,
    gen_rf_anchors self fmaph fmapw true = Ok g /\
    gh g = Z.to_nat fmaph /\ gw g = Z.to_nat fmapw /\
    forall row col, row < gh g -> col < gw g ->
      let a := spec_rf_anchor self row col in
      let xhi := Zq (fmapw * rf_stride self) in
      let yhi := Zq (fmaph * rf_stride self) in
      let p := cell vec4_zero g row col in
      p = V4 (clamp (c0 a) 0 xhi) (clamp (c1 a) 0 yhi)
             (clamp (c2 a) 0 xhi) (clamp (c3 a) 0 yhi) /\
      ((0 <= rf_stride self)%Z ->
       (0 <= c0 p <= xhi)%Q /\ (0 <= c1 p <= yhi)%Q /\
       (0 <= c2 p <= xhi)%Q /\ (0 <= c3 p <= yhi)%Q).
Proof.
  intros Hh Hw.
  destruct (gen_rf_anchors_clip_cell self Hh Hw) as (g & E & Sh & Sw & _ & C).
  exists g. repeat (split; [assumption|]).
  intros row col Hr Hc a xhi yhi p.
  assert (Hp : p = clamp_box xhi yhi a) by (apply C; assumption).
  split; [exact Hp|]. intros Hs. rewrite Hp. unfold clamp_box; cbn [c0 c1 c2 c3].
  assert (Hx : (0 <= xhi)%Q) by (apply Zq_nonneg; nia).
  assert (Hy : (0 <= yhi)%Q) by (apply Zq_nonneg; nia).
  repeat split; apply clamp_bounds; assumption.
Qed.

Lemma gen_rf_anchors_clipped_witness :
  (0 <= 4)%Z /\ (0 <= 4)%Z /\
  exists g, gen_rf_anchors example_head 4 4 true = Ok g /\
            gh g = Z.to_nat 4 /\ gw g = Z.to_nat 4.
Proof.
  split; [lia|]. split; [lia|].
  destruct (@gen_rf_anchors_clipped example_head 4 4) as (g & E & Sh & Sw & _);
    [lia | lia |].
  exists g. repeat split; assumption.
Defined.

(** X2.  For a non-negative [rf_size] and a head whose numbers fit the
    dtype ([anchors_fit]), clipping keeps every anchor ordered
    ([xmin <= xmax], [ymin <= ymax]) and never makes it wider or higher
    than [rf_size]. *)
Theorem gen_rf_anchors_clip_shrinks (dt : dtype) (self : DetectionHead)
    (fmaph fmapw : Z) (g : grid vec4) (row col : nat) :
  (0 <= rf_size self)%Z ->
  anchors_fit dt self fmaph fmapw ->
  gen_rf_anchors_dtype dt self fmaph fmapw true = Ok g ->
  row < gh g -> col < gw g ->
  let p := cell vec4_zero g row col in
  (c0 p <= c2 p)%Q /\ (c1 p <= c3 p)%Q /\
  (box_width p <= Zq (rf_size self))%Q /\
  (box_height p <= Zq (rf_size self))%Q.
Proof.
  intros Hs Hfit E Hr Hc p.
  assert (Hh : (0 <= fmaph)%Z).
  { destruct (Z.ltb_spec fmaph 0) as [H|H]; [|exact H].
    unfold gen_rf_anchors_dtype in E. rewrite (arange_dtype_neg dt H) in E.
    discriminate E. }
  assert (Hw : (0 <= fmapw)%Z).
  { destruct (Z.ltb_spec fmapw 0) as [H|H]; [|exact H].
    unfold gen_rf_anchors_dtype in E. rewrite (arange_dtype_ok dt Hh) in E.
    cbn [bind] in E. rewrite (arange_dtype_neg dt H) in E. discriminate E. }
  destruct (@gen_rf_anchors_dtype_shape dt self fmaph fmapw false Hh Hw)
    as (g0 & E0 & Sh & Sw & Wf).
  rewrite gen_rf_anchors_dtype_clip_unfold, E0 in E. cbn [bind] in E.
  injection E as <-.
  unfold grid_map in Hr, Hc; cbn [gh gw] in Hr, Hc.
  set (xhi := fround dt (Zq (fmapw * rf_stride self))) in *.
  set (yhi := fround dt (Zq (fmaph * rf_stride self))) in *.
  assert (Hp : p = clamp_box xhi yhi (dtype_rf_anchor dt self row col)).
  { unfold p, cell, grid_map; cbn [gw gdata].
    rewrite (nth_map_in _ _ vec4_zero)
      by (unfold grid_wf in Wf; rewrite Wf; nia).
    f_equal. apply (gen_rf_anchors_dtype_cell dt self fmaph fmapw E0 Hr Hc). }
  destruct (@dtype_rf_anchor_exact dt self fmaph fmapw row col Hfit)
    as (A0 & A1 & A2 & A3); [lia | lia |].
  unfold spec_rf_anchor in A0, A1, A2, A3; cbn [c0 c1 c2 c3] in A0, A1, A2, A3.
  assert (Hhalf : (0 <= rf_half self)%Q).
  { unfold rf_half. pose proof (Zq_nonneg Hs) as Hn.
    apply Qle_shift_div_l; [reflexivity|]. rewrite Qmult_0_l. exact Hn. }
  assert (Hsz : (Zq (rf_size self) == 2 * rf_half self)%Q)
    by (unfold rf_half; field).
  set (a := dtype_rf_anchor dt self row col) in *.
  set (cx := spec_rf_cx self col) in *. set (cy := spec_rf_cy self row) in *.
  assert (Ox : (c0 a <= c2 a)%Q) by (rewrite A0, A2; lra).
  assert (Oy : (c1 a <= c3 a)%Q) by (rewrite A1, A3; lra).
  assert (Wx : (c2 a - c0 a == Zq (rf_size self))%Q)
    by (rewrite A0, A2, Hsz; ring).
  assert (Wy : (c3 a - c1 a == Zq (rf_size self))%Q)
    by (rewrite A1, A3, Hsz; ring).
  pose proof (clamp_mono 0 xhi Ox).
  pose proof (clamp_mono 0 yhi Oy).
  pose proof (clamp_nonexpansive 0 xhi Ox).
  pose proof (clamp_nonexpansive 0 yhi Oy).
  rewrite Hp. unfold clamp_box, box_width, box_height; cbn [c0 c1 c2 c3].
  repeat split; try assumption; lra.
Qed.

Lemma gen_rf_anchors_clip_shrinks_witness :
  (0 <= rf_size example_head)%Z /\ anchors_fit float32 example_head 4 4 /\
  exists g, gen_rf_anchors_dtype float32 example_head 4 4 true = Ok g /\
            (box_width (cell vec4_zero g 0 3) <= Zq 20)%Q.
Proof.
  assert (Hfit : anchors_fit float32 example_head 4 4)
    by (unfold anchors_fit; simpl; lia).
  split; [simpl; lia|]. split; [exact Hfit|].
  destruct (@gen_rf_anchors_dtype_shape float32 example_head 4 4 true)
    as (g & E & Sh & Sw & _); [lia | lia |].
  exists g. split; [exact E|].
  apply (@gen_rf_anchors_clip_shrinks float32 example_head 4 4 g 0 3);
    [simpl; lia | exact Hfit | exact E | rewrite Sh; simpl; lia
    | rewrite Sw; simpl; lia].
Defined.



(** X4.  For a non-negative [rf_size], a cell whose regression row has
    [r2 <= r0] and [r3 <= r1] decodes to an ordered box: [xmin <= xmax] and
    [ymin <= ymax], also after clamping. *)
Theorem decoded_box_ordered (self : DetectionHead)
    (reg_logits : batch vec4) (b i j : nat) :
  batch_wf reg_logits ->
  b < tb reg_logits -> i < th reg_logits -> j < tw reg_logits ->
  (0 <= rf_size self)%Z ->
  (c2 (bcell vec4_zero reg_logits b i j)
   <= c0 (bcell vec4_zero reg_logits b i j))%Q ->
  (c3 (bcell vec4_zero reg_logits b i j)
   <= c1 (bcell vec4_zero reg_logits b i j))%Q ->
  exists pred,
    apply_bbox_regression self reg_logits = Ok pred /\
    (c0 (bcell vec4_zero pred b i j) <= c2 (bcell vec4_zero pred b i j))%Q /\
    (c1 (bcell vec4_zero pred b i j) <= c3 (bcell vec4_zero pred b i j))%Q.
Proof.
  intros Wf Hb Hi Hj Hs Hx Hy.
  destruct (apply_bbox_regression_cells self Wf)
    as (g & pred & _ & _ & _ & Ep & _ & _ & _ & _ & C).
  exists pred. split; [exact Ep|].
  rewrite (C b i j Hb Hi Hj). unfold spec_decode; cbn [c0 c1 c2 c3].
  assert (Hhalf : (0 <= rf_half self)%Q).
  { unfold rf_half. pose proof (Zq_nonneg Hs) as Hn.
    apply Qle_shift_div_l; [reflexivity|]. rewrite Qmult_0_l. exact Hn. }
  set (r := bcell vec4_zero reg_logits b i j) in *.
  split; apply clamp_mono.
  - assert ((rf_half self * c2 r <= rf_half self * c0 r)%Q)
      by (rewrite !(Qmult_comm (rf_half self));
          apply Qmult_le_compat_r; assumption).
    lra.
  - assert ((rf_half self * c3 r <= rf_half self * c1 r)%Q)
      by (rewrite !(Qmult_comm (rf_half self));
          apply Qmult_le_compat_r; assumption).
    lra.
Qed.

Lemma decoded_box_ordered_witness :
  batch_wf example_logits /\ (0 <= rf_size example_head)%Z /\
  exists pred,
    apply_bbox_regression example_head example_logits = Ok pred /\
    (c0 (bcell vec4_zero pred 0 1 0) <= c2 (bcell vec4_zero pred 0 1 0))%Q.
Proof.
  assert (W : batch_wf example_logits) by reflexivity.
  split; [exact W|]. split; [simpl; lia|].
  destruct (@decoded_box_ordered example_head example_logits 0 1 0 W)
    as (pred & Ep & Hx & _);
    [simpl; lia | simpl; lia | simpl; lia | simpl; lia
    | vm_compute; discriminate | vm_compute; discriminate |].
  exists pred. split; assumption.
Defined.

(** * Further properties of the target builder *)

Lemma In_skipn {A : Type} (n : nat) (l : list A) (x : A) :
  In x (skipn n l) -> In x l.
Proof.
  revert n. induction l as [|y l IH]; intros [|n] H; simpl in *;
    try contradiction; try exact H.
  right. apply (IH n). exact H.
Qed.

Lemma Forall_set_image_slice {A : Type} (P : A -> Prop) (n i : nat)
    (seg data : list A) :
  Forall P seg -> Forall P data -> Forall P (set_image_slice n i seg data).
Proof.
  intros Hs Hd. unfold set_image_slice. rewrite Forall_forall in *.
  intros x Hx. apply in_app_or in Hx. destruct Hx as [Hx | Hx].
  - apply Hd. apply (In_firstn _ _ _ Hx).
  - apply in_app_or in Hx. destruct Hx as [Hx | Hx].
    + apply Hs. exact Hx.
    + apply Hd. apply (In_skipn _ _ _ Hx).
Qed.

Lemma broadcast_to_length {A : Type} (d : A) (fh fw : nat) (g : grid A)
    (l : list A) :
  broadcast_to d fh fw g = Ok l -> length l = fh * fw.
Proof.
  unfold broadcast_to. destruct (_ && _); [|discriminate].
  intros E; injection E as <-.
  rewrite (@length_flat_map_const _ _ _ fw), length_seq; [reflexivity|].
  intros i _. rewrite length_map, length_seq. reflexivity.
Qed.

Section TargetInvariants.
Variable matcher : grid vec4 -> list vec4 -> Q -> result match_result.
Variable self : DetectionHead.
Variable anchors : grid vec4.
Variables fh fw bs : nat.

Hypothesis matcher_tensors : matcher_returns_tensors matcher.
Hypothesis anchors_wf : grid_wf anchors.

Lemma build_targets_loop_inv (rest : list (list vec4)) :
  forall (i : nat) (st st' : targets),
    build_targets_loop matcher self anchors fh fw i rest st = Ok st' ->
    targets_shaped bs fh fw st ->
    i + length rest <= bs ->
    Forall zero_one (tdata (t_cls st)) ->
    targets_shaped bs fh fw st' /\
    Forall zero_one (tdata (t_cls st')) /\
    Forall (fun gt =>
              exists cm rt im,
                matcher anchors gt (rf_half self) = Ok (cm, rt, im) /\
                gh cm = fh /\ gw cm = fw) rest.
Proof.
  induction rest as [|gt rest IH]; intros i st st' E Hst Hi H01.
  - cbn in E. injection E as <-.
    split; [exact Hst|]. split; [exact H01 | constructor].
  - cbn [build_targets_loop] in E.
    destruct (matcher anchors gt (rf_half self)) as [[[cm rt] im]|e] eqn:Em;
      cbn [bind] in E; [|discriminate E].
    destruct (Nat.eqb_spec (gh cm) fh) as [Hh|Hh];
      cbn [andb check bind] in E; [|discriminate E].
    destruct (Nat.eqb_spec (gw cm) fw) as [Hw|Hw];
      cbn [andb check bind] in E; [|discriminate E].
    destruct (broadcast_to vec4_zero fh fw rt) as [regs_i|e] eqn:Er;
      cbn [bind] in E; [|discriminate E].
    destruct (broadcast_to false fh fw im) as [ign_i|e] eqn:Eg;
      cbn [bind] in E; [|discriminate E].
    destruct (matcher_tensors anchors_wf Em) as (Wcm & _ & _).
    destruct Hst as ((Sc1 & Sc2 & Sc3 & Lc) & (Sr1 & Sr2 & Sr3 & Lr)
                     & (Si1 & Si2 & Si3 & Li)).
    simpl in Hi.
    assert (Hslot : i * (fh * fw) + fh * fw <= bs * (fh * fw)) by nia.
    assert (Lcm : length (gdata cm) = fh * fw)
      by (unfold grid_wf in Wcm; rewrite Wcm, Hh, Hw; reflexivity).
    apply IH in E.
    + destruct E as (S' & Z' & F'). split; [exact S'|]. split; [exact Z'|].
      constructor; [|exact F'].
      exists cm, rt, im. repeat split; assumption.
    + unfold targets_shaped, batch_shaped;
        cbn [t_cls t_regs t_ignore tb th tw tdata].
      rewrite !length_set_image_slice;
        rewrite ?length_zip_with, ?length_image_slice,
          ?(broadcast_to_length _ _ _ _ Er), ?(broadcast_to_length _ _ _ _ Eg);
        try lia.
    + lia.
    + cbn [t_cls tdata]. apply Forall_set_image_slice; [|exact H01].
      unfold zip_with. apply Forall_forall. intros x Hx.
      apply in_map_iff in Hx. destruct Hx as ((m & old) & <- & Hin).
      cbn [fst snd]. destruct m; [right; reflexivity|].
      apply in_combine_r in Hin. unfold image_slice in Hin.
      apply In_firstn, In_skipn in Hin.
      rewrite Forall_forall in H01. apply H01. exact Hin.
Qed.
End TargetInvariants.

(** The class targets have one image per list of ground-truth boxes. *)
Lemma build_targets_batch_size
    (matcher : grid vec4 -> list vec4 -> Q -> result match_result)
    (self : DetectionHead) (fh fw : Z) (gt_boxes : list (list vec4))
    (tg : targets) :
  matcher_returns_tensors matcher ->
  build_targets matcher self (fh, fw) gt_boxes = Ok tg ->
  tb (t_cls tg) = length gt_boxes.
Proof.
  intros Hm E. unfold build_targets in E.
  destruct (Z.leb_spec 0 fh) as [Hh|Hh]; cbn [andb check bind] in E;
    [|discriminate E].
  destruct (Z.leb_spec 0 fw) as [Hw|Hw]; cbn [andb check bind] in E;
    [|discriminate E].
  destruct (@gen_rf_anchors_shape self fh fw false Hh Hw)
    as (anchors & Ea & _ & _ & Wa).
  rewrite Ea in E. cbn [bind] in E.
  eapply (@build_targets_loop_inv matcher self anchors _ _ (length gt_boxes)
            Hm Wa) in E.
  - destruct E as (((Tb & _) & _) & _). exact Tb.
  - repeat split; apply full_shaped.
  - lia.
  - cbn [t_cls]. unfold full; cbn [tdata]. apply Forall_forall.
    intros x Hx. apply repeat_spec in Hx. left; exact Hx.
Qed.

(** X5.  For a matcher that returns two-dimensional tensors (a boolean
    classification mask of rank two, as [match_result] has it), whenever
    [build_targets] returns, its three tensors have the shape
    [(len(gt_boxes), fh, fw)], every class target is zero or one, and for
    every image of the batch the matcher returned a classification mask of
    exactly the feature-map shape [(fh, fw)]. *)
Theorem build_targets_returns_shaped
    (matcher : grid vec4 -> list vec4 -> Q -> result match_result)
    (self : DetectionHead) (fh fw : Z) (gt_boxes : list (list vec4))
    (tg : targets) :
  matcher_returns_tensors matcher ->
  build_targets matcher self (fh, fw) gt_boxes = Ok tg ->
  (0 <= fh)%Z /\ (0 <= fw)%Z /\
  targets_shaped (length gt_boxes) (Z.to_nat fh) (Z.to_nat fw) tg /\
  Forall zero_one (tdata (t_cls tg)) /\
  exists anchors,
    gen_rf_anchors self fh fw false = Ok anchors /\
    Forall (fun gt =>
              exists cm rt im,
                matcher anchors gt (rf_half self) = Ok (cm, rt, im) /\
                gh cm = Z.to_nat fh /\ gw cm = Z.to_nat fw) gt_boxes.
Proof.
  intros Hm E. unfold build_targets in E.
  destruct (Z.leb_spec 0 fh) as [Hh|Hh]; cbn [andb check bind] in E;
    [|discriminate E].
  destruct (Z.leb_spec 0 fw) as [Hw|Hw]; cbn [andb check bind] in E;
    [|discriminate E].
  destruct (@gen_rf_anchors_shape self fh fw false Hh Hw)
    as (anchors & Ea & _ & _ & Wa).
  rewrite Ea in E. cbn [bind] in E.
  split; [exact Hh|]. split; [exact Hw|].
  eapply (@build_targets_loop_inv matcher self anchors _ _ (length gt_boxes)
            Hm Wa) in E.
  - destruct E as (S' & Z' & F'). split; [exact S'|]. split; [exact Z'|].
    exists anchors. split; [exact Ea | exact F'].
  - repeat split; apply full_shaped.
  - lia.
  - cbn [t_cls]. unfold full; cbn [tdata]. apply Forall_forall.
    intros x Hx. apply repeat_spec in Hx. left; exact Hx.
Qed.

Lemma example_matcher_returns_tensors :
  matcher_returns_tensors example_matcher.
Proof.
  intros anchors gt n cm rt im Wa E. unfold example_matcher in E.
  injection E as <- <- <-.
  unfold grid_wf, grid_map in *; cbn [gh gw gdata].
  rewrite !length_map. auto.
Qed.

Lemma build_targets_returns_shaped_witness :
  exists tg,
    build_targets example_matcher example_head (4%Z, 4%Z) example_gt = Ok tg /\
    targets_shaped (length example_gt) (Z.to_nat 4) (Z.to_nat 4) tg /\
    Forall zero_one (tdata (t_cls tg)).
Proof.
  destruct (build_targets example_matcher example_head (4%Z, 4%Z) example_gt)
    as [tg|e] eqn:E; [|vm_compute in E; discriminate E].
  exists tg. split; [reflexivity|].
  destruct (@build_targets_returns_shaped example_matcher example_head
              4%Z 4%Z example_gt tg example_matcher_returns_tensors E)
    as (_ & _ & S & Z & _).
  split; assumption.
Defined.

(** * Further properties of the loss composer *)

Lemma count_scatter_le (len : nat) (sel : list nat) (m : list bool) :
  scatter_true len sel = Ok m ->
  (count_true m <= Z.of_nat (length sel))%Z.
Proof.
  unfold scatter_true. destruct (forallb _ sel); [|discriminate].
  cbn [check bind]. intros E; injection E as <-.
  unfold count_true.
  assert (H : length (filter (fun b : bool => b)
                        (map (fun k => existsb (Nat.eqb k) sel) (seq 0 len)))
              = length (filter (fun k => existsb (Nat.eqb k) sel)
                          (seq 0 len))).
  { induction (seq 0 len) as [|x l IH]; simpl; [reflexivity|].
    destruct (existsb (Nat.eqb x) sel); simpl; rewrite IH; reflexivity. }
  rewrite H. apply inj_le. apply NoDup_incl_length.
  - apply NoDup_filter. apply seq_NoDup.
  - intros k Hk. apply filter_In in Hk. destruct Hk as (_ & Hk).
    apply existsb_exists in Hk. destruct Hk as (x & Hx & Ex).
    apply Nat.eqb_eq in Ex. subst x. exact Hx.
Qed.

Lemma Qeq_bool_zero_not_one (t : Q) :
  Qeq_bool t 0 = true -> Qeq_bool t 1 = false.
Proof.
  intros H. apply Qeq_bool_iff in H.
  destruct (Qeq_bool t 1) eqn:E; [|reflexivity].
  apply Qeq_bool_iff in E. rewrite H in E. discriminate E.
Qed.

Lemma Qsum_nonneg (l : list Q) :
  Forall (fun q => (0 <= q)%Q) l -> (0 <= Qsum l)%Q.
Proof.
  induction 1 as [|q l Hq _ IH]; simpl; [apply Qle_refl|].
  change 0%Q with (0 + 0)%Q. apply Qplus_le_compat; assumption.
Qed.

Lemma Qsum_zero (l : list Q) :
  Forall (fun q => (q == 0)%Q) l -> (Qsum l == 0)%Q.
Proof.
  induction 1 as [|q l Hq _ IH]; simpl; [reflexivity|].
  rewrite Hq, IH. reflexivity.
Qed.

Lemma sq_err_nonneg (x t : vec4) : (0 <= sq_err x t)%Q.
Proof.
  unfold sq_err.
  set (a := (c0 x - c0 t)%Q). set (b := (c1 x - c1 t)%Q).
  set (c := (c2 x - c2 t)%Q). set (d := (c3 x - c3 t)%Q).
  clearbody a b c d.
  assert (Ha : (0 <= a * a)%Q) by nra. assert (Hb : (0 <= b * b)%Q) by nra.
  assert (Hc : (0 <= c * c)%Q) by nra. assert (Hd : (0 <= d * d)%Q) by nra.
  lra.
Qed.

Lemma sq_err_zero (x t : vec4) : vec4_eq x t -> (sq_err x t == 0)%Q.
Proof.
  intros (H0 & H1 & H2 & H3). unfold sq_err. rewrite H0, H1, H2, H3. ring.
Qed.

Lemma Qdiv_nonneg (a b : Q) : (0 <= a)%Q -> (0 <= b)%Q -> (0 <= a / b)%Q.
Proof.
  intros Ha Hb. unfold Qdiv. apply Qmult_le_0_compat; [exact Ha|].
  apply Qinv_le_0_compat. exact Hb.
Qed.

Lemma Nq_nonneg (n : nat) : (0 <= Nq n)%Q.
Proof.
  unfold Nq. change 0%Q with (inject_Z 0). rewrite <- Zle_Qle. lia.
Qed.

Lemma sq_err_select_zero (c : nat) (mask : list bool)
    (rows : list (list Q)) (targets : list vec4) :
  (forall k, k < length mask -> k < length rows -> k < length targets ->
     nth k mask false = true ->
     vec4_eq (row_vec4 c (nth k rows [])) (nth k targets vec4_zero)) ->
  Forall (fun q => (q == 0)%Q)
    (zip_with sq_err (map (row_vec4 c) (select mask rows))
                     (select mask targets)).
Proof.
  unfold select, zip_with. revert rows targets.
  induction mask as [|m mask IH]; intros [|r rows] [|t targets] H;
    simpl; try constructor.
  - rewrite combine_nil. constructor.
  - assert (IH' : Forall (fun q => (q == 0)%Q)
             (map (fun p => sq_err (fst p) (snd p))
                (combine (map (row_vec4 c)
                            (map snd (filter fst (combine mask rows))))
                         (map snd (filter fst (combine mask targets)))))).
    { apply IH. intros k H1 H2 H3 Hm.
      apply (H (S k)); simpl; try lia. exact Hm. }
    destruct m; simpl; [|exact IH'].
    constructor; [|exact IH'].
    apply sq_err_zero. apply (H 0); simpl; first [lia | reflexivity].
Qed.

Section LossInvariants.
Variable matcher : grid vec4 -> list vec4 -> Q -> result match_result.
Variable random_sample_selection : list nat -> Z -> result (list nat).
Variable binary_cross_entropy_with_logits :
  list (list Q) -> list (list Q) -> result Q.
Variable self : DetectionHead.

Abbreviation run_of :=
  (compute_loss_trace matcher random_sample_selection
     binary_cross_entropy_with_logits self).

(** X6.  When the sampler draws from its candidates, the classification
    loss of a completed call never sees an ignored cell: a cell of the
    union of the positive mask and the sampled negative mask is not
    ignored; a sampled negative has class target zero and is not a
    positive. *)
Theorem cls_loss_skips_ignored (cls_logits reg_logits : tensor4)
    (gt_boxes : list (list vec4)) (tr : loss_trace) (k : nat) :
  sampler_contract random_sample_selection ->
  run_of cls_logits reg_logits gt_boxes = Ok tr ->
  k < length (lt_neg_mask tr) ->
  let target_cls := tdata (t_cls (lt_targets tr)) in
  let ignore := tdata (t_ignore (lt_targets tr)) in
  let union := zip_with orb (lt_pos_mask tr) (lt_neg_mask tr) in
  (nth k union false = true -> nth k ignore false = false) /\
  (nth k (lt_neg_mask tr) false = true ->
   Qeq_bool (nth k target_cls 0%Q) 0 = true /\
   nth k (lt_pos_mask tr) false = false).
Proof.
  intros Hs E Hk.
  destruct (compute_loss_trace_inv _ _ _ _ _ _ _ E)
    as (_ & Hpos & _ & Hneg & _ & _ & Hsel & Hsc & _).
  cbv zeta.
  pose proof (@scatter_true_length _ _ _ Hsc) as Lm.
  assert (Lc : length (lt_neg_candidates tr)
               = Nat.min (length (tdata (t_cls (lt_targets tr))))
                         (length (tdata (t_ignore (lt_targets tr)))))
    by (rewrite Hneg; apply length_zip_with).
  assert (Lp : length (lt_pos_mask tr) = length (lt_neg_mask tr))
    by (rewrite Hpos, length_zip_with; lia).
  assert (Ep : nth k (lt_pos_mask tr) false
               = Qeq_bool (nth k (tdata (t_cls (lt_targets tr))) 0%Q) 1
                 && negb (nth k (tdata (t_ignore (lt_targets tr))) false)).
  { rewrite Hpos. rewrite (nth_zip_with _ _ _ 0%Q false) by lia.
    reflexivity. }
  assert (Hnegk : nth k (lt_neg_mask tr) false = true ->
            Qeq_bool (nth k (tdata (t_cls (lt_targets tr))) 0%Q) 0 = true /\
            nth k (tdata (t_ignore (lt_targets tr))) false = false).
  { intros Hn.
    apply (@scatter_true_nth _ _ _ k Hsc) in Hn; [|lia].
    destruct (Hs (where_true (lt_neg_candidates tr)) (lt_requested tr))
      as (sel & Es & Hincl).
    rewrite Hsel in Es. injection Es as <-.
    apply Hincl, where_true_spec in Hn. destruct Hn as (_ & Hc).
    rewrite Hneg in Hc.
    rewrite (nth_zip_with _ _ _ 0%Q false) in Hc by lia.
    apply andb_true_iff in Hc. destruct Hc as (H0 & Hi).
    split; [exact H0|]. destruct (nth k (tdata (t_ignore (lt_targets tr))) false);
      [discriminate Hi|reflexivity]. }
  split.
  - rewrite (nth_zip_with _ _ _ false false) by lia.
    intros Hu. apply orb_true_iff in Hu. destruct Hu as [Hu | Hu].
    + rewrite Ep in Hu. apply andb_true_iff in Hu. destruct Hu as (_ & Hi).
      destruct (nth k (tdata (t_ignore (lt_targets tr))) false);
      [discriminate Hi|reflexivity].
    + apply Hnegk. exact Hu.
  - intros Hn. destruct (Hnegk Hn) as (H0 & Hi). split; [exact H0|].
    rewrite Ep, (Qeq_bool_zero_not_one _ H0). reflexivity.
Qed.

(** X7.  When the sampler returns at most the number of indices it is
    asked for, the sampled negatives of a completed call number at most
    [5 * positives] if there is a positive cell, and at most [batch_size]
    if there is none. *)
Theorem sampled_negatives_bounded (cls_logits reg_logits : tensor4)
    (gt_boxes : list (list vec4)) (tr : loss_trace) :
  sampler_bounded random_sample_selection ->
  run_of cls_logits reg_logits gt_boxes = Ok tr ->
  let positives := count_true (lt_pos_mask tr) in
  let negatives := count_true (lt_neg_mask tr) in
  ((0 < positives)%Z -> (negatives <= 5 * positives)%Z) /\
  (positives = 0%Z -> (negatives <= Z.of_nat (d0 cls_logits))%Z).
Proof.
  intros Hs E.
  destruct (compute_loss_trace_inv _ _ _ _ _ _ _ E)
    as (_ & _ & _ & _ & Hp & Hreq & Hsel & Hsc & _).
  cbv zeta. rewrite <- Hp.
  pose proof (count_scatter_le _ _ Hsc) as Hle.
  pose proof (Hs _ _ _ Hsel) as Hb.
  pose proof (count_true_nonneg (lt_neg_candidates tr)) as Hc.
  rewrite Hreq in Hb. split.
  - intros Hpos. destruct (Z.leb_spec (lt_positives tr) 0); lia.
  - intros Hz. destruct (Z.leb_spec (lt_positives tr) 0); lia.
Qed.

(** X10.  A completed call of [compute_loss] has as many ground-truth
    lists as the logits have images: with any other number the call
    fails. *)
Theorem compute_loss_needs_matching_batch (cls_logits reg_logits : tensor4)
    (gt_boxes : list (list vec4)) (tr : loss_trace) :
  matcher_returns_tensors matcher ->
  run_of cls_logits reg_logits gt_boxes = Ok tr ->
  length gt_boxes = d0 cls_logits.
Proof.
  intros Hm E.
  destruct (compute_loss_trace_inv _ _ _ _ _ _ _ E)
    as (Et & _ & _ & _ & _ & _ & _ & _ & _ & Htb & _).
  pose proof (build_targets_batch_size _ _ _ _ Hm Et) as Tb.
  congruence.
Qed.

(** X8.  The regression loss of a completed call is never negative. *)
Theorem reg_loss_nonneg (cls_logits reg_logits : tensor4)
    (gt_boxes : list (list vec4)) (tr : loss_trace) :
  run_of cls_logits reg_logits gt_boxes = Ok tr ->
  (0 <= value (lt_reg_loss tr))%Q.
Proof.
  intros E.
  destruct (compute_loss_trace_inv _ _ _ _ _ _ _ E)
    as (_ & _ & _ & _ & _ & _ & _ & _ & _ & _ & _ & _ & _ & _ & Hreg).
  destruct Hreg as [(_ & ->) | (_ & _ & v & Em & ->)]; cbn [value].
  - apply Qle_refl.
  - rewrite (mse_loss_value _ _ _ Em). apply Qdiv_nonneg.
    + apply Qsum_nonneg. unfold zip_with. apply Forall_forall.
      intros q Hq. apply in_map_iff in Hq. destruct Hq as (p & <- & _).
      apply sq_err_nonneg.
    + apply Qmult_le_0_compat; [discriminate|]. apply Nq_nonneg.
Qed.

(** X9.  When the regression logits of every cell with class target one
    equal that cell's regression target, the regression loss of a
    completed call is zero. *)
Theorem reg_loss_zero_on_exact_prediction (cls_logits reg_logits : tensor4)
    (gt_boxes : list (list vec4)) (tr : loss_trace) :
  run_of cls_logits reg_logits gt_boxes = Ok tr ->
  (forall k,
     k < length (tdata (t_cls (lt_targets tr))) ->
     Qeq_bool (nth k (tdata (t_cls (lt_targets tr))) 0%Q) 1 = true ->
     vec4_eq (row_vec4 (d1 reg_logits)
                (nth k (tdata (permute_0231 reg_logits)) []))
             (nth k (tdata (t_regs (lt_targets tr))) vec4_zero)) ->
  (value (lt_reg_loss tr) == 0)%Q.
Proof.
  intros E Hexact.
  destruct (compute_loss_trace_inv _ _ _ _ _ _ _ E)
    as (_ & _ & Hr & _ & _ & _ & _ & _ & _ & _ & _ & _ & _ & _ & Hreg).
  destruct Hreg as [(_ & ->) | (_ & _ & v & Em & ->)]; cbn [value].
  - reflexivity.
  - rewrite (mse_loss_value _ _ _ Em).
    rewrite (Qsum_zero (l := zip_with sq_err _ _)).
    + unfold Qdiv. apply Qmult_0_l.
    + apply sq_err_select_zero. intros k Hk _ _ Hm.
      rewrite Hr, length_map in Hk.
      apply Hexact; [exact Hk|].
      rewrite Hr in Hm. rewrite (nth_map_in _ _ 0%Q) in Hm by exact Hk.
      exact Hm.
Qed.
End LossInvariants.

Lemma example_sampler_bounded : sampler_bounded example_sampler.
Proof.
  intros candidates k sel E. unfold example_sampler in E. injection E as <-.
  rewrite length_firstn. lia.
Qed.

Lemma cls_loss_skips_ignored_witness :
  exists tr,
    compute_loss_trace example_matcher example_sampler example_bce
      example_head example_cls_logits example_reg_logits example_gt = Ok tr /\
    2 < length (lt_neg_mask tr) /\
    nth 2 (lt_neg_mask tr) false = true /\
    Qeq_bool (nth 2 (tdata (t_cls (lt_targets tr))) 0%Q) 0 = true.
Proof.
  destruct (compute_loss_trace example_matcher example_sampler example_bce
              example_head example_cls_logits example_reg_logits example_gt)
    as [tr|e] eqn:E; [|vm_compute in E; discriminate E].
  exists tr. split; [reflexivity|].
  pose proof E as E'. vm_compute in E'. injection E' as Etr.
  assert (K : 2 < length (lt_neg_mask tr))
    by (rewrite <- Etr; vm_compute; lia).
  assert (N : nth 2 (lt_neg_mask tr) false = true)
    by (rewrite <- Etr; vm_compute; reflexivity).
  split; [exact K|]. split; [exact N|].
  exact (proj1 (proj2 (@cls_loss_skips_ignored example_matcher example_sampler
                         example_bce example_head example_cls_logits
                         example_reg_logits example_gt tr 2
                         example_sampler_contract E K) N)).
Defined.

Lemma sampled_negatives_bounded_witness :
  exists tr,
    compute_loss_trace example_matcher example_sampler example_bce
      example_head example_cls_logits example_reg_logits example_gt = Ok tr /\
    (0 < count_true (lt_pos_mask tr))%Z /\
    (count_true (lt_neg_mask tr) <= 5 * count_true (lt_pos_mask tr))%Z.
Proof.
  destruct (compute_loss_trace example_matcher example_sampler example_bce
              example_head example_cls_logits example_reg_logits example_gt)
    as [tr|e] eqn:E; [|vm_compute in E; discriminate E].
  exists tr. split; [reflexivity|].
  pose proof E as E'. vm_compute in E'. injection E' as Etr.
  assert (P : (0 < count_true (lt_pos_mask tr))%Z)
    by (rewrite <- Etr; vm_compute; reflexivity).
  split; [exact P|].
  exact (proj1 (@sampled_negatives_bounded example_matcher example_sampler
                  example_bce example_head example_cls_logits
                  example_reg_logits example_gt tr
                  example_sampler_bounded E) P).
Defined.

Lemma compute_loss_needs_matching_batch_witness :
  exists tr,
    compute_loss_trace example_matcher example_sampler example_bce
      example_head example_cls_logits example_reg_logits example_gt = Ok tr /\
    length example_gt = d0 example_cls_logits.
Proof.
  destruct (compute_loss_trace example_matcher example_sampler example_bce
              example_head example_cls_logits example_reg_logits example_gt)
    as [tr|e] eqn:E; [|vm_compute in E; discriminate E].
  exists tr. split; [reflexivity|].
  exact (@compute_loss_needs_matching_batch example_matcher example_sampler
           example_bce example_head example_cls_logits example_reg_logits
           example_gt tr example_matcher_returns_tensors E).
Defined.

Lemma reg_loss_nonneg_witness :
  exists tr,
    compute_loss_trace example_matcher example_sampler example_bce
      example_head example_cls_logits example_reg_logits example_gt = Ok tr /\
    (0 <= value (lt_reg_loss tr))%Q.
Proof.
  destruct (compute_loss_trace example_matcher example_sampler example_bce
              example_head example_cls_logits example_reg_logits example_gt)
    as [tr|e] eqn:E; [|vm_compute in E; discriminate E].
  exists tr. split; [reflexivity|].
  exact (@reg_loss_nonneg example_matcher example_sampler example_bce
           example_head example_cls_logits example_reg_logits example_gt
           tr E).
Defined.

Lemma reg_loss_zero_on_exact_prediction_witness :
  exists tr,
    compute_loss_trace example_matcher example_sampler example_bce
      example_head example_cls_logits example_reg_exact example_gt = Ok tr /\
    (0 < count_true (lt_rpos_mask tr))%Z /\
    (value (lt_reg_loss tr) == 0)%Q.
Proof.
  destruct (compute_loss_trace example_matcher example_sampler example_bce
              example_head example_cls_logits example_reg_exact example_gt)
    as [tr|e] eqn:E; [|vm_compute in E; discriminate E].
  exists tr. split; [reflexivity|].
  pose proof E as E'. vm_compute in E'. injection E' as Etr.
  split; [rewrite <- Etr; vm_compute; reflexivity|].
  apply (@reg_loss_zero_on_exact_prediction example_matcher example_sampler
           example_bce example_head example_cls_logits example_reg_exact
           example_gt tr E).
  intros k Hk Hc. rewrite <- Etr in Hk, Hc |- *. vm_compute in Hk.
  do 48 (destruct k as [|k];
         [vm_compute in Hc;
          first [discriminate Hc | vm_compute; repeat split; reflexivity]|]).
  lia.
Defined.

(** * Further properties of the padding transform *)

(** X11.  [Padding.__call__] cannot shrink: an image with more rows than
    the target height, or more columns than the target width (and more
    than one of them, so that numpy cannot broadcast it), makes the call
    fail with [ValueError]. *)
Theorem padding_rejects_oversize (self : Pad.Padding)
    (img : ndarray Z) (boxes : ndarray Q) (h w c : nat) (tw th : Z) :
  shape img = [h; w; c] ->
  Pad.target_size self = (tw, th) ->
  (th < Z.of_nat h)%Z /\ 2 <= h \/ (tw < Z.of_nat w)%Z /\ 2 <= w ->
  Pad.call self img boxes = Err ValueError.
Proof.
  intros Si Ets Hbig. unfold Pad.call, Pad.pads. rewrite Si, Ets.
  destruct (Z.gtb_spec (Z.of_nat w) tw) as [Gw|Gw];
    destruct (Z.gtb_spec (Z.of_nat h) th) as [Gh|Gh];
    cbv beta iota zeta;
    (destruct (Z.leb_spec 0 th) as [Hth|Hth]; [|reflexivity]);
    (destruct (Z.leb_spec 0 tw) as [Htw|Htw]; [|reflexivity]);
    cbn [andb check bind].
  - (* both too large *)
    rewrite !Z.sub_0_r, (@slice_bounds_inside th 0 th),
      (@slice_bounds_inside tw 0 tw) by lia.
    cbv beta iota zeta. unfold broadcastable.
    destruct Hbig as [(_ & H2) | (_ & H2)].
    + destruct (Nat.eqb_spec h (Z.to_nat th - Z.to_nat 0)); [lia|].
      destruct (Nat.eqb_spec h 1); [lia|]. reflexivity.
    + destruct (Nat.eqb_spec w (Z.to_nat tw - Z.to_nat 0)); [lia|].
      destruct (Nat.eqb_spec w 1); [lia|].
      cbn [orb]. rewrite andb_false_r. reflexivity.
  - (* too wide only *)
    destruct Hbig as [(Hh & _) | (_ & H2)]; [lia|].
    rewrite (Z.sub_0_r tw), (@slice_bounds_inside tw 0 tw) by lia.
    destruct (slice_bounds th _ _) as [r0 r1].
    cbv beta iota zeta. unfold broadcastable.
    destruct (Nat.eqb_spec w (Z.to_nat tw - Z.to_nat 0)); [lia|].
    destruct (Nat.eqb_spec w 1); [lia|].
    cbn [orb]. rewrite andb_false_r. reflexivity.
  - (* too high only *)
    destruct Hbig as [(_ & H2) | (Hw & _)]; [|lia].
    rewrite (Z.sub_0_r th), (@slice_bounds_inside th 0 th) by lia.
    destruct (slice_bounds tw _ _) as [x0 x1].
    cbv beta iota zeta. unfold broadcastable.
    destruct (Nat.eqb_spec h (Z.to_nat th - Z.to_nat 0)); [lia|].
    destruct (Nat.eqb_spec h 1); [lia|]. reflexivity.
  - lia.
Qed.

Lemma padding_rejects_oversize_witness :
  shape example_image = [2; 3; 1] /\
  Pad.target_size example_narrow_padding = (2%Z, 5%Z) /\
  ((5 < Z.of_nat 2)%Z /\ 2 <= 2 \/ (2 < Z.of_nat 3)%Z /\ 2 <= 3) /\
  Pad.call example_narrow_padding example_image example_boxes
  = Err ValueError.
Proof.
  split; [reflexivity|]. split; [reflexivity|].
  split; [right; split; lia|].
  apply (@padding_rejects_oversize example_narrow_padding example_image
           example_boxes 2 3 1 2%Z 5%Z);
    [reflexivity | reflexivity | right; split; lia].
Defined.

(** What [Padding.__call__] computes for an image that fits the target. *)
Lemma padding_call_fits (self : Pad.Padding) (img : ndarray Z)
    (boxes : ndarray Q) (h w c : nat) (tw th pl pr pu pd : Z) :
  shape img = [h; w; c] ->
  Pad.target_size self = (tw, th) ->
  (Z.of_nat h <= th)%Z -> (Z.of_nat w <= tw)%Z ->
  Pad.pads self h w = (pl, pr, pu, pd) ->
  Pad.call self img boxes
  = (nboxes <-
       match shape boxes with
       | [n; k] =>
           if 0 <? n then
             _ <- check (2 <? k) IndexError ;;
             _ <- check (3 <? k) IndexError ;;
             Ok (NDArray (shape boxes)
                   (Pad.assign_cols [1; 3] pu k
                      (Pad.assign_cols [0; 2] pl k
                         (elems boxes) (elems boxes)) (elems boxes)))
           else Ok boxes
       | _ => Ok boxes
       end ;;
     Ok (NDArray [Z.to_nat th; Z.to_nat tw; c]
           (tab3 (Z.to_nat th) (Z.to_nat tw) c
              (fun y x ch =>
                 if (Z.to_nat pu <=? y) && (y <? Z.to_nat pu + h)
                    && (Z.to_nat pl <=? x) && (x <? Z.to_nat pl + w)
                 then get3 0%Z w c (elems img)
                        (y - Z.to_nat pu) (x - Z.to_nat pl) ch
                 else Pad.pad_value self)),
         nboxes)).
Proof.
  intros Si Ets Hh Hw Ep.
  destruct (pads_fit self h w Ets Hh Hw)
    as (pl' & pr' & pu' & pd' & Ep' & Hx & Hy & Hpr & Hpl & Hpd & Hpu).
  rewrite Ep in Ep'. injection Ep' as <- <- <- <-.
  unfold Pad.call. rewrite Si, Ets, Ep.
  destruct (Z.leb_spec 0 th); [|lia]. destruct (Z.leb_spec 0 tw); [|lia].
  cbn [andb check bind].
  rewrite (@slice_bounds_inside th pu (th - pd)) by lia.
  rewrite (@slice_bounds_inside tw pl (tw - pr)) by lia.
  assert (Er : Z.to_nat (th - pd) = Z.to_nat pu + h) by lia.
  assert (Ec : Z.to_nat (tw - pr) = Z.to_nat pl + w) by lia.
  rewrite Er, Ec.
  replace (Z.to_nat pu + h - Z.to_nat pu) with h by lia.
  replace (Z.to_nat pl + w - Z.to_nat pl) with w by lia.
  unfold broadcastable. rewrite !Nat.eqb_refl. cbn [orb andb check bind].
  reflexivity.
Qed.

(** X12.  For an image that fits the target, boxes given as a
    two-dimensional array with at least one row and fewer than four columns
    make [Padding.__call__] fail with [IndexError]. *)
Theorem padding_needs_four_columns (self : Pad.Padding)
    (img : ndarray Z) (boxes : ndarray Q) (h w c n k : nat) (tw th : Z) :
  shape img = [h; w; c] ->
  Pad.target_size self = (tw, th) ->
  (Z.of_nat h <= th)%Z -> (Z.of_nat w <= tw)%Z ->
  shape boxes = [n; k] -> 0 < n -> k < 4 ->
  Pad.call self img boxes = Err IndexError.
Proof.
  intros Si Ets Hh Hw Sb Hn Hk.
  destruct (Pad.pads self h w) as [[[pl pr] pu] pd] eqn:Ep.
  rewrite (padding_call_fits self img boxes Si Ets Hh Hw Ep), Sb.
  destruct (Nat.ltb_spec 0 n); [|lia].
  destruct (Nat.ltb_spec 2 k); cbn [check bind]; [|reflexivity].
  destruct (Nat.ltb_spec 3 k); cbn [check bind]; [lia|reflexivity].
Qed.

Lemma padding_needs_four_columns_witness :
  shape example_image = [2; 3; 1] /\
  Pad.target_size example_padding = (6%Z, 5%Z) /\
  (Z.of_nat 2 <= 5)%Z /\ (Z.of_nat 3 <= 6)%Z /\
  shape example_short_boxes = [2; 3] /\ 0 < 2 /\ 3 < 4 /\
  Pad.call example_padding example_image example_short_boxes
  = Err IndexError.
Proof.
  repeat (split; [first [reflexivity | lia]|]).
  apply (@padding_needs_four_columns example_padding example_image
           example_short_boxes 2 3 1 2 3 6%Z 5%Z);
    first [reflexivity | lia].
Defined.

(** X13.  Boxes that are not a two-dimensional array, or that have no row,
    are returned by [Padding.__call__] unchanged. *)
Theorem padding_keeps_empty_boxes (self : Pad.Padding) (img : ndarray Z)
    (boxes : ndarray Q) (nimg : ndarray Z) (nboxes : ndarray Q) :
  length (shape boxes) <> 2 \/ hd 1 (shape boxes) = 0 ->
  Pad.call self img boxes = Ok (nimg, nboxes) -> nboxes = boxes.
Proof.
  intros Hr. unfold Pad.call.
  destruct (shape img) as [|h [|w [|c [|? ?]]]]; try discriminate.
  destruct (Pad.target_size self) as [tw th].
  destruct (Pad.pads self h w) as [[[pl pr] pu] pd].
  destruct (check _ ValueError); cbn [bind]; [|discriminate].
  destruct (slice_bounds th pu (th - pd)) as [r0 r1].
  destruct (slice_bounds tw pl (tw - pr)) as [x0 x1].
  destruct (check _ ValueError); cbn [bind]; [|discriminate].
  destruct (shape boxes) as [|n [|k [|? ?]]]; cbn [bind];
    try (intros E; injection E as _ <-; reflexivity).
  destruct Hr as [Hr | Hr]; [exfalso; apply Hr; reflexivity|].
  cbn [hd] in Hr. subst n. cbn [Nat.ltb Nat.leb bind].
  intros E; injection E as _ <-; reflexivity.
Qed.

Lemma padding_keeps_empty_boxes_witness :
  (length (shape (NDArray [0] (@nil Q))) <> 2
   \/ hd 1 (shape (NDArray [0] (@nil Q))) = 0) /\
  exists nimg nboxes,
    Pad.call example_padding example_image (NDArray [0] []) = Ok (nimg, nboxes)
    /\ nboxes = NDArray [0] [].
Proof.
  split; [left; simpl; lia|].
  destruct (Pad.call example_padding example_image (NDArray [0] []))
    as [[nimg nboxes]|e] eqn:E; [|vm_compute in E; discriminate E].
  exists nimg, nboxes. split; [reflexivity|].
  apply (@padding_keeps_empty_boxes example_padding example_image
           (NDArray [0] []) nimg nboxes); [left; simpl; lia | exact E].
Defined.

Lemma tab3_eq_list {A : Type} (d : A) (n0 n1 n2 : nat)
    (f : nat -> nat -> nat -> A) (l : list A) :
  length l = n0 * (n1 * n2) ->
  (forall i j k, i < n0 -> j < n1 -> k < n2 ->
     f i j k = get3 d n1 n2 l i j k) ->
  tab3 n0 n1 n2 f = l.
Proof.
  intros Hl Hf. apply (nth_ext _ _ d d).
  - rewrite length_tab3. symmetry; exact Hl.
  - intros idx Hidx. rewrite length_tab3 in Hidx.
    assert (H12 : 0 < n1 * n2) by (destruct (n1 * n2); lia).
    assert (H2 : 0 < n2) by (destruct n2; lia).
    set (i := idx / (n1 * n2)). set (r := idx mod (n1 * n2)).
    set (j := r / n2). set (k := r mod n2).
    assert (Hi : i < n0) by (apply Nat.Div0.div_lt_upper_bound; lia).
    assert (Hr : r < n1 * n2) by (apply Nat.mod_upper_bound; lia).
    assert (Hj : j < n1) by (apply Nat.Div0.div_lt_upper_bound; lia).
    assert (Hk : k < n2) by (apply Nat.mod_upper_bound; lia).
    assert (Er : r = j * n2 + k)
      by (unfold j, k; rewrite (Nat.div_mod_eq r n2) at 1; lia).
    assert (Eidx : idx = (i * n1 + j) * n2 + k).
    { rewrite (Nat.div_mod_eq idx (n1 * n2)). fold i r. rewrite Er. lia. }
    rewrite Eidx.
    change (nth ((i * n1 + j) * n2 + k) (tab3 n0 n1 n2 f) d)
      with (get3 d n1 n2 (tab3 n0 n1 n2 f) i j k).
    rewrite get3_tab3 by assumption. rewrite Hf by assumption. reflexivity.
Qed.

(** X14.  On an image that already has the target size,
    [Padding.__call__] is the identity: the image comes back as it is,
    whatever the pad value, and every box coordinate keeps its value. *)
Theorem padding_exact_size_identity (self : Pad.Padding)
    (img : ndarray Z) (boxes : ndarray Q) (h w c n k : nat) :
  shape img = [h; w; c] -> ndarray_wf img ->
  Pad.target_size self = (Z.of_nat w, Z.of_nat h) ->
  shape boxes = [n; k] -> 4 <= k -> length (elems boxes) = n * k ->
  exists nboxes,
    Pad.call self img boxes = Ok (img, nboxes) /\
    shape nboxes = shape boxes /\
    length (elems nboxes) = length (elems boxes) /\
    forall idx, idx < n * k ->
      (nth idx (elems nboxes) 0 == nth idx (elems boxes) 0)%Q.
Proof.
  intros Si Wf Ets Sb Hk Lb.
  assert (Ep : Pad.pads self h w = (0, 0, 0, 0)%Z).
  { unfold Pad.pads. rewrite Ets, !Z.sub_diag.
    destruct (Z.gtb_spec (Z.of_nat w) (Z.of_nat w)); [lia|].
    destruct (Z.gtb_spec (Z.of_nat h) (Z.of_nat h)); [lia|]. reflexivity. }
  rewrite (padding_call_fits self img boxes Si Ets (Z.le_refl _)
             (Z.le_refl _) Ep).
  rewrite !Nat2Z.id. cbn [Z.to_nat].
  assert (Eimg : NDArray [h; w; c]
                   (tab3 h w c
                      (fun y x ch =>
                         if (0 <=? y) && (y <? 0 + h) && (0 <=? x)
                            && (x <? 0 + w)
                         then get3 0%Z w c (elems img) (y - 0) (x - 0) ch
                         else Pad.pad_value self)) = img).
  { destruct img as [sh el]. cbn [shape elems] in *. subst sh. f_equal.
    apply (tab3_eq_list 0%Z).
    - unfold ndarray_wf in Wf; cbn [shape elems fold_right] in Wf. lia.
    - intros y x ch Hy Hx Hc.
      destruct (Nat.ltb_spec y (0 + h)); [|lia].
      destruct (Nat.ltb_spec x (0 + w)); [|lia].
      cbn [Nat.leb andb]. rewrite !Nat.sub_0_r. reflexivity. }
  rewrite Eimg, Sb.
  destruct (Nat.ltb_spec 0 n) as [Hn|Hn].
  - destruct (Nat.ltb_spec 2 k); [|lia]. destruct (Nat.ltb_spec 3 k); [|lia].
    cbn [check bind]. eexists. split; [reflexivity|]. cbn [shape elems].
    split; [reflexivity|]. split.
    { rewrite !length_assign_cols; auto. rewrite length_assign_cols; auto. }
    intros idx Hidx.
    rewrite nth_assign_cols by (rewrite ?length_assign_cols; auto; lia).
    rewrite nth_assign_cols by (auto; lia).
    destruct (existsb _ [1; 3]); [unfold Zq; simpl; ring|].
    destruct (existsb _ [0; 2]); [unfold Zq; simpl; ring|]. reflexivity.
  - exists boxes. cbn [bind]. split; [reflexivity|].
    split; [exact Sb|]. split; [reflexivity|]. intros; reflexivity.
Qed.

Lemma padding_exact_size_identity_witness :
  shape example_image = [2; 3; 1] /\ ndarray_wf example_image /\
  Pad.target_size example_exact_padding = (Z.of_nat 3, Z.of_nat 2) /\
  shape example_boxes = [2; 4] /\ 4 <= 4 /\
  length (elems example_boxes) = 2 * 4 /\
  exists nboxes,
    Pad.call example_exact_padding example_image example_boxes
    = Ok (example_image, nboxes).
Proof.
  repeat (split; [first [reflexivity | lia]|]).
  destruct (@padding_exact_size_identity example_exact_padding example_image
              example_boxes 2 3 1 2 4) as (nboxes & E & _);
    first [reflexivity | lia | idtac].
  exists nboxes. exact E.
Defined.

(** * The detector's forward pass *)

Lemma Qdiv_le_compat (a b s : Q) :
  (0 < s)%Q -> (a <= b)%Q -> (a / s <= b / s)%Q.
Proof.
  intros Hs H. unfold Qdiv. apply Qmult_le_compat_r; [exact H|].
  apply Qlt_le_weak. apply Qinv_lt_0_compat. exact Hs.
Qed.

Lemma Forall2_map_same {A : Type} (R : A -> A -> Prop) (f : A -> A)
    (l : list A) :
  (forall x, R x (f x)) -> Forall2 R l (map f l).
Proof. intros H. induction l; simpl; constructor; auto. Qed.

Section DetectorForward.
Variable Logits : Type.
Variable preprocess : tensor4 -> result (tensor4 * Q * list Q).
Variable arch_forward : tensor4 -> result Logits.
Variable postprocess : Logits -> result (list prediction).

Abbreviation forward_of :=
  (detector_forward preprocess arch_forward postprocess).

(** The result of [forward] as one map over the post-processed rows. *)
Lemma detector_forward_inv (batch : tensor4) (out : list prediction) :
  forward_of batch = Ok out ->
  exists batch' sf p0 p1 pad logits preds,
    preprocess batch = Ok (batch', sf, p0 :: p1 :: pad) /\
    arch_forward batch' = Ok logits /\
    postprocess logits = Ok preds /\
    out = map (fun p =>
                 Pred (V4 (clamp ((c0 (p_box p) - p0) / (sf + eps16)) 0
                                 (Nq (d3 batch)))
                          (clamp ((c1 (p_box p) - p1) / (sf + eps16)) 0
                                 (Nq (d2 batch)))
                          (clamp ((c2 (p_box p) - p0) / (sf + eps16)) 0
                                 (Nq (d3 batch)))
                          (clamp ((c3 (p_box p) - p1) / (sf + eps16)) 0
                                 (Nq (d2 batch))))
                      (p_score p) (p_batch p)) preds.
Proof.
  unfold detector_forward.
  destruct (preprocess batch) as [[[batch' sf] pad]|e] eqn:Ep; cbn [bind];
    [|discriminate].
  destruct (arch_forward batch') as [logits|e] eqn:Ef; cbn [bind];
    [|discriminate].
  destruct (postprocess logits) as [preds|e] eqn:Eo; cbn [bind];
    [|discriminate].
  destruct pad as [|p0 [|p1 pad]]; cbn [bind]; try discriminate.
  intros E; injection E as <-.
  exists batch', sf, p0, p1, pad, logits, preds.
  split; [reflexivity|]. split; [exact Ef|]. split; [exact Eo|].
  rewrite !map_map. reflexivity.
Qed.

(** X15.  When the scale factor [sf] that [preprocess] returns is not
    negative, so that the divisor [sf + 1e-16] is positive, every box that
    [FaceDetector.forward] returns lies inside the input image,
    [0 <= x <= image_w] and [0 <= y <= image_h], whatever numbers the
    architecture's post-processing predicts; the scores and batch indices
    are those of the post-processing, in the same order.  (With a zero
    divisor torch divides to [nan] or an infinity, and [clamp] keeps a
    [nan].) *)
Theorem detector_forward_in_image (batch : tensor4)
    (out : list prediction) :
  forward_of batch = Ok out ->
  exists batch' sf pad logits preds,
    preprocess batch = Ok (batch', sf, pad) /\
    arch_forward batch' = Ok logits /\
    postprocess logits = Ok preds /\
    map p_score out = map p_score preds /\
    map p_batch out = map p_batch preds /\
    ((0 <= sf)%Q ->
     Forall (fun p => in_image (d3 batch) (d2 batch) (p_box p)) out).
Proof.
  intros E.
  destruct (detector_forward_inv _ E)
    as (batch' & sf & p0 & p1 & pad & logits & preds & Ep & Ef & Eo & ->).
  exists batch', sf, (p0 :: p1 :: pad), logits, preds.
  repeat (split; [assumption|]). rewrite !map_map.
  split; [reflexivity|]. split; [reflexivity|].
  intros _. apply Forall_forall. intros p Hp. apply in_map_iff in Hp.
  destruct Hp as (q & <- & _). unfold in_image; cbn [p_box c0 c1 c2 c3].
  repeat split; apply clamp_bounds; apply Nq_nonneg.
Qed.

(** X16.  When the scale factor is positive, [FaceDetector.forward] keeps
    ordered boxes ordered: a post-processed row with [xmin <= xmax]
    (resp. [ymin <= ymax]) is returned with [xmin <= xmax] (resp.
    [ymin <= ymax]). *)
Theorem detector_forward_keeps_order (batch : tensor4)
    (out : list prediction) :
  forward_of batch = Ok out ->
  exists batch' sf pad logits preds,
    preprocess batch = Ok (batch', sf, pad) /\
    arch_forward batch' = Ok logits /\
    postprocess logits = Ok preds /\
    ((0 < sf)%Q ->
     Forall2 (fun p q =>
                ((c0 (p_box p) <= c2 (p_box p))%Q ->
                 (c0 (p_box q) <= c2 (p_box q))%Q) /\
                ((c1 (p_box p) <= c3 (p_box p))%Q ->
                 (c1 (p_box q) <= c3 (p_box q))%Q))
             preds out).
Proof.
  intros E.
  destruct (detector_forward_inv _ E)
    as (batch' & sf & p0 & p1 & pad & logits & preds & Ep & Ef & Eo & ->).
  exists batch', sf, (p0 :: p1 :: pad), logits, preds.
  repeat (split; [assumption|]).
  intros Hsf.
  assert (Hs : (0 < sf + eps16)%Q).
  { assert ((0 < eps16)%Q) by reflexivity. lra. }
  apply Forall2_map_same. intros p; cbn [p_box c0 c1 c2 c3].
  split; intros H; apply clamp_mono; apply Qdiv_le_compat; try exact Hs; lra.
Qed.
End DetectorForward.

Lemma detector_forward_in_image_witness :
  exists out,
    detector_forward example_preprocess example_arch_forward
      example_postprocess example_cls_logits = Ok out /\
    Forall (fun p => in_image 4 4 (p_box p)) out.
Proof.
  destruct (detector_forward example_preprocess example_arch_forward
              example_postprocess example_cls_logits) as [out|e] eqn:E;
    [|vm_compute in E; discriminate E].
  exists out. split; [reflexivity|].
  destruct (@detector_forward_in_image unit example_preprocess
              example_arch_forward example_postprocess
              example_cls_logits out E)
    as (batch' & sf & pad & logits & preds & Ep & _ & _ & _ & _ & H).
  injection Ep as _ <- _. apply H. discriminate.
Defined.

Lemma detector_forward_keeps_order_witness :
  exists out sf,
    detector_forward example_preprocess example_arch_forward
      example_postprocess example_cls_logits = Ok out /\
    (0 < sf)%Q /\ length out = 2.
Proof.
  destruct (detector_forward example_preprocess example_arch_forward
              example_postprocess example_cls_logits) as [out|e] eqn:E;
    [|vm_compute in E; discriminate E].
  destruct (@detector_forward_keeps_order unit example_preprocess
              example_arch_forward example_postprocess
              example_cls_logits out E)
    as (batch' & sf & pad & logits & preds & Ep & _ & Eo & H).
  injection Ep as _ <- _. injection Eo as <-.
  exists out, 2%Q. split; [reflexivity|].
  assert (Hs : (0 < 2)%Q) by reflexivity. split; [exact Hs|].
  apply Forall2_length in H; [|exact Hs]. rewrite <- H. reflexivity.
Defined.


(** * Architecture discovery *)

Section ConfigStrings.
Import Ascii String.

Lemma str_eqb_eq (a b : Config.str) : Config.str_eqb a b = true <-> a = b.
Proof.
  revert b. induction a as [|x a IH]; intros [|y b]; simpl;
    try (split; [discriminate|discriminate]); [split; reflexivity|].
  rewrite andb_true_iff, Ascii.eqb_eq, IH. split.
  - intros [-> ->]. reflexivity.
  - intros E. injection E as -> ->. split; reflexivity.
Qed.

Lemma str_eqb_refl (a : Config.str) : Config.str_eqb a a = true.
Proof. apply str_eqb_eq. reflexivity. Qed.

Lemma str_eqb_neq (a b : Config.str) : Config.str_eqb a b = false <-> a <> b.
Proof.
  split.
  - intros E H. apply str_eqb_eq in H. congruence.
  - intros H. destruct (Config.str_eqb a b) eqn:E; [|reflexivity].
    apply str_eqb_eq in E. contradiction.
Qed.

Lemma startswith_app (p t : Config.str) : Config.startswith (p ++ t) p = true.
Proof.
  induction p as [|x p IH]; simpl; [destruct t; reflexivity|].
  rewrite Ascii.eqb_refl. exact IH.
Qed.

Lemma startswith_other (x y : ascii) (s p : Config.str) :
  x <> y -> Config.startswith (x :: s) (y :: p) = false.
Proof. intros H. simpl. apply Ascii.eqb_neq in H. rewrite H. reflexivity. Qed.

Lemma endswith_last (s p : Config.str) (x y : ascii) :
  x <> y -> Config.endswith (s ++ [x]) (p ++ [y]) = false.
Proof.
  intros H. unfold Config.endswith. rewrite !rev_app_distr. simpl.
  apply Ascii.eqb_neq in H. rewrite H. reflexivity.
Qed.

(** ** [str.replace] *)

Lemma replace_from_skip (old new : Config.str) (count : option nat)
    (u t : Config.str) :
  Config.replace_from old new count (List.length u) (u ++ t)
  = Config.replace_from old new count 0 t.
Proof. induction u as [|x u IH]; simpl; [reflexivity|exact IH]. Qed.

Lemma replace_from_done (old new t : Config.str) :
  Config.replace_from old new (Some 0) 0 t = t.
Proof.
  induction t as [|x t IH]; [reflexivity|].
  cbn [Config.replace_from Config.can_replace]. rewrite andb_false_r, IH.
  reflexivity.
Qed.

Lemma replace_prefix_once (old new t : Config.str) :
  old <> [] -> Config.replace (old ++ t) old new 1 = new ++ t.
Proof.
  destruct old as [|o old]; [congruence|]. intros _.
  unfold Config.replace. cbn [Z.ltb Z.compare Z.to_nat Pos.to_nat Pos.iter_op].
  change ((o :: old) ++ t) with (o :: (old ++ t)).
  cbn [Config.replace_from].
  change (o :: old ++ t) with ((o :: old) ++ t). rewrite startswith_app.
  cbn [andb Config.can_replace Nat.add Config.one_less Nat.sub List.length].
  rewrite Nat.sub_0_r, replace_from_skip, replace_from_done. reflexivity.
Qed.

Lemma replace_from_plain (o : ascii) (old new : Config.str)
    (count : option nat) (u t : Config.str) :
  Forall (fun c => c <> o) u ->
  Config.replace_from (o :: old) new count 0 (u ++ t)
  = u ++ Config.replace_from (o :: old) new count 0 t.
Proof.
  induction 1 as [|x u Hx Hu IH]; [reflexivity|].
  change ((x :: u) ++ t) with (x :: (u ++ t)).
  cbn [Config.replace_from]. rewrite (@startswith_other _ _ _ _ Hx).
  cbn [andb]. rewrite IH. reflexivity.
Qed.

(** ** [str.split] and [str.join] *)

Lemma split_not_nil (c : ascii) (s : Config.str) : Config.split c s <> [].
Proof.
  destruct s as [|x s]; simpl; [discriminate|].
  destruct (Ascii.eqb x c); [discriminate|].
  destruct (Config.split c s); discriminate.
Qed.

Lemma split_app (c : ascii) (a b : Config.str) :
  Config.split c (a ++ c :: b) = Config.split c a ++ Config.split c b.
Proof.
  induction a as [|x a IH]; simpl.
  - rewrite Ascii.eqb_refl. reflexivity.
  - destruct (Ascii.eqb x c); [rewrite IH; reflexivity|].
    rewrite IH. destruct (Config.split c a) as [|w ws] eqn:E;
      [exfalso; exact (split_not_nil _ _ E)|]. reflexivity.
Qed.

Lemma split_plain (s : Config.str) :
  Config.no_sep s = true -> Config.split Config.sep_char s = [s].
Proof.
  unfold Config.no_sep. induction s as [|x s IH]; simpl; [reflexivity|].
  intros H. apply andb_true_iff in H. destruct H as [Hx Hs].
  apply negb_true_iff in Hx. rewrite Hx, (IH Hs). reflexivity.
Qed.

Lemma join_split (c : ascii) (s : Config.str) :
  Config.str_join [c] (Config.split c s) = s.
Proof.
  induction s as [|x s IH]; [reflexivity|].
  cbn [Config.split]. destruct (Ascii.eqb x c) eqn:E.
  - apply Ascii.eqb_eq in E. subst x.
    destruct (Config.split c s) as [|w ws] eqn:Es;
      [exfalso; exact (split_not_nil _ _ Es)|].
    change (Config.str_join [c] ([] :: w :: ws))
      with ([] ++ [c] ++ Config.str_join [c] (w :: ws)).
    rewrite IH. reflexivity.
  - destruct (Config.split c s) as [|w ws] eqn:Es;
      [exfalso; exact (split_not_nil _ _ Es)|].
    destruct ws as [|w' ws]; [simpl in *; rewrite IH; reflexivity|].
    change (Config.str_join [c] ((x :: w) :: w' :: ws))
      with (x :: (w ++ [c] ++ Config.str_join [c] (w' :: ws))).
    change (Config.str_join [c] (w :: w' :: ws))
      with (w ++ [c] ++ Config.str_join [c] (w' :: ws)) in IH.
    rewrite IH. reflexivity.
Qed.

(** ** [str.lower] *)

Lemma lower_char_not_upper (c : ascii) :
  Config.is_upper (Config.lower_char c) = false.
Proof. destruct c as [[] [] [] [] [] [] [] []]; vm_compute; reflexivity. Qed.

Lemma lower_not_upper (s : Config.str) :
  existsb Config.is_upper (Config.lower s) = false.
Proof.
  induction s as [|x s IH]; simpl; [reflexivity|].
  rewrite lower_char_not_upper, IH. reflexivity.
Qed.

(** ** Paths *)

Lemma plain_name_chars (s : Config.str) :
  Config.plain_name s = true ->
  s <> [] /\ Forall (fun c => c <> Config.sep_char) s /\
  Forall (fun c => c <> "."%char) s.
Proof.
  unfold Config.plain_name. destruct s as [|x s]; [discriminate|].
  intros H. split; [discriminate|].
  rewrite forallb_forall in H.
  split; apply Forall_forall; intros c Hc; specialize (H c Hc);
    unfold Config.plain_char in H; apply andb_true_iff in H;
    destruct H as [H1 H2]; apply negb_true_iff in H1, H2;
    apply Ascii.eqb_neq; assumption.
Qed.

Lemma join_plain (a name : Config.str) :
  a <> [] -> Config.endswith a Config.sep = false ->
  Config.plain_name name = true ->
  Config.join a name = a ++ Config.sep ++ name /\
  Config.endswith (a ++ Config.sep ++ name) Config.sep = false.
Proof.
  intros Ha He Hn. destruct (plain_name_chars _ Hn) as (Hne & Hs & _).
  split.
  - unfold Config.join. destruct name as [|x name]; [congruence|].
    inversion Hs as [|? ? Hx _]; subst.
    unfold Config.sep at 1. rewrite (@startswith_other _ _ _ _ Hx).
    rewrite He. destruct a; [congruence|]. reflexivity.
  - destruct (exists_last Hne) as (init & z & ->).
    apply Forall_app in Hs. destruct Hs as [_ Hz].
    inversion Hz as [|? ? Hz' _]; subst.
    rewrite !app_assoc. apply (@endswith_last _ [] _ _ Hz').
Qed.

Lemma arch_path_shape (config_file : Config.str) :
  Config.get_pkg_arch_path config_file <> [] /\
  Config.endswith (Config.get_pkg_arch_path config_file) Config.sep = false.
Proof.
  unfold Config.get_pkg_arch_path, Config.join.
  set (root := Config.get_pkg_root_path config_file).
  change (Config.startswith (Config.lit "arch") Config.sep) with false.
  cbv iota.
  assert (H : forall p, p ++ Config.lit "arch" <> [] /\
                        Config.endswith (p ++ Config.lit "arch") Config.sep
                        = false).
  { intros p. split.
    - destruct p; discriminate.
    - change (Config.lit "arch") with (Config.lit "arc" ++ ["h"%char]).
      rewrite app_assoc. apply (@endswith_last _ [] _ _). discriminate. }
  destruct (_ || _); [apply H|].
  rewrite app_assoc. apply H.
Qed.

Lemma module_file_plain (a name : Config.str) :
  a <> [] -> Config.endswith a Config.sep = false ->
  Config.plain_name name = true ->
  Config.module_file a name
  = a ++ Config.sep ++ name ++ Config.lit "/module.py".
Proof.
  intros Ha He Hn. unfold Config.module_file.
  destruct (@join_plain a name Ha He Hn) as [-> He'].
  unfold Config.join.
  change (Config.startswith (Config.lit "module.py") Config.sep) with false.
  cbv iota. rewrite He', orb_false_r.
  destruct (a ++ Config.sep ++ name) eqn:E.
  - destruct a; [congruence|discriminate].
  - rewrite <- E. rewrite <- !app_assoc. reflexivity.
Qed.

Lemma module_name_plain (a name : Config.str) :
  a <> [] -> Config.endswith a Config.sep = false ->
  Config.plain_name name = true ->
  Config.module_name a (Config.module_file a name)
  = name ++ Config.lit ".module".
Proof.
  intros Ha He Hn. rewrite (@module_file_plain a name Ha He Hn).
  destruct (plain_name_chars _ Hn) as (_ & Hs & Hd).
  assert (E1 : Config.replace
                 (a ++ Config.sep ++ name ++ Config.lit "/module.py") a [] 1
               = Config.sep ++ name ++ Config.lit "/module.py").
  { rewrite (@replace_prefix_once a [] _ Ha). reflexivity. }
  assert (E2 : Config.replace
                 (Config.sep ++ name ++ Config.lit "/module.py")
                 (Config.lit ".py") [] (-1)
               = Config.sep ++ name ++ Config.lit "/module").
  { unfold Config.replace.
    change (Config.lit ".py") with ("."%char :: Config.lit "py").
    cbn [Z.ltb Z.compare]. rewrite app_assoc.
    rewrite replace_from_plain;
      [|constructor; [discriminate|exact Hd]].
    rewrite <- app_assoc. reflexivity. }
  assert (E3 : Config.startswith
                 (Config.sep ++ name ++ Config.lit "/module") Config.sep
               = true) by apply startswith_app.
  assert (E4 : Config.replace
                 (Config.sep ++ name ++ Config.lit "/module") Config.sep [] 1
               = name ++ Config.lit "/module").
  { rewrite (@replace_prefix_once Config.sep [] _) by discriminate.
    reflexivity. }
  assert (E5 : Config.replace (name ++ Config.lit "/module") Config.sep
                 (Config.lit ".") (-1)
               = name ++ Config.lit ".module").
  { unfold Config.replace, Config.sep. cbn [Z.ltb Z.compare].
    rewrite replace_from_plain by exact Hs. reflexivity. }
  unfold Config.module_name. cbv zeta. rewrite E1, E2, E3, E4. exact E5.
Qed.
End ConfigStrings.

Section ConfigFacts.
Import Ascii String.
Variable config_file : Config.str.
Variable listdir : Config.str -> result (list Config.str).
Variable isfile : Config.str -> bool.
Variable Cls : Type.
Variable import_module : Config.str -> result (list (Config.str * Cls)).

Abbreviation arch_path := (Config.get_pkg_arch_path config_file).
Abbreviation discover_in := (Config.discover_in isfile).
Abbreviation pkg_loop := (Config.get_arch_pkg_loop import_module).
Abbreviation cls_loop := (Config.get_arch_cls_loop import_module).
Abbreviation pkg_of :=
  (Config.get_arch_pkg config_file listdir isfile import_module).
Abbreviation cls_of :=
  (Config.get_arch_cls config_file listdir isfile import_module).
Abbreviation imported ap name :=
  (import_module
     (Config.lit "mypackage.arch."
      ++ Config.module_name ap (Config.module_file ap name))).

(** What [discover_archs] yields: listed directories with a [module.py]. *)
Lemma discover_in_items (ap : Config.str) (names : list Config.str)
    (n mp : Config.str) :
  In (n, mp) (Config.gen_items (discover_in ap names)) ->
  In n names /\ isfile (Config.join ap n) = false /\
  n <> Config.lit "__pycache__" /\
  mp = Config.module_file ap n /\ isfile mp = true.
Proof.
  induction names as [|x names IH]; simpl; [contradiction|].
  destruct (isfile (Config.join ap x)
            || Config.str_eqb x (Config.lit "__pycache__")) eqn:Es.
  - intros H. destruct (IH H) as (H1 & H2). split; [right; exact H1|exact H2].
  - apply orb_false_iff in Es. destruct Es as [Ef Ep].
    apply str_eqb_neq in Ep.
    destruct (isfile (Config.join (Config.join ap x) (Config.lit "module.py")))
      eqn:Em; simpl; [|contradiction].
    intros [H|H].
    + injection H as <- <-. repeat split; auto.
    + destruct (IH H) as (H1 & H2). split; [right; exact H1|exact H2].
Qed.

Lemma find_cls_some (arch : Config.str) (api : list (Config.str * Cls))
    (v : Cls) :
  Config.find_cls arch api = Some v ->
  exists d, In (d, v) api /\ Config.lower d = arch.
Proof.
  induction api as [|[d w] api IH]; simpl; [discriminate|].
  destruct (Config.str_eqb (Config.lower d) arch) eqn:E; simpl.
  - intros H. injection H as <-. exists d. split; [left; reflexivity|].
    apply str_eqb_eq. exact E.
  - intros H. destruct (IH H) as (d' & H1 & H2). exists d'.
    split; [right; exact H1|exact H2].
Qed.

Lemma find_cls_first (arch d : Config.str) (v : Cls)
    (before after : list (Config.str * Cls)) :
  Forall (fun p => Config.lower (fst p) <> arch) before ->
  Config.lower d = arch ->
  Config.find_cls arch (before ++ (d, v) :: after) = Some v.
Proof.
  intros Hb Hd. induction Hb as [|[d' w] before Hx _ IH]; simpl.
  - rewrite Hd, str_eqb_refl. reflexivity.
  - simpl in Hx. apply str_eqb_neq in Hx. rewrite Hx. exact IH.
Qed.

Lemma cls_loop_sound (ap arch : Config.str)
    (g : Config.gen (Config.str * Config.str)) (c : Cls) :
  cls_loop ap arch g = Ok c ->
  exists mp api d,
    In (arch, mp) (Config.gen_items g) /\
    import_module (Config.lit "mypackage.arch." ++ Config.module_name ap mp)
    = Ok api /\
    In (d, c) api /\ Config.lower d = arch.
Proof.
  induction g as [|[n mp] rest IH|e]; simpl; try discriminate.
  assert (Hrest : cls_loop ap arch rest = Ok c ->
                  exists mp0 api d,
                    ((n, mp) = (arch, mp0)
                     \/ In (arch, mp0) (Config.gen_items rest)) /\
                    import_module
                      (Config.lit "mypackage.arch."
                       ++ Config.module_name ap mp0) = Ok api /\
                    In (d, c) api /\ Config.lower d = arch).
  { intros H. destruct (IH H) as (mp0 & api & d & H1 & H2).
    exists mp0, api, d. split; [right; exact H1|exact H2]. }
  destruct (Config.str_eqb n arch) eqn:En; simpl; [|exact Hrest].
  apply str_eqb_eq in En. subst n.
  destruct (import_module _) as [api|e] eqn:Ei; simpl; [|discriminate].
  destruct (Config.find_cls arch api) as [v|] eqn:Ef; [|exact Hrest].
  intros H. injection H as <-.
  destruct (find_cls_some _ _ Ef) as (d & H1 & H2).
  exists mp, api, d. split; [left; reflexivity|].
  split; [exact Ei|]. split; assumption.
Qed.

(** Both lookups end in [AssertionError] when every listed entry called
    [arch] is skipped by [discover_archs]. *)
Lemma loops_skip (ap arch : Config.str) (names : list Config.str) :
  (isfile (Config.join ap arch)
   || Config.str_eqb arch (Config.lit "__pycache__") = true
   \/ ~ In arch names) ->
  pkg_loop ap arch (discover_in ap names) = Err AssertionError /\
  cls_loop ap arch (discover_in ap names) = Err AssertionError.
Proof.
  intros H. induction names as [|x names IH]; simpl; [split; reflexivity|].
  assert (IH' : pkg_loop ap arch (discover_in ap names) = Err AssertionError /\
                cls_loop ap arch (discover_in ap names) = Err AssertionError).
  { apply IH. destruct H as [H|H]; [left; exact H|].
    right. intros Hin. apply H. right. exact Hin. }
  clear IH.
  destruct (isfile (Config.join ap x)
            || Config.str_eqb x (Config.lit "__pycache__")) eqn:Es;
    [exact IH'|].
  destruct (isfile (Config.join (Config.join ap x) (Config.lit "module.py")));
    simpl; [|split; reflexivity].
  destruct (Config.str_eqb x arch) eqn:Ex; simpl; [|exact IH'].
  apply str_eqb_eq in Ex. subst x. exfalso.
  destruct H as [H|H]; [congruence|]. apply H. left. reflexivity.
Qed.

(** The first usable entry called [arch] decides the lookup. *)
Lemma loops_first (ap arch : Config.str) (pre post : list Config.str) :
  Forall (fun n => isfile (Config.join ap n) = true \/
                   n = Config.lit "__pycache__" \/
                   isfile (Config.module_file ap n) = true) pre ->
  isfile (Config.join ap arch) = false ->
  arch <> Config.lit "__pycache__" ->
  isfile (Config.module_file ap arch) = true ->
  pkg_loop ap arch (discover_in ap (pre ++ arch :: post)) = imported ap arch /\
  forall api v,
    imported ap arch = Ok api -> Config.find_cls arch api = Some v ->
    cls_loop ap arch (discover_in ap (pre ++ arch :: post)) = Ok v.
Proof.
  intros Hpre Hf Hp Hm. apply str_eqb_neq in Hp.
  induction Hpre as [|x pre Hx _ IH]; simpl.
  - rewrite Hf, Hp. simpl. unfold Config.module_file in Hm. rewrite Hm.
    simpl. rewrite str_eqb_refl. simpl. split; [reflexivity|].
    intros api v Hi Hv. unfold Config.module_file in Hi. rewrite Hi. simpl.
    rewrite Hv. reflexivity.
  - destruct (isfile (Config.join ap x)
              || Config.str_eqb x (Config.lit "__pycache__")) eqn:Es;
      [exact IH|].
    apply orb_false_iff in Es. destruct Es as [Ef Ep].
    apply str_eqb_neq in Ep.
    destruct Hx as [Hx|[Hx|Hx]]; [congruence|contradiction|].
    unfold Config.module_file in Hx. rewrite Hx. simpl.
    destruct (Config.str_eqb x arch) eqn:Ex; simpl; [|exact IH].
    apply str_eqb_eq in Ex. subst x. split; [reflexivity|].
    intros api v Hi Hv. unfold Config.module_file in Hi. rewrite Hi. simpl.
    rewrite Hv. reflexivity.
Qed.

(** X17.  [get_arch_cls] returns only an attribute of the module
    [module.py] of a listed directory called [arch], and only one whose
    name, in lower case, is [arch]. *)
Theorem get_arch_cls_sound (arch : Config.str) (c : Cls) :
  cls_of arch = Ok c ->
  exists names api d,
    listdir arch_path = Ok names /\ In arch names /\
    isfile (Config.join arch_path arch) = false /\
    isfile (Config.module_file arch_path arch) = true /\
    imported arch_path arch = Ok api /\
    In (d, c) api /\ Config.lower d = arch.
Proof.
  unfold Config.get_arch_cls, Config.discover_archs. cbv zeta.
  destruct (listdir arch_path) as [names|e] eqn:El; [|discriminate].
  intros H. destruct (cls_loop_sound _ _ _ H) as (mp & api & d & Hin & Hi & Hd).
  destruct (discover_in_items _ _ _ _ Hin) as (H1 & H2 & _ & -> & H4).
  exists names, api, d. destruct Hd as [Hd1 Hd2].
  repeat split; first [assumption | reflexivity].
Qed.

(** X18.  An architecture name with a capital letter [A]-[Z] is never
    found by [get_arch_cls]: the attribute names are compared in lower
    case with the name as given. *)
Theorem get_arch_cls_capital_not_found (arch : Config.str) :
  existsb Config.is_upper arch = true ->
  is_ok (cls_of arch) = false.
Proof.
  intros Hu. destruct (cls_of arch) as [c|e] eqn:E; [|reflexivity].
  exfalso. unfold Config.get_arch_cls, Config.discover_archs in E.
  cbv zeta in E.
  destruct (listdir arch_path) as [names|e]; [|discriminate].
  destruct (cls_loop_sound _ _ _ E) as (mp & api & d & _ & _ & _ & Hd).
  rewrite <- Hd, lower_not_upper in Hu. discriminate.
Qed.

(** X19.  When the listing of the architecture directory has no entry
    [arch], or the entry is a file, or [arch] is [__pycache__], both
    [get_arch_pkg] and [get_arch_cls] raise [AssertionError], whatever
    [import_module] would do. *)
Theorem get_arch_unlisted (arch : Config.str) (names : list Config.str) :
  listdir arch_path = Ok names ->
  ~ In arch names \/ isfile (Config.join arch_path arch) = true \/
  arch = Config.lit "__pycache__" ->
  pkg_of arch = Err AssertionError /\ cls_of arch = Err AssertionError.
Proof.
  intros El H.
  unfold Config.get_arch_pkg, Config.get_arch_cls, Config.discover_archs.
  cbv zeta. rewrite El. apply loops_skip.
  destruct H as [H|[H|H]].
  - right. exact H.
  - left. rewrite H. reflexivity.
  - left. subst arch. rewrite str_eqb_refl. apply orb_true_r.
Qed.

(** X20.  [discover_archs] is consumed lazily.  When the directory [arch]
    with its [module.py] is listed and the entries listed before it are
    files, [__pycache__] or directories with a [module.py], then
    [get_arch_pkg] imports [mypackage.arch.<arch>.module] and returns its
    result, whatever is listed after; and [get_arch_cls] returns the first
    attribute of that module whose name in lower case is [arch]. *)
Theorem get_arch_first_match (arch : Config.str)
    (pre post : list Config.str) :
  listdir arch_path = Ok (pre ++ arch :: post) ->
  Forall (fun n => isfile (Config.join arch_path n) = true \/
                   n = Config.lit "__pycache__" \/
                   isfile (Config.module_file arch_path n) = true) pre ->
  isfile (Config.join arch_path arch) = false ->
  arch <> Config.lit "__pycache__" ->
  isfile (Config.module_file arch_path arch) = true ->
  Config.plain_name arch = true ->
  pkg_of arch
  = import_module (Config.lit "mypackage.arch." ++ arch
                   ++ Config.lit ".module") /\
  forall before d v after,
    import_module (Config.lit "mypackage.arch." ++ arch
                   ++ Config.lit ".module")
    = Ok (before ++ (d, v) :: after) ->
    Forall (fun p => Config.lower (fst p) <> arch) before ->
    Config.lower d = arch ->
    cls_of arch = Ok v.
Proof.
  intros El Hpre Hf Hp Hm Hn.
  destruct (arch_path_shape config_file) as [Ha He].
  destruct (@loops_first arch_path arch pre post Hpre Hf Hp Hm)
    as [Hpkg Hcls].
  rewrite (@module_name_plain _ _ Ha He Hn) in Hpkg, Hcls.
  unfold Config.get_arch_pkg, Config.get_arch_cls, Config.discover_archs.
  cbv zeta. rewrite El. split; [exact Hpkg|].
  intros before d v after Hi Hb Hd. apply (Hcls _ v Hi).
  apply find_cls_first; assumption.
Qed.

(** X21.  For [config.py] at [root/<dir>/<file>], [get_pkg_root_path] is
    [root], the path without its last two components; and
    [get_pkg_arch_path] is [root/arch] when [root] is not empty and does
    not end with the separator. *)
Theorem get_pkg_root_path_strips_two (root dir file : Config.str) :
  config_file = root ++ Config.sep ++ dir ++ Config.sep ++ file ->
  Config.no_sep dir = true -> Config.no_sep file = true ->
  Config.get_pkg_root_path config_file = root /\
  (root <> [] -> Config.endswith root Config.sep = false ->
   arch_path = root ++ Config.lit "/arch").
Proof.
  intros E Hd Hf.
  assert (Hr : Config.get_pkg_root_path config_file = root).
  { unfold Config.get_pkg_root_path, Config.ROOT_PATH. cbv zeta.
    rewrite E. unfold Config.sep. cbn [app].
    rewrite !split_app, (split_plain _ Hd), (split_plain _ Hf).
    rewrite !length_app. cbn [List.length].
    replace (List.length (Config.split Config.sep_char root) + (1 + 1) - 2)
      with (List.length (Config.split Config.sep_char root) + 0) by lia.
    rewrite firstn_app_2. cbn [firstn]. rewrite app_nil_r.
    apply join_split. }
  split; [exact Hr|].
  intros Hne He. unfold Config.get_pkg_arch_path. cbv zeta. rewrite Hr.
  unfold Config.join.
  change (Config.startswith (Config.lit "arch") Config.sep) with false.
  cbv iota. rewrite He. destruct root; [congruence|]. reflexivity.
Qed.
End ConfigFacts.

Section ConfigExamples.
Import Ascii String.

Abbreviation example_cls_of :=
  (Config.get_arch_cls Config.example_config_file Config.example_listdir
     Config.example_isfile Config.example_import).
Abbreviation example_pkg_of :=
  (Config.get_arch_pkg Config.example_config_file Config.example_listdir
     Config.example_isfile Config.example_import).

Lemma get_arch_cls_sound_witness :
  example_cls_of Config.name_lffd = Ok 1 /\
  exists d, Config.lower d = Config.name_lffd.
Proof.
  assert (E : example_cls_of Config.name_lffd = Ok 1) by reflexivity.
  split; [exact E|].
  destruct (@get_arch_cls_sound Config.example_config_file
              Config.example_listdir Config.example_isfile nat
              Config.example_import Config.name_lffd 1 E)
    as (names & api & d & _ & _ & _ & _ & _ & _ & Hd).
  exists d. exact Hd.
Defined.

Lemma get_arch_cls_capital_not_found_witness :
  existsb Config.is_upper Config.name_LFFD = true /\
  is_ok (example_cls_of Config.name_LFFD) = false.
Proof.
  split; [reflexivity|].
  apply (@get_arch_cls_capital_not_found Config.example_config_file
           Config.example_listdir Config.example_isfile nat
           Config.example_import Config.name_LFFD).
  reflexivity.
Defined.

Lemma get_arch_unlisted_witness :
  example_pkg_of Config.name_retina = Err AssertionError /\
  example_cls_of Config.name_retina = Err AssertionError.
Proof.
  apply (@get_arch_unlisted Config.example_config_file
           Config.example_listdir Config.example_isfile nat
           Config.example_import Config.name_retina
           [Config.lit "__init__.py"; Config.lit "__pycache__";
            Config.lit "lffd"; Config.lit "broken"]).
  - reflexivity.
  - left. intros [H|[H|[H|[H|[]]]]]; discriminate H.
Defined.

Lemma get_arch_first_match_witness :
  example_pkg_of Config.name_lffd = Config.example_import Config.lffd_module /\
  example_cls_of Config.name_lffd = Ok 1.
Proof.
  destruct (@get_arch_first_match Config.example_config_file
              Config.example_listdir Config.example_isfile nat
              Config.example_import Config.name_lffd
              [Config.lit "__init__.py"; Config.lit "__pycache__"]
              [Config.lit "broken"]) as [Hpkg Hcls].
  - reflexivity.
  - constructor; [left; reflexivity|].
    constructor; [right; left; reflexivity|]. constructor.
  - reflexivity.
  - discriminate.
  - reflexivity.
  - reflexivity.
  - split; [exact Hpkg|].
    apply (Hcls [] Config.name_LFFD 1 [(Config.lit "nn", 2)]).
    + reflexivity.
    + constructor.
    + reflexivity.
Defined.

Lemma get_pkg_root_path_strips_two_witness :
  Config.get_pkg_root_path Config.example_config_file = Config.example_root /\
  Config.get_pkg_arch_path Config.example_config_file
  = Config.example_root ++ Config.lit "/arch".
Proof.
  destruct (@get_pkg_root_path_strips_two Config.example_config_file
              Config.example_root Config.dir_utils Config.file_config)
    as [Hr Ha]; try reflexivity.
  split; [exact Hr|]. apply Ha; [discriminate|reflexivity].
Defined.
End ConfigExamples.

(** * The grouping of predictions for validation *)

Lemma Nq_inj (i j : nat) : (Nq i == Nq j)%Q -> i = j.
Proof.
  unfold Nq. intros H. apply Nat2Z.inj.
  unfold Qeq in H. simpl in H. lia.
Qed.

Lemma groups_length_cons (p : prediction) (l : list prediction)
    (idxs : list nat) :
  NoDup idxs ->
  length (concat (map (fun i =>
            map (fun q => (p_box q, p_score q))
              (filter (fun q => Qeq_bool (p_batch q) (Nq i)) (p :: l))) idxs))
  = (if existsb (fun i => Qeq_bool (p_batch p) (Nq i)) idxs then 1 else 0)
    + length (concat (map (fun i =>
            map (fun q => (p_box q, p_score q))
              (filter (fun q => Qeq_bool (p_batch q) (Nq i)) l)) idxs)).
Proof.
  induction 1 as [|i idxs Hi Hnd IH]; [reflexivity|].
  cbn [map concat existsb]. rewrite !length_app, IH. cbn [filter].
  destruct (Qeq_bool (p_batch p) (Nq i)) eqn:E; cbn [orb map length].
  - assert (Hn : existsb (fun j => Qeq_bool (p_batch p) (Nq j)) idxs = false).
    { destruct (existsb _ idxs) eqn:Ex; [|reflexivity]. exfalso.
      apply existsb_exists in Ex. destruct Ex as (j & Hj & Ej).
      apply Qeq_bool_iff in E, Ej. apply Hi.
      assert (i = j) by (apply Nq_inj; rewrite <- E; exact Ej).
      subst j. exact Hj. }
    rewrite Hn. lia.
  - lia.
Qed.

(** X22.  The groups that [validation_step] hands to the metrics hold
    each prediction with a batch index in [range(batch_size)] once: their
    lengths add up to the number of such predictions, so no prediction is
    counted for two images, and those with another index are dropped. *)
Theorem batch_preds_partition (batch_size : nat) (preds : list prediction) :
  length (batch_preds batch_size preds) = batch_size /\
  length (concat (batch_preds batch_size preds))
  = length (filter (batch_index_in_range batch_size) preds) /\
  (forallb (batch_index_in_range batch_size) preds = true ->
   length (concat (batch_preds batch_size preds)) = length preds).
Proof.
  assert (H : length (concat (batch_preds batch_size preds))
              = length (filter (batch_index_in_range batch_size) preds)).
  { unfold batch_preds, batch_index_in_range.
    induction preds as [|p l IH].
    - cbn [filter map]. induction (seq 0 batch_size); [reflexivity|].
      simpl. assumption.
    - rewrite groups_length_cons by apply seq_NoDup. rewrite IH.
      cbn [filter]. destruct (existsb _ _); reflexivity. }
  split; [unfold batch_preds; rewrite length_map, length_seq; reflexivity|].
  split; [exact H|].
  intros Hall. rewrite H. clear H.
  induction preds as [|p l IH]; [reflexivity|].
  cbn [forallb] in Hall. apply andb_true_iff in Hall.
  destruct Hall as [Hp Hl]. cbn [filter]. rewrite Hp. cbn [length].
  rewrite (IH Hl). reflexivity.
Qed.

Lemma batch_preds_partition_witness :
  forallb (batch_index_in_range 2)
    [Pred (V4 3 3 7 5) (9 # 10) 0; Pred (V4 1 1 2 2) (1 # 2) 1] = true /\
  length (concat (batch_preds 2
    [Pred (V4 3 3 7 5) (9 # 10) 0; Pred (V4 1 1 2 2) (1 # 2) 1])) = 2.
Proof.
  split; [reflexivity|].
  apply (proj2 (proj2 (batch_preds_partition 2
    [Pred (V4 3 3 7 5) (9 # 10) 0; Pred (V4 1 1 2 2) (1 # 2) 1]))).
  reflexivity.
Defined.
